(** * Messaging agent SDK (python-agent): connection core and crypto provider

    A shallow embedding of the Python agent under
    [hmdev/messaging/agent]: the crypto provider ([security/my_security.py],
    [security/aes_ctr.py]), the channel transport
    ([api/impl/messaging_channel_api.py]), the password-exchange helper
    ([util/password_utils.py]) and the connection state machine
    ([core/agent_connection.py]).

    Conventions.
    - A Python [bytes] value is a [list ascii]; one [ascii] is one octet.
    - A Python [str] is represented by the octets of its UTF-8 encoding as a
      Rocq [string], a lone surrogate (which JSON text can denote, and which
      has no UTF-8 encoding) by its three-octet form.  [wf_str] says that a
      string is well-formed UTF-8, i.e. that the [str] has no lone surrogate.
      [str.encode("utf-8")] is then the identity on the representation of a
      well-formed string and raises on any other, and [bytes.decode("utf-8")]
      is a validity check.
    - Values that reach the program from JSON (events, server replies) are
      [json] values, Python's [None] being [JNull].
    - An exception that a function catches itself shows up as the value the
      handler returns; an exception that escapes is the [Raise] outcome.
    - Everything the program asks of the outside (HTTP replies, the session
      files, fresh RSA keys, request ids, the clock) is read from a [World]. *)

From Stdlib Require Import ZArith NArith String Ascii Bool Lia DecimalString.
From Stdlib Require Import List.
Import ListNotations.

Local Open Scope Z_scope.
Local Open Scope list_scope.

(* ================================================================== *)
(** * Octets *)

Definition byte := ascii.
Definition bytes := list ascii.

Definition Z_of_byte (b : byte) : Z := Z.of_N (N_of_ascii b).
Definition byte_of_Z (z : Z) : byte := ascii_of_N (Z.to_N (z mod 256)).

Definition xor_byte (a b : byte) : byte :=
  match a, b with
  | Ascii a0 a1 a2 a3 a4 a5 a6 a7, Ascii b0 b1 b2 b3 b4 b5 b6 b7 =>
      Ascii (xorb a0 b0) (xorb a1 b1) (xorb a2 b2) (xorb a3 b3)
            (xorb a4 b4) (xorb a5 b5) (xorb a6 b6) (xorb a7 b7)
  end.

(** Octet-wise xor of two byte strings, as long as the shorter one. *)
Fixpoint xor_bytes (xs ys : bytes) : bytes :=
  match xs, ys with
  | x :: xs', y :: ys' => xor_byte x y :: xor_bytes xs' ys'
  | _, _ => []
  end.

(** The double quote character. *)
Definition dquote : ascii := Ascii false true false false false true false false.

Definition zero_byte : byte := Ascii false false false false false false false false.

(** [n]-octet big-endian encoding of [z] (the low [8*n] bits). *)
Fixpoint be_bytes (n : nat) (z : Z) : bytes :=
  match n with
  | O => []
  | S n' => byte_of_Z (Z.shiftr z (8 * Z.of_nat n')) :: be_bytes n' z
  end.

Definition bytes_of_str (s : string) : bytes := list_ascii_of_string s.
Definition str_of_bytes (b : bytes) : string := string_of_list_ascii b.

(** Cut a byte string into chunks of [n] octets ([n > 0]); the last chunk may
    be shorter.  [fuel] bounds the number of chunks. *)
Fixpoint chunks (fuel : nat) (n : nat) (l : bytes) : list bytes :=
  match fuel with
  | O => []
  | S fuel' =>
      match l with
      | [] => []
      | _ => firstn n l :: chunks fuel' n (skipn n l)
      end
  end.

(* ================================================================== *)
(** * SHA-256  ([hashlib.sha256], FIPS 180-4) *)

Module SHA256.

Definition w32 (x : Z) : Z := x mod 4294967296.
Definition add32 (x y : Z) : Z := w32 (x + y).
Definition rotr (n x : Z) : Z := w32 (Z.lor (Z.shiftr x n) (Z.shiftl x (32 - n))).
Definition shr (n x : Z) : Z := Z.shiftr x n.
Definition not32 (x : Z) : Z := Z.lxor x 4294967295.

Definition Ch (x y z : Z) := Z.lxor (Z.land x y) (Z.land (not32 x) z).
Definition Maj (x y z : Z) := Z.lxor (Z.lxor (Z.land x y) (Z.land x z)) (Z.land y z).
Definition Sigma0 x := Z.lxor (Z.lxor (rotr 2 x) (rotr 13 x)) (rotr 22 x).
Definition Sigma1 x := Z.lxor (Z.lxor (rotr 6 x) (rotr 11 x)) (rotr 25 x).
Definition sigma0 x := Z.lxor (Z.lxor (rotr 7 x) (rotr 18 x)) (shr 3 x).
Definition sigma1 x := Z.lxor (Z.lxor (rotr 17 x) (rotr 19 x)) (shr 10 x).

(** The constants of FIPS 180-4: the first thirty-two bits of the fractional
    parts of the cube roots (square roots, for the initial hash value) of the
    first primes.  [root_bits k n bit r] is the integer [k]-th root of [n],
    found bit by bit from above. *)
Fixpoint root_bits (k : Z) (n : Z) (bit : nat) (r : Z) : Z :=
  match bit with
  | O => r
  | S b =>
      let r' := r + 2 ^ Z.of_nat b in
      root_bits k n b (if r' ^ k <=? n then r' else r)
  end.

Definition frac32 (k : Z) (p : Z) : Z :=
  root_bits k (p * 2 ^ (32 * k)) 40 0 mod 2 ^ 32.

Definition is_prime (n : nat) : bool :=
  forallb (fun d => negb (n mod d =? 0)%nat) (seq 2 (n - 2)).

Definition primes64 : list Z :=
  Eval vm_compute in map Z.of_nat (filter is_prime (seq 2 310)).

Definition K : list Z := Eval vm_compute in map (frac32 3) primes64.

Record state := mkState { ha : Z; hb : Z; hc : Z; hd : Z; he : Z; hf : Z; hg : Z; hh : Z }.

Definition H0 : state :=
  Eval vm_compute in
    let h i := frac32 2 (nth i primes64 0) in
    mkState (h 0%nat) (h 1%nat) (h 2%nat) (h 3%nat) (h 4%nat) (h 5%nat) (h 6%nat) (h 7%nat).

(** Message padding: a 1 bit, zeros, and the bit length on 64 bits. *)
Definition pad (msg : bytes) : bytes :=
  let len := Z.of_nat (length msg) in
  let k := Z.to_nat ((55 - len) mod 64) in
  msg ++ byte_of_Z 128 :: repeat zero_byte k ++ be_bytes 8 (8 * len).

Definition word_of (b : bytes) : Z :=
  fold_left (fun acc x => acc * 256 + Z_of_byte x) b 0.

(** The sixteen words of a block, then the forty-eight derived ones.  The
    schedule is kept newest first while it grows. *)
Fixpoint extend (n : nat) (rev_w : list Z) : list Z :=
  match n with
  | O => rev_w
  | S n' =>
      let w := add32 (add32 (sigma1 (nth 1 rev_w 0)) (nth 6 rev_w 0))
                     (add32 (sigma0 (nth 14 rev_w 0)) (nth 15 rev_w 0)) in
      extend n' (w :: rev_w)
  end.

Definition schedule (block : bytes) : list Z :=
  rev (extend 48 (rev (map word_of (chunks 16 4 block)))).

Definition round (s : state) (kw : Z * Z) : state :=
  let t1 := add32 (add32 (add32 (hh s) (Sigma1 (he s))) (add32 (Ch (he s) (hf s) (hg s)) (fst kw))) (snd kw) in
  let t2 := add32 (Sigma0 (ha s)) (Maj (ha s) (hb s) (hc s)) in
  mkState (add32 t1 t2) (ha s) (hb s) (hc s) (add32 (hd s) t1) (he s) (hf s) (hg s).

Definition compress (s : state) (block : bytes) : state :=
  let r := fold_left round (combine K (schedule block)) s in
  mkState (add32 (ha s) (ha r)) (add32 (hb s) (hb r)) (add32 (hc s) (hc r)) (add32 (hd s) (hd r))
          (add32 (he s) (he r)) (add32 (hf s) (hf r)) (add32 (hg s) (hg r)) (add32 (hh s) (hh r)).

Definition digest_of (s : state) : bytes :=
  be_bytes 4 (ha s) ++ be_bytes 4 (hb s) ++ be_bytes 4 (hc s) ++ be_bytes 4 (hd s) ++
  be_bytes 4 (he s) ++ be_bytes 4 (hf s) ++ be_bytes 4 (hg s) ++ be_bytes 4 (hh s).

Definition digest (msg : bytes) : bytes :=
  let p := pad msg in
  digest_of (fold_left compress (chunks (length p) 64 p) H0).

Definition block_size : nat := 64.

End SHA256.

(* ================================================================== *)
(** * Hexadecimal *)

Definition hex_digit (n : Z) : ascii :=
  if n <? 10 then byte_of_Z (48 + n) else byte_of_Z (87 + n).

Definition hex_of_byte (b : byte) : list ascii :=
  [hex_digit (Z_of_byte b / 16); hex_digit (Z_of_byte b mod 16)].

(** [bytes.hex()] / [hexdigest()]: lowercase, two digits per octet. *)
Definition hexlify (b : bytes) : string := str_of_bytes (flat_map hex_of_byte b).


(* ================================================================== *)
(** * HMAC-SHA256  ([hmac.new(key, msg, hashlib.sha256)], RFC 2104) *)

Module HMAC.

(** A key longer than the hash block is hashed first; the key is then padded
    with zero octets to the block size. *)
Definition block_key (key : bytes) : bytes :=
  let k := if (SHA256.block_size <? length key)%nat then SHA256.digest key else key in
  k ++ repeat zero_byte (SHA256.block_size - length k).

Definition ipad : bytes := repeat (byte_of_Z 0x36) SHA256.block_size.
Definition opad : bytes := repeat (byte_of_Z 0x5c) SHA256.block_size.

Definition digest (key msg : bytes) : bytes :=
  let k := block_key key in
  SHA256.digest (xor_bytes k opad ++ SHA256.digest (xor_bytes k ipad ++ msg)).

End HMAC.

(* ================================================================== *)
(** * PBKDF2  ([cryptography]'s [PBKDF2HMAC] with SHA-256, RFC 8018) *)

Module PBKDF2.

(** [U_1 xor ... xor U_c] with [U_1 = PRF(P, S || INT(i))] and
    [U_j = PRF(P, U_(j-1))]; the pair carried by the iteration is
    [(U_j, U_1 xor ... xor U_j)]. *)
Definition F (password salt : bytes) (c : positive) (i : Z) : bytes :=
  let u1 := HMAC.digest password (salt ++ be_bytes 4 i) in
  let step (p : bytes * bytes) :=
    let u := HMAC.digest password (fst p) in (u, xor_bytes (snd p) u) in
  match c with
  | xH => u1
  | _ => snd (Pos.iter step (u1, u1) (Pos.pred c))
  end.

Fixpoint blocks (password salt : bytes) (c : positive) (n : nat) (i : Z) : bytes :=
  match n with
  | O => []
  | S n' => F password salt c i ++ blocks password salt c n' (i + 1)
  end.

(** [PBKDF2HMAC(SHA256, length, salt, iterations).derive(password)]. *)
Definition derive (password salt : bytes) (iterations : positive) (length : nat) : bytes :=
  firstn length (blocks password salt iterations ((length + 31) / 32)%nat 1).

End PBKDF2.

(* ================================================================== *)
(** * AES  ([Crypto.Cipher.AES], FIPS 197) *)

Module AES.

Definition xtime (a : Z) : Z :=
  let s := Z.shiftl a 1 in
  if Z.testbit a 7 then Z.land (Z.lxor s 0x1b) 255 else Z.land s 255.

Fixpoint gmul_aux (n : nat) (a b : Z) : Z :=
  match n with
  | O => 0
  | S n' => Z.lxor (if Z.odd b then a else 0) (gmul_aux n' (xtime a) (Z.shiftr b 1))
  end.

(** Multiplication in GF(2^8) modulo x^8 + x^4 + x^3 + x + 1. *)
Definition gmul (a b : Z) : Z := gmul_aux 8 a b.

(** The multiplicative inverse is the 254th power (0 is sent to 0). *)
Definition ginv (a : Z) : Z :=
  let a2 := gmul a a in let a4 := gmul a2 a2 in let a8 := gmul a4 a4 in
  let a16 := gmul a8 a8 in let a32 := gmul a16 a16 in let a64 := gmul a32 a32 in
  let a128 := gmul a64 a64 in
  gmul a2 (gmul a4 (gmul a8 (gmul a16 (gmul a32 (gmul a64 a128))))).

Definition rotl8 (x n : Z) : Z := Z.land (Z.lor (Z.shiftl x n) (Z.shiftr x (8 - n))) 255.

Definition sbox_calc (a : Z) : Z :=
  let b := ginv a in
  Z.lxor (Z.lxor (Z.lxor (Z.lxor (Z.lxor b (rotl8 b 1)) (rotl8 b 2)) (rotl8 b 3)) (rotl8 b 4)) 0x63.

Definition sbox_table : list Z :=
  Eval vm_compute in map (fun n => sbox_calc (Z.of_nat n)) (seq 0 256).

Definition sub_byte (x : Z) : Z := nth (Z.to_nat x) sbox_table 0.

Definition xor_word (a b : list Z) : list Z := map (fun p => Z.lxor (fst p) (snd p)) (combine a b).
Definition sub_word (w : list Z) : list Z := map sub_byte w.
Definition rot_word (w : list Z) : list Z :=
  match w with
  | x :: r => r ++ [x]
  | [] => []
  end.

Fixpoint rcon (j : nat) : Z :=
  match j with
  | O => 0
  | S O => 1
  | S j' => xtime (rcon j')
  end.

(** Key expansion; the words are kept newest first while the schedule grows,
    [i] is the index of the word being produced. *)
Fixpoint expand (n i Nk : nat) (rev_w : list (list Z)) : list (list Z) :=
  match n with
  | O => rev_w
  | S n' =>
      let temp := nth 0 rev_w [] in
      let temp' :=
        if (i mod Nk =? 0)%nat then xor_word (sub_word (rot_word temp)) [rcon (i / Nk); 0; 0; 0]
        else if ((6 <? Nk) && (i mod Nk =? 4))%nat then sub_word temp
        else temp in
      expand n' (S i) Nk (xor_word (nth (Nk - 1) rev_w []) temp' :: rev_w)
  end.

Fixpoint group4 (fuel : nat) (ws : list (list Z)) : list (list Z) :=
  match fuel with
  | O => []
  | S f =>
      match ws with
      | a :: b :: c :: d :: r => (a ++ b ++ c ++ d) :: group4 f r
      | _ => []
      end
  end.

(** The [Nr + 1] round keys of a key of [4 * Nk] octets. *)
Definition round_keys (key : list Z) : list (list Z) :=
  let Nk := (length key / 4)%nat in
  let w0 := map (fun i => firstn 4 (skipn (4 * i) key)) (seq 0 Nk) in
  let ws := rev (expand (4 * (Nk + 7) - Nk) Nk Nk (rev w0)) in
  group4 (Nk + 7) ws.

(** The state always has sixteen octets. *)
Definition add_round_key (st rk : list Z) : list Z :=
  map (fun i => Z.lxor (nth i st 0) (nth i rk 0)) (seq 0 16).
Definition sub_bytes (st : list Z) : list Z := map sub_byte st.

(** The state is stored column by column: octet [r + 4c] is row [r] of
    column [c]. *)
Definition shift_rows (st : list Z) : list Z :=
  map (fun i => nth ((i mod 4) + 4 * (((i / 4) + (i mod 4)) mod 4))%nat st 0) (seq 0 16).

Definition mix_column (c : list Z) : list Z :=
  match c with
  | [s0; s1; s2; s3] =>
      [ Z.lxor (Z.lxor (gmul 2 s0) (gmul 3 s1)) (Z.lxor s2 s3);
        Z.lxor (Z.lxor s0 (gmul 2 s1)) (Z.lxor (gmul 3 s2) s3);
        Z.lxor (Z.lxor s0 s1) (Z.lxor (gmul 2 s2) (gmul 3 s3));
        Z.lxor (Z.lxor (gmul 3 s0) s1) (Z.lxor s2 (gmul 2 s3)) ]
  | _ => c
  end.

Definition mix_columns (st : list Z) : list Z :=
  flat_map (fun c => mix_column (firstn 4 (skipn (4 * c) st))) (seq 0 4).

Definition full_round (st rk : list Z) : list Z :=
  add_round_key (mix_columns (shift_rows (sub_bytes st))) rk.

Definition last_round (st rk : list Z) : list Z :=
  add_round_key (shift_rows (sub_bytes st)) rk.

(** Encryption of one 16-octet block under a key of 16, 24 or 32 octets. *)
Definition encrypt_block (key block : bytes) : bytes :=
  match round_keys (map Z_of_byte key) with
  | rk0 :: rks =>
      let st0 := add_round_key (map Z_of_byte block) rk0 in
      let st := fold_left full_round (removelast rks) st0 in
      map byte_of_Z (last_round st (last rks []))
  | [] => block
  end.

Definition key_size_ok (key : bytes) : bool :=
  let n := length key in ((n =? 16) || (n =? 24) || (n =? 32))%nat.

(** [AES.new(key, AES.MODE_ECB).encrypt(data)]: [ValueError] (here [None])
    for a key of another size, or for data that is not a whole number of
    blocks. *)
Definition ecb_encrypt (key data : bytes) : option bytes :=
  if negb (key_size_ok key) then None
  else if negb (length data mod 16 =? 0)%nat then None
  else Some (flat_map (encrypt_block key) (chunks (length data) 16 data)).

(** The key stream of CTR mode: block [i] is the encryption of the nonce
    followed by the big-endian block counter, which fills the block.  (The
    counter wraps, and the library raises, only after [256^(16 - |nonce|)]
    blocks; the nonces of this program leave it at least eight octets.) *)
Fixpoint keystream (key nonce : bytes) (nblocks : nat) (i : Z) : bytes :=
  match nblocks with
  | O => []
  | S n' => encrypt_block key (nonce ++ be_bytes (16 - length nonce) i)
            ++ keystream key nonce n' (i + 1)
  end.

(** [AES.new(key, AES.MODE_CTR, nonce=nonce).encrypt(data)], which is also
    [.decrypt(data)]: [ValueError] for a bad key size or a nonce that fills
    the block. *)
Definition ctr_crypt (key nonce data : bytes) : option bytes :=
  if negb (key_size_ok key) then None
  else if (16 <=? length nonce)%nat then None
  else Some (xor_bytes data (keystream key nonce ((length data + 15) / 16) 0)).

End AES.

(* ================================================================== *)
(** * Base64  ([base64.b64encode], [base64.urlsafe_b64encode], [base64.b64decode]) *)

Module Base64.

Definition char_std (n : Z) : ascii :=
  if n <? 26 then byte_of_Z (65 + n)
  else if n <? 52 then byte_of_Z (71 + n)
  else if n <? 62 then byte_of_Z (n - 4)
  else if n =? 62 then "+"%char else "/"%char.

Definition char_url (n : Z) : ascii :=
  if n <? 26 then byte_of_Z (65 + n)
  else if n <? 52 then byte_of_Z (71 + n)
  else if n <? 62 then byte_of_Z (n - 4)
  else if n =? 62 then "-"%char else "_"%char.

(** The value of a character of the standard alphabet. *)
Definition index (c : ascii) : option Z :=
  let x := Z_of_byte c in
  if (65 <=? x) && (x <=? 90) then Some (x - 65)
  else if (97 <=? x) && (x <=? 122) then Some (x - 71)
  else if (48 <=? x) && (x <=? 57) then Some (x + 4)
  else if x =? 43 then Some 62
  else if x =? 47 then Some 63
  else None.

Fixpoint encode_with (char : Z -> ascii) (l : bytes) : list ascii :=
  match l with
  | [] => []
  | [a] =>
      let x := Z_of_byte a in
      [char (x / 4); char ((x mod 4) * 16); "="%char; "="%char]
  | [a; b] =>
      let x := Z_of_byte a in let y := Z_of_byte b in
      [char (x / 4); char ((x mod 4) * 16 + y / 16); char ((y mod 16) * 4); "="%char]
  | a :: b :: c :: r =>
      let x := Z_of_byte a in let y := Z_of_byte b in let z := Z_of_byte c in
      char (x / 4) :: char ((x mod 4) * 16 + y / 16) :: char ((y mod 16) * 4 + z / 64)
        :: char (z mod 64) :: encode_with char r
  end.

Definition b64encode (b : bytes) : bytes := encode_with char_std b.
Definition urlsafe_b64encode (b : bytes) : bytes := encode_with char_url b.

(** [binascii.a2b_base64] in its default, lenient mode.  [qp] is the position
    in the current group of four characters, [left] the bits left over from
    the previous character, [pads] the number of padding characters just seen.
    Characters outside the alphabet are skipped; a complete padding sequence
    ends the decoding; input that stops inside a group is an error. *)
Fixpoint a2b (qp : nat) (left : Z) (pads : nat) (s : list ascii) : option bytes :=
  match s with
  | [] => if (qp =? 0)%nat then Some [] else None
  | c :: s' =>
      if Ascii.eqb c "="%char then
        if ((2 <=? qp) && (4 <=? qp + S pads))%nat then Some []
        else a2b qp left (if (2 <=? qp)%nat then S pads else pads) s'
      else
        match index c with
        | None => a2b qp left pads s'
        | Some v =>
            match qp with
            | 0%nat => a2b 1 v 0 s'
            | 1%nat => option_map (cons (byte_of_Z (left * 4 + v / 16))) (a2b 2 (v mod 16) 0 s')
            | 2%nat => option_map (cons (byte_of_Z (left * 16 + v / 4))) (a2b 3 (v mod 4) 0 s')
            | _ => option_map (cons (byte_of_Z (left * 64 + v))) (a2b 0 0 0 s')
            end
        end
  end.

Definition is_ascii (c : ascii) : bool := Z_of_byte c <? 128.

(** [base64.b64decode(s)] for a [str] argument: the string must be ASCII
    ([ValueError] otherwise), then [a2b_base64]. *)
Definition b64decode (s : string) : option bytes :=
  let l := bytes_of_str s in
  if forallb is_ascii l then a2b 0 0 0 l else None.

End Base64.

(* ================================================================== *)
(** * UTF-8 and [str] *)

(** Well-formed UTF-8 (Unicode table 3-7): no overlong forms, no surrogates,
    nothing above U+10FFFF.  This is what [bytes.decode("utf-8")] accepts. *)
Fixpoint utf8_valid (l : bytes) : bool :=
  let cont (b : byte) (lo hi : Z) := (lo <=? Z_of_byte b) && (Z_of_byte b <=? hi) in
  match l with
  | [] => true
  | a :: r =>
      let x := Z_of_byte a in
      if x <? 0x80 then utf8_valid r
      else if x <? 0xC2 then false
      else if x <? 0xE0 then
        match r with
        | b :: r1 => cont b 0x80 0xBF && utf8_valid r1
        | _ => false
        end
      else if x <? 0xF0 then
        match r with
        | b :: c :: r2 =>
            cont b (if x =? 0xE0 then 0xA0 else 0x80) (if x =? 0xED then 0x9F else 0xBF)
            && cont c 0x80 0xBF && utf8_valid r2
        | _ => false
        end
      else if x <? 0xF5 then
        match r with
        | b :: c :: d :: r3 =>
            cont b (if x =? 0xF0 then 0x90 else 0x80) (if x =? 0xF4 then 0x8F else 0xBF)
            && cont c 0x80 0xBF && cont d 0x80 0xBF && utf8_valid r3
        | _ => false
        end
      else false
  end.

(** The strings [s.encode("utf-8")] accepts: those without a lone
    surrogate. *)
Definition wf_str (s : string) : Prop := utf8_valid (bytes_of_str s) = true.

(** The octets of the UTF-8 encoding of a string that has one. *)
Definition utf8_encode (s : string) : bytes := bytes_of_str s.

(** [s.encode("utf-8")]; [None] is [UnicodeEncodeError]. *)
Definition str_encode (s : string) : option bytes :=
  if utf8_valid (bytes_of_str s) then Some (utf8_encode s) else None.

(** [b.decode("utf-8")]; [None] is [UnicodeDecodeError]. *)
Definition utf8_decode (b : bytes) : option string :=
  if utf8_valid b then Some (str_of_bytes b) else None.

(** ** [str.strip()] *)

Definition ws1 (x : Z) : bool := (9 <=? x) && (x <=? 13) || (28 <=? x) && (x <=? 32).

(** What is left of [s] after one leading white-space character
    ([str.isspace]: U+0009-000D, U+001C-0020, U+0085, U+00A0, U+1680,
    U+2000-200A, U+2028, U+2029, U+202F, U+205F, U+3000). *)
Definition drop_ws (s : bytes) : option bytes :=
  match s with
  | [] => None
  | a :: r =>
      let x := Z_of_byte a in
      if ws1 x then Some r
      else if x <? 0x80 then None
      else
        match r with
        | b :: r1 =>
            let y := Z_of_byte b in
            if (x =? 0xC2) && ((y =? 0x85) || (y =? 0xA0)) then Some r1
            else
              match r1 with
              | c :: r2 =>
                  let z := Z_of_byte c in
                  if (x =? 0xE1) && (y =? 0x9A) && (z =? 0x80)
                     || (x =? 0xE2) && (y =? 0x80)
                        && ((0x80 <=? z) && (z <=? 0x8A) || (z =? 0xA8) || (z =? 0xA9) || (z =? 0xAF))
                     || (x =? 0xE2) && (y =? 0x81) && (z =? 0x9F)
                     || (x =? 0xE3) && (y =? 0x80) && (z =? 0x80)
                  then Some r2 else None
              | [] => None
              end
        | [] => None
        end
  end.

(** The same from the end: [s] is the string reversed. *)
Definition drop_ws_rev (s : bytes) : option bytes :=
  match s with
  | [] => None
  | c :: r =>
      let z := Z_of_byte c in
      if ws1 z then Some r
      else if z <? 0x80 then None
      else
        match r with
        | b :: r1 =>
            let y := Z_of_byte b in
            if (y =? 0xC2) && ((z =? 0x85) || (z =? 0xA0)) then Some r1
            else
              match r1 with
              | a :: r2 =>
                  let x := Z_of_byte a in
                  if (x =? 0xE1) && (y =? 0x9A) && (z =? 0x80)
                     || (x =? 0xE2) && (y =? 0x80)
                        && ((0x80 <=? z) && (z <=? 0x8A) || (z =? 0xA8) || (z =? 0xA9) || (z =? 0xAF))
                     || (x =? 0xE2) && (y =? 0x81) && (z =? 0x9F)
                     || (x =? 0xE3) && (y =? 0x80) && (z =? 0x80)
                  then Some r2 else None
              | [] => None
              end
        | [] => None
        end
  end.

Fixpoint drop_all (drop : bytes -> option bytes) (fuel : nat) (s : bytes) : bytes :=
  match fuel with
  | O => s
  | S f =>
      match drop s with
      | Some r => drop_all drop f r
      | None => s
      end
  end.

(** What is left of [l] after one leading octet [c]. *)
Definition drop_char (c : ascii) (l : bytes) : option bytes :=
  match l with
  | x :: r => if Ascii.eqb x c then Some r else None
  | [] => None
  end.

(** [b.rstrip(c)] for a single octet [c]. *)
Definition rstrip_char (c : ascii) (b : bytes) : bytes :=
  rev (drop_all (drop_char c) (length b) (rev b)).

Definition strip (s : string) : string :=
  let l := drop_all drop_ws (String.length s) (bytes_of_str s) in
  str_of_bytes (rev (drop_all drop_ws_rev (length l) (rev l))).

(* ================================================================== *)
(** * JSON values and Python's view of them *)

(** A float is kept as the decimal [m * 10^e] that its literal denotes
    (rounding to a double is not modelled). *)
Inductive pyfloat :=
| Fdec (m e : Z)
| Fnan
| Finf (negative : bool).

#[local] Set Warnings "-register-all".

Inductive json :=
| JNull
| JBool (b : bool)
| JInt (z : Z)
| JFloat (f : pyfloat)
| JStr (s : string)
| JArr (l : list json)
| JObj (d : list (string * json)).

(** A [dict] with [str] keys: an association list without repeated keys, in
    insertion order. *)
Definition dict := list (string * json).

Fixpoint dict_get (k : string) (d : dict) : option json :=
  match d with
  | [] => None
  | (k', v) :: r => if String.eqb k k' then Some v else dict_get k r
  end.

(** [d[k] = v]. *)
Fixpoint dict_set (k : string) (v : json) (d : dict) : dict :=
  match d with
  | [] => [(k, v)]
  | (k', v') :: r => if String.eqb k k' then (k, v) :: r else (k', v') :: dict_set k v r
  end.

(** [d.get(k)] and [d.get(k, default)]. *)
Definition get (d : dict) (k : string) : json :=
  match dict_get k d with Some v => v | None => JNull end.
Definition get_or (d : dict) (k : string) (default : json) : json :=
  match dict_get k d with Some v => v | None => default end.

(** Truth value of an object, as tested by [if], [not], [and], [or]. *)
Definition truthy (v : json) : bool :=
  match v with
  | JNull => false
  | JBool b => b
  | JInt z => negb (z =? 0)
  | JFloat (Fdec m _) => negb (m =? 0)
  | JFloat _ => true
  | JStr s => negb (String.eqb s EmptyString)
  | JArr l => match l with [] => false | _ => true end
  | JObj d => match d with [] => false | _ => true end
  end.

(** [a or b]. *)
Definition py_or (a b : json) : json := if truthy a then a else b.

Definition is_none (v : json) : bool := match v with JNull => true | _ => false end.

(** [v == s] for a [str] [s]. *)
Definition eq_str (v : json) (s : string) : bool :=
  match v with JStr s' => String.eqb s' s | _ => false end.

(** [v == s] where [s] is a [str] or [None]. *)
Definition eq_optstr (v : json) (s : option string) : bool :=
  match v, s with
  | JStr a, Some b => String.eqb a b
  | JNull, None => true
  | _, _ => false
  end.

Definition of_optstr (s : option string) : json :=
  match s with Some x => JStr x | None => JNull end.

(** The numeric value of an [int], [bool] or finite [float], as a decimal. *)
Definition num_of (v : json) : option (Z * Z) :=
  match v with
  | JInt z => Some (z, 0)
  | JBool b => Some (if b then 1 else 0, 0)
  | JFloat (Fdec m e) => Some (m, e)
  | _ => None
  end.

Definition dec_lt (a b : Z * Z) : bool :=
  let e := Z.min (snd a) (snd b) in
  fst a * 10 ^ (snd a - e) <? fst b * 10 ^ (snd b - e).

(** [a < b]; [None] is the [TypeError] of an unordered pair of types.  An
    infinity or a NaN compares as IEEE says. *)
Definition py_lt (a b : json) : option bool :=
  match a, b with
  | JStr x, JStr y => Some (match String.compare x y with Lt => true | _ => false end)
  | JFloat Fnan, (JInt _ | JBool _ | JFloat _) => Some false
  | (JInt _ | JBool _ | JFloat _), JFloat Fnan => Some false
  | JFloat (Finf n), JFloat (Finf n') => Some (n && negb n')
  | JFloat (Finf n), (JInt _ | JBool _ | JFloat _) => Some n
  | (JInt _ | JBool _ | JFloat _), JFloat (Finf n) => Some (negb n)
  | _, _ =>
      match num_of a, num_of b with
      | Some x, Some y => Some (dec_lt x y)
      | _, _ => None
      end
  end.

(** [a > b] and [a <= b]. *)
Definition py_gt (a b : json) : option bool := py_lt b a.
Definition py_le (a b : json) : option bool :=
  match py_lt b a with
  | Some r =>
      match a, b with
      | JFloat Fnan, _ | _, JFloat Fnan => Some false
      | _, _ => Some (negb r)
      end
  | None => None
  end.

(* ------------------------------------------------------------------ *)
(** ** [json.loads] *)

Module Json.

Inductive token :=
| TLBrace | TRBrace | TLBrack | TRBrack | TColon | TComma
| TStr (s : string)
| TLit (v : json).

(** UTF-8 encoding of a code point.  A lone surrogate, which a [\u] escape
    can denote, gets the three-octet form; such a string is not [wf_str]. *)
Definition utf8_of_cp (c : Z) : list ascii :=
  if c <? 0x80 then [byte_of_Z c]
  else if c <? 0x800 then [byte_of_Z (0xC0 + c / 64); byte_of_Z (0x80 + c mod 64)]
  else if c <? 0x10000 then
    [byte_of_Z (0xE0 + c / 4096); byte_of_Z (0x80 + (c / 64) mod 64); byte_of_Z (0x80 + c mod 64)]
  else
    [byte_of_Z (0xF0 + c / 262144); byte_of_Z (0x80 + (c / 4096) mod 64);
     byte_of_Z (0x80 + (c / 64) mod 64); byte_of_Z (0x80 + c mod 64)].

Definition is_digit (c : ascii) : bool := (48 <=? Z_of_byte c) && (Z_of_byte c <=? 57).
Definition is_letter (c : ascii) : bool :=
  let x := Z_of_byte c in (65 <=? x) && (x <=? 90) || (97 <=? x) && (x <=? 122).
Definition is_space (c : ascii) : bool :=
  let x := Z_of_byte c in (x =? 32) || (x =? 9) || (x =? 10) || (x =? 13).
Definition is_num_char (c : ascii) : bool :=
  is_digit c || Ascii.eqb c "-" || Ascii.eqb c "+" || Ascii.eqb c "." || Ascii.eqb c "e" || Ascii.eqb c "E".

Definition hex_val (c : ascii) : option Z :=
  let x := Z_of_byte c in
  if (48 <=? x) && (x <=? 57) then Some (x - 48)
  else if (97 <=? x) && (x <=? 102) then Some (x - 87)
  else if (65 <=? x) && (x <=? 70) then Some (x - 55)
  else None.

Fixpoint span_digits (l : list ascii) : list ascii * list ascii :=
  match l with
  | c :: r => if is_digit c then let (d, r') := span_digits r in (c :: d, r') else ([], l)
  | [] => ([], [])
  end.

Definition digits_val (l : list ascii) : Z :=
  fold_left (fun acc c => acc * 10 + (Z_of_byte c - 48)) l 0.

(** A number literal: an optional minus sign, an integer part without
    leading zeros, an optional fraction, an optional exponent.  It is an
    [int] when it has neither fraction nor exponent, a [float] otherwise. *)
Definition number (l : list ascii) : option json :=
  let (neg, l1) := match l with
                   | c :: r => if Ascii.eqb c "-" then (true, r) else (false, l)
                   | [] => (false, l)
                   end in
  let (ip, l2) := span_digits l1 in
  let sign (z : Z) := if neg then - z else z in
  match ip with
  | [] => None
  | d0 :: ds =>
      if Ascii.eqb d0 "0" && negb (length ds =? 0)%nat then None
      else
        let frac := match l2 with
                    | c :: r => if Ascii.eqb c "." then
                                  let (fp, r') := span_digits r in
                                  match fp with [] => None | _ => Some (Some fp, r') end
                                else Some (None, l2)
                    | [] => Some (None, l2)
                    end in
        match frac with
        | None => None
        | Some (fp, l3) =>
            let expo := match l3 with
                        | c :: r =>
                            if Ascii.eqb c "e" || Ascii.eqb c "E" then
                              let (eneg, r1) := match r with
                                                | s :: r0 => if Ascii.eqb s "-" then (true, r0)
                                                             else if Ascii.eqb s "+" then (false, r0)
                                                             else (false, r)
                                                | [] => (false, r)
                                                end in
                              let (ep, r2) := span_digits r1 in
                              match ep, r2 with
                              | _ :: _, [] => Some (Some (if eneg then - digits_val ep else digits_val ep))
                              | _, _ => None
                              end
                            else None
                        | [] => Some None
                        end in
            match expo, fp with
            | None, _ => None
            | Some None, None => Some (JInt (sign (digits_val ip)))
            | Some e, _ =>
                let fd := match fp with Some f => f | None => [] end in
                let ev := match e with Some x => x | None => 0 end in
                Some (JFloat (Fdec (sign (digits_val (ip ++ fd))) (ev - Z.of_nat (length fd))))
            end
        end
  end.

Definition word (l : list ascii) : option json :=
  let s := str_of_bytes l in
  if String.eqb s "true" then Some (JBool true)
  else if String.eqb s "false" then Some (JBool false)
  else if String.eqb s "null" then Some JNull
  else if String.eqb s "NaN" then Some (JFloat Fnan)
  else if String.eqb s "Infinity" then Some (JFloat (Finf false))
  else if String.eqb s "-Infinity" then Some (JFloat (Finf true))
  else None.

(** The scanner reads one character at a time; accumulators hold the
    characters read so far, last first. *)
Inductive mode :=
| MTop
| MStr (acc : list ascii)
| MEsc (acc : list ascii)
| MUni (acc : list ascii) (pending : option Z) (n : nat) (v : Z)
| MHi (acc : list ascii) (hi : Z)
| MHiEsc (acc : list ascii) (hi : Z)
| MNum (acc : list ascii)
| MWord (acc : list ascii).

Definition push_cp (acc : list ascii) (c : Z) : list ascii := rev (utf8_of_cp c) ++ acc.

Definition top_step (c : ascii) : option (list token * mode) :=
  if is_space c then Some ([], MTop)
  else if Ascii.eqb c "{" then Some ([TLBrace], MTop)
  else if Ascii.eqb c "}" then Some ([TRBrace], MTop)
  else if Ascii.eqb c "[" then Some ([TLBrack], MTop)
  else if Ascii.eqb c "]" then Some ([TRBrack], MTop)
  else if Ascii.eqb c ":" then Some ([TColon], MTop)
  else if Ascii.eqb c "," then Some ([TComma], MTop)
  else if Ascii.eqb c dquote then Some ([], MStr [])
  else if is_digit c || Ascii.eqb c "-" then Some ([], MNum [c])
  else if is_letter c then Some ([], MWord [c])
  else None.

Definition str_step (acc : list ascii) (c : ascii) : option (list token * mode) :=
  if Ascii.eqb c dquote then Some ([TStr (str_of_bytes (rev acc))], MTop)
  else if Ascii.eqb c "\" then Some ([], MEsc acc)
  else if Z_of_byte c <? 32 then None
  else Some ([], MStr (c :: acc)).

Definition esc_step (acc : list ascii) (c : ascii) : option (list token * mode) :=
  if Ascii.eqb c dquote then Some ([], MStr (c :: acc))
  else if Ascii.eqb c "\" then Some ([], MStr (c :: acc))
  else if Ascii.eqb c "/" then Some ([], MStr (c :: acc))
  else if Ascii.eqb c "b" then Some ([], MStr (byte_of_Z 8 :: acc))
  else if Ascii.eqb c "f" then Some ([], MStr (byte_of_Z 12 :: acc))
  else if Ascii.eqb c "n" then Some ([], MStr (byte_of_Z 10 :: acc))
  else if Ascii.eqb c "r" then Some ([], MStr (byte_of_Z 13 :: acc))
  else if Ascii.eqb c "t" then Some ([], MStr (byte_of_Z 9 :: acc))
  else if Ascii.eqb c "u" then Some ([], MUni acc None 0 0)
  else None.

Definition is_high (c : Z) : bool := (0xD800 <=? c) && (c <=? 0xDBFF).
Definition is_low (c : Z) : bool := (0xDC00 <=? c) && (c <=? 0xDFFF).

(** A [\uXXXX] escape has been read with value [c]; a high surrogate waits
    for a low one to pair with. *)
Definition uni_done (acc : list ascii) (pending : option Z) (c : Z) : mode :=
  match pending with
  | Some hi =>
      if is_low c then MStr (push_cp acc (0x10000 + (hi - 0xD800) * 1024 + (c - 0xDC00)))
      else if is_high c then MHi (push_cp acc hi) c
      else MStr (push_cp (push_cp acc hi) c)
  | None => if is_high c then MHi acc c else MStr (push_cp acc c)
  end.

Definition step (m : mode) (c : ascii) : option (list token * mode) :=
  match m with
  | MTop => top_step c
  | MStr acc => str_step acc c
  | MEsc acc => esc_step acc c
  | MUni acc pending n v =>
      match hex_val c with
      | Some d =>
          if (n =? 3)%nat then Some ([], uni_done acc pending (v * 16 + d))
          else Some ([], MUni acc pending (S n) (v * 16 + d))
      | None => None
      end
  | MHi acc hi =>
      if Ascii.eqb c "\" then Some ([], MHiEsc acc hi)
      else str_step (push_cp acc hi) c
  | MHiEsc acc hi =>
      if Ascii.eqb c "u" then Some ([], MUni acc (Some hi) 0 0)
      else esc_step (push_cp acc hi) c
  | MNum acc =>
      if is_num_char c then Some ([], MNum (c :: acc))
      else if Ascii.eqb c "I" && (length acc =? 1)%nat then Some ([], MWord (c :: acc))
      else match number (rev acc), top_step c with
           | Some v, Some (ts, m') => Some (TLit v :: ts, m')
           | _, _ => None
           end
  | MWord acc =>
      if is_letter c then Some ([], MWord (c :: acc))
      else match word (rev acc), top_step c with
           | Some v, Some (ts, m') => Some (TLit v :: ts, m')
           | _, _ => None
           end
  end.

Definition finish (m : mode) : option (list token) :=
  match m with
  | MTop => Some []
  | MNum acc => option_map (fun v => [TLit v]) (number (rev acc))
  | MWord acc => option_map (fun v => [TLit v]) (word (rev acc))
  | _ => None
  end.

Fixpoint lex (m : mode) (s : string) : option (list token) :=
  match s with
  | EmptyString => finish m
  | String c s' =>
      match step m c with
      | Some (ts, m') => option_map (app ts) (lex m' s')
      | None => None
      end
  end.

(** Recursive descent over the tokens; every call consumes a token, so the
    number of tokens is fuel enough. *)
Fixpoint value (fuel : nat) (ts : list token) : option (json * list token) :=
  match fuel with
  | O => None
  | S f =>
      match ts with
      | TLit v :: r => Some (v, r)
      | TStr s :: r => Some (JStr s, r)
      | TLBrack :: TRBrack :: r => Some (JArr [], r)
      | TLBrack :: r =>
          match value f r with
          | Some (v, r') => elements f r' [v]
          | None => None
          end
      | TLBrace :: TRBrace :: r => Some (JObj [], r)
      | TLBrace :: r => members f r []
      | _ => None
      end
  end
with elements (fuel : nat) (ts : list token) (acc : list json) : option (json * list token) :=
  match fuel with
  | O => None
  | S f =>
      match ts with
      | TRBrack :: r => Some (JArr (rev acc), r)
      | TComma :: r =>
          match value f r with
          | Some (v, r') => elements f r' (v :: acc)
          | None => None
          end
      | _ => None
      end
  end
with members (fuel : nat) (ts : list token) (acc : dict) : option (json * list token) :=
  match fuel with
  | O => None
  | S f =>
      match ts with
      | TStr k :: TColon :: r =>
          match value f r with
          | Some (v, TRBrace :: r') => Some (JObj (dict_set k v acc), r')
          | Some (v, TComma :: r') => members f r' (dict_set k v acc)
          | _ => None
          end
      | _ => None
      end
  end.

(** [json.loads(s)] for a [str] [s]; [None] is [JSONDecodeError] (a later key
    of an object replaces an earlier equal one).  The interpreter's
    recursion limit on very deep nesting is not modelled. *)
Definition loads (s : string) : option json :=
  match lex MTop s with
  | Some ts =>
      match value (S (length ts)) ts with
      | Some (v, []) => Some v
      | _ => None
      end
  | None => None
  end.

(* ---------------------------------------------------------------- *)
(** ** [json.dumps] (default separators, [ensure_ascii=True]) *)

Definition hex4 (c : Z) : list ascii :=
  [hex_digit (c / 4096); hex_digit ((c / 256) mod 16); hex_digit ((c / 16) mod 16); hex_digit (c mod 16)].

Definition u_escape (c : Z) : list ascii :=
  if c <? 0x10000 then "\"%char :: "u"%char :: hex4 c
  else let v := c - 0x10000 in
       ("\"%char :: "u"%char :: hex4 (0xD800 + v / 1024))
         ++ ("\"%char :: "u"%char :: hex4 (0xDC00 + v mod 1024)).

Definition esc_ascii (a : ascii) : list ascii :=
  let x := Z_of_byte a in
  if Ascii.eqb a dquote then ["\"%char; dquote]
  else if Ascii.eqb a "\" then ["\"%char; "\"%char]
  else if x =? 10 then ["\"%char; "n"%char]
  else if x =? 13 then ["\"%char; "r"%char]
  else if x =? 9 then ["\"%char; "t"%char]
  else if x =? 8 then ["\"%char; "b"%char]
  else if x =? 12 then ["\"%char; "f"%char]
  else if x <? 32 then u_escape x
  else [a].

Fixpoint escape (l : list ascii) : list ascii :=
  match l with
  | [] => []
  | a :: r =>
      let x := Z_of_byte a in
      if x <? 0x80 then esc_ascii a ++ escape r
      else
        match r with
        | b :: r1 =>
            let y := Z_of_byte b - 0x80 in
            if x <? 0xE0 then u_escape ((x - 0xC0) * 64 + y) ++ escape r1
            else
              match r1 with
              | c :: r2 =>
                  let z := Z_of_byte c - 0x80 in
                  if x <? 0xF0 then u_escape ((x - 0xE0) * 4096 + y * 64 + z) ++ escape r2
                  else
                    match r2 with
                    | d :: r3 =>
                        u_escape ((x - 0xF0) * 262144 + y * 4096 + z * 64 + (Z_of_byte d - 0x80))
                          ++ escape r3
                    | [] => []
                    end
              | [] => []
              end
        | [] => []
        end
  end.

Definition quote (s : string) : string :=
  String dquote (str_of_bytes (escape (bytes_of_str s)) ++ String dquote EmptyString)%string.

Definition of_int (z : Z) : string := NilZero.string_of_int (Z.to_int z).

Fixpoint join (sep : string) (l : list string) : string :=
  match l with
  | [] => EmptyString
  | [x] => x
  | x :: r => (x ++ sep ++ join sep r)%string
  end.

(** The text of a float is the decimal the model holds, not Python's
    shortest [repr]. *)
Definition of_float (f : pyfloat) : string :=
  match f with
  | Fdec m e => (of_int m ++ "e" ++ of_int e)%string
  | Fnan => "NaN"
  | Finf n => if n then "-Infinity" else "Infinity"
  end.

Fixpoint dumps (j : json) : string :=
  match j with
  | JNull => "null"
  | JBool b => if b then "true" else "false"
  | JInt z => of_int z
  | JFloat f => of_float f
  | JStr s => quote s
  | JArr l => ("[" ++ join ", " (map dumps l) ++ "]")%string
  | JObj d =>
      ("{" ++ join ", " (map (fun kv => (quote (fst kv) ++ ": " ++ dumps (snd kv))%string) d) ++ "}")%string
  end.

End Json.

(** [a == b]: numbers compare by value across [bool], [int] and [float],
    lists element by element, dicts regardless of the order of their keys. *)
Definition num_eq (a b : json) : option bool :=
  match a, b with
  | JFloat Fnan, _ | _, JFloat Fnan => None
  | JFloat (Finf n), JFloat (Finf n') => Some (Bool.eqb n n')
  | _, _ =>
      match num_of a, num_of b with
      | Some x, Some y =>
          let e := Z.min (snd x) (snd y) in
          Some (fst x * 10 ^ (snd x - e) =? fst y * 10 ^ (snd y - e))
      | _, _ => None
      end
  end.

Fixpoint py_eq (a b : json) {struct a} : bool :=
  match a, b with
  | JNull, JNull => true
  | JStr x, JStr y => String.eqb x y
  | JArr l, JArr l' =>
      (fix go (l l' : list json) : bool :=
         match l, l' with
         | [], [] => true
         | x :: r, y :: r' => py_eq x y && go r r'
         | _, _ => false
         end) l l'
  | JObj d, JObj d' =>
      (length d =? length d')%nat
      && (fix go (d : list (string * json)) : bool :=
            match d with
            | [] => true
            | (k, v) :: r =>
                match dict_get k d' with
                | Some v' => py_eq v v'
                | None => false
                end && go r
            end) d
  | _, _ => match num_eq a b with Some r => r | None => false end
  end.

(** Iterating over a value with [for]: the items of a list, the keys of a
    dict; [None] is the [TypeError] of a value that is not iterable.  (A
    [str] is iterable too, character by character; its characters are taken
    by [utf8_chars].) *)
Fixpoint utf8_chars (fuel : nat) (l : bytes) : list string :=
  match fuel with
  | O => []
  | S f =>
      match l with
      | [] => []
      | a :: _ =>
          let x := Z_of_byte a in
          let n := if x <? 0x80 then 1%nat else if x <? 0xE0 then 2%nat
                   else if x <? 0xF0 then 3%nat else 4%nat in
          str_of_bytes (firstn n l) :: utf8_chars f (skipn n l)
      end
  end.

Definition py_iter (v : json) : option (list json) :=
  match v with
  | JArr l => Some l
  | JObj d => Some (map (fun kv => JStr (fst kv)) d)
  | JStr s => Some (map JStr (utf8_chars (String.length s) (bytes_of_str s)))
  | _ => None
  end.

(* ================================================================== *)
(** * [security/aes_ctr.py] *)

(** [l[i:j] = v] on a [bytearray]. *)
Definition slice_assign (l : bytes) (i j : nat) (v : bytes) : bytes :=
  firstn i l ++ v ++ skipn j l.

Module AesCtr.

Definition n_bits_ok (n_bits : Z) : bool :=
  (n_bits =? 128) || (n_bits =? 192) || (n_bits =? 256).

(** The octets of the password, cut or padded with zero octets to
    [n_bytes]. *)
Definition zero_padded (pw_input : bytes) (n_bytes : nat) : bytes :=
  map (fun i => nth i pw_input zero_byte) (seq 0 n_bytes).

(** The same for a password that has an encoding. *)
Definition pw_bytes (password : string) (n_bytes : nat) : bytes :=
  zero_padded (utf8_encode password) n_bytes.

(** The eight-octet nonce: milliseconds, two random octets, seconds. *)
Definition make_iv (now nonce_rnd : Z) : bytes :=
  let nonce_ms := now mod 1000 in
  let nonce_sec := now / 1000 in
  [ byte_of_Z (Z.land nonce_ms 0xff);
    byte_of_Z (Z.land (Z.shiftr nonce_ms 8) 0xff);
    byte_of_Z (Z.land nonce_rnd 0xff);
    byte_of_Z (Z.land (Z.shiftr nonce_rnd 8) 0xff);
    byte_of_Z (Z.land nonce_sec 0xff);
    byte_of_Z (Z.land (Z.shiftr nonce_sec 8) 0xff);
    byte_of_Z (Z.land (Z.shiftr nonce_sec 16) 0xff);
    byte_of_Z (Z.land (Z.shiftr nonce_sec 24) 0xff) ]
  ++ repeat zero_byte 8.

(** [int.from_bytes(b, "little")]. *)
Definition int_from_bytes_little (b : bytes) : Z :=
  fold_right (fun x acc => Z_of_byte x + 256 * acc) 0 b.

(** [AesCtr.encrypt(plaintext, password, n_bits)].  [now] is
    [int(time.time() * 1000)] and [rnd] is [os.urandom(2)]; [None] is an
    exception: a key size that is not one of the three, a password or a
    plaintext that cannot be encoded, a key that [AES.new] refuses. *)
Definition encrypt (now : Z) (rnd : bytes) (plaintext password : string) (n_bits : Z)
  : option string :=
  if negb (n_bits_ok n_bits) then None
  else
    let n_bytes := Z.to_nat (n_bits / 8) in
    match str_encode password with
    | None => None
    | Some pw_input =>
        let pw := zero_padded pw_input n_bytes in
        match AES.ecb_encrypt pw pw with
        | None => None
        | Some key_material =>
            let key0 := repeat zero_byte n_bytes in
            let key1 := slice_assign key0 0 (Nat.min 16 n_bytes)
                                     (firstn (Nat.min 16 n_bytes) key_material) in
            let key := if (16 <? n_bytes)%nat
                       then slice_assign key1 16 (length key1) (firstn (n_bytes - 16) key_material)
                       else key1 in
            let iv := make_iv now (int_from_bytes_little rnd) in
            match str_encode plaintext with
            | None => None
            | Some data =>
                match AES.ctr_crypt key (firstn 8 iv) data with
                | None => None
                | Some cipher_bytes =>
                    utf8_decode (Base64.b64encode (firstn 8 iv ++ cipher_bytes))
                end
            end
        end
    end.

(** [AesCtr.decrypt(ciphertext_b64, password, n_bits)]; [None] is an
    exception: a key size that is not one of the three, a text that is not
    Base64, a password that cannot be encoded, a key that [AES.new]
    refuses, a plaintext that is not UTF-8. *)
Definition decrypt (ciphertext_b64 password : string) (n_bits : Z) : option string :=
  if negb (n_bits_ok n_bits) then None
  else
    match Base64.b64decode ciphertext_b64 with
    | None => None
    | Some data =>
        let n_bytes := Z.to_nat (n_bits / 8) in
        match str_encode password with
        | None => None
        | Some pw_input =>
            let pw := zero_padded pw_input n_bytes in
            match AES.ecb_encrypt pw pw with
            | None => None
            | Some first_key =>
                let key0 := repeat zero_byte n_bytes in
                let key1 := slice_assign key0 0 (length first_key) first_key in
                let key := if (length first_key <? n_bytes)%nat
                           then slice_assign key1 (length first_key) (length key1)
                                             (firstn (n_bytes - length first_key) first_key)
                           else key1 in
                let nonce := firstn 8 data in
                let cipher_bytes := skipn 8 data in
                match AES.ctr_crypt key nonce cipher_bytes with
                | None => None
                | Some plaintext => utf8_decode plaintext
                end
            end
        end
    end.

End AesCtr.

(* ================================================================== *)
(** * [security/my_security.py] *)

Module MySecurity.

(** [MySecurity.encrypt(plain, key)]: the empty string on any exception.  A
    key that is [None] raises inside ([None] has no [encode]). *)
Definition encrypt (now : Z) (rnd : bytes) (plain : string) (key : option string) : string :=
  match key with
  | Some k =>
      match AesCtr.encrypt now rnd plain k 128 with
      | Some c => c
      | None => EmptyString
      end
  | None => EmptyString
  end.

(** [MySecurity.decrypt(cipher, key)]: [None] on any exception; a cipher
    that is not a [str] raises in [base64.b64decode]. *)
Definition decrypt (cipher : json) (key : option string) : option string :=
  match cipher, key with
  | JStr c, Some k => AesCtr.decrypt c k 128
  | _, _ => None
  end.

(** [MySecurity.hash(msg, key_str)]: HMAC-SHA256 in lowercase hex; [None]
    on an exception (a key that is [None], a key or a message that cannot
    be encoded). *)
Definition hash (msg : string) (key_str : option string) : option string :=
  match key_str with
  | Some k =>
      match str_encode k, str_encode msg with
      | Some key_bytes, Some msg_bytes => Some (hexlify (HMAC.digest key_bytes msg_bytes))
      | _, _ => None
      end
  | None => None
  end.

(** [MySecurity.encrypt_and_sign(message, key)]. *)
Definition encrypt_and_sign (now : Z) (rnd : bytes) (message : string) (key : option string) : string :=
  let data := [ ("cipher"%string, JStr (encrypt now rnd message key));
                ("hash"%string, of_optstr (hash message key)) ] in
  Json.dumps (JObj data).

(** [MySecurity.decrypt_and_verify(cipher_msg_str, key)].  Every exception
    is caught and gives [None]: an argument that is not a [str] or not JSON,
    a JSON value that is not an object (it has no [get]), a hash that is not
    a [str] (it has no [strip]). *)
Definition decrypt_and_verify (cipher_msg_str : json) (key : option string) : option string :=
  match cipher_msg_str with
  | JStr text =>
      match Json.loads text with
      | Some (JObj cipher_msg) =>
          match decrypt (get_or cipher_msg "cipher" (JStr EmptyString)) key with
          | None => None
          | Some message =>
              match hash message key, get_or cipher_msg "hash" (JStr EmptyString) with
              | Some h, JStr h' =>
                  if negb (String.eqb (strip h) (strip h')) then None else Some message
              | _, _ => None
              end
          end
      | _ => None
      end
  | _ => None
  end.

(** What [MySecurity.derive_channel_secret(channel_name, password)]
    returns when it returns, that is when [channel_name + password] can be
    encoded. *)
Definition derive_channel_secret (channel_name password : string) : string :=
  let combined := utf8_encode (channel_name ++ password) in
  let salt := bytes_of_str "messaging-platform" in
  let iterations := 100000%positive in
  let key_length := 32%nat in
  let key_bytes := PBKDF2.derive combined salt iterations key_length in
  ("channel_" ++ str_of_bytes (rstrip_char "=" (Base64.urlsafe_b64encode key_bytes)))%string.

(** The call of [MySecurity.derive_channel_secret], as its callers make it,
    with values of any type; [None] is an exception: anything but two [str]
    raises ([TypeError] from [+] or [AttributeError] from [encode]), and so
    does a text that cannot be encoded ([UnicodeEncodeError]). *)
Definition derive_channel_secret_dyn (channel_name password : json) : option string :=
  match channel_name, password with
  | JStr n, JStr p =>
      match str_encode (n ++ p) with
      | Some _ => Some (derive_channel_secret n p)
      | None => None
      end
  | _, _ => None
  end.

End MySecurity.

(* ================================================================== *)
(** * [api/models.py] *)

(** The dataclasses; a field left out of a constructor call is [None]. *)

Module ChannelState.
Record t := mk {
  topicName : json;
  channelId : json;
  channelName : json;
  channelPassword : json;
  globalOffset : json;
  localOffset : json;
  originalGlobalOffset : json;
  originalLocalOffset : json
}.
End ChannelState.

Module ConnectResponse.
Record t := mk {
  sessionId : json;
  channelId : json;
  date : json;
  state : option ChannelState.t
}.
(** [ConnectResponse()]. *)
Definition empty : t := mk JNull JNull JNull None.
End ConnectResponse.

Module ReceiveConfig.
Record t := mk {
  globalOffset : json;
  localOffset : json;
  limit : json;
  pollSource : json
}.
(** [ReceiveConfig(globalOffset=g, localOffset=l, limit=n)]: the poll source
    keeps its default. *)
Definition make (g l n : json) : t := mk g l n (JStr "AUTO").
Definition set_globalOffset (v : json) (x : t) : t := mk v (localOffset x) (limit x) (pollSource x).
Definition set_localOffset (v : json) (x : t) : t := mk (globalOffset x) v (limit x) (pollSource x).
End ReceiveConfig.

Module EventMessageResult.
Record t := mk {
  events : list json;
  nextGlobalOffset : json;
  nextLocalOffset : json;
  ephemeralEvents : option (list json)
}.
Definition set_events (v : list json) (x : t) : t :=
  mk v (nextGlobalOffset x) (nextLocalOffset x) (ephemeralEvents x).
End EventMessageResult.

Module AgentInfo.
Record t := mk {
  agentName : json;
  date : json;
  meta : json
}.
(** [getattr(agent, name, default)]: these three attributes are all an
    [AgentInfo] has. *)
Definition getattr (a : t) (name : string) (default : json) : json :=
  if String.eqb name "agentName" then agentName a
  else if String.eqb name "date" then date a
  else if String.eqb name "meta" then meta a
  else default.
End AgentInfo.

(** The argument of a pull: a [ReceiveConfig], or the plain dict that
    [wait_for_password_reply] passes. *)
Inductive rc_arg :=
| RcObj (rc : ReceiveConfig.t)
| RcDict (d : dict).

(* ================================================================== *)
(** * The outside world *)

(** An RSA private key object; what it decrypts is the world's business. *)
Inductive PrivateKey := PrivKey (id : N).

Record Request := mkRequest {
  path : string;
  body : json;
  timeout : Z
}.

(** What [requests.post] followed by [raise_for_status] gives: the text of
    the reply, [requests.exceptions.Timeout], or another exception. *)
Inductive HttpResult :=
| Reply (text : string)
| TimedOut
| Failed.

(** [now] is the clock in milliseconds; [draws] counts the random values
    taken so far and indexes the supplies of random octets, request ids and
    key pairs; [wire] lists the HTTP requests sent, oldest first, and
    [server] answers a request given those before it; [files] is the session
    directory (sanitised channel key, file text); [delivered] lists the
    batches handed to the event handler, oldest first. *)
Record World := mkWorld {
  now : Z;
  draws : nat;
  urandom : nat -> bytes;
  uuid4 : nat -> string;
  rsa_keygen : nat -> option (PrivateKey * string);
  oaep_encrypt : string -> bytes -> nat -> option bytes;
  oaep_decrypt : PrivateKey -> bytes -> option bytes;
  wire : list Request;
  server : list Request -> Request -> HttpResult;
  files : list (string * string);
  delivered : list (list json)
}.

Module W.
Definition set_now (v : Z) (x : World) : World :=
  mkWorld v (draws x) (urandom x) (uuid4 x) (rsa_keygen x) (oaep_encrypt x) (oaep_decrypt x) (wire x) (server x) (files x) (delivered x).
Definition set_draws (v : nat) (x : World) : World :=
  mkWorld (now x) v (urandom x) (uuid4 x) (rsa_keygen x) (oaep_encrypt x) (oaep_decrypt x) (wire x) (server x) (files x) (delivered x).
Definition set_urandom (v : nat -> bytes) (x : World) : World :=
  mkWorld (now x) (draws x) v (uuid4 x) (rsa_keygen x) (oaep_encrypt x) (oaep_decrypt x) (wire x) (server x) (files x) (delivered x).
Definition set_uuid4 (v : nat -> string) (x : World) : World :=
  mkWorld (now x) (draws x) (urandom x) v (rsa_keygen x) (oaep_encrypt x) (oaep_decrypt x) (wire x) (server x) (files x) (delivered x).
Definition set_rsa_keygen (v : nat -> option (PrivateKey * string)) (x : World) : World :=
  mkWorld (now x) (draws x) (urandom x) (uuid4 x) v (oaep_encrypt x) (oaep_decrypt x) (wire x) (server x) (files x) (delivered x).
Definition set_oaep_encrypt (v : string -> bytes -> nat -> option bytes) (x : World) : World :=
  mkWorld (now x) (draws x) (urandom x) (uuid4 x) (rsa_keygen x) v (oaep_decrypt x) (wire x) (server x) (files x) (delivered x).
Definition set_oaep_decrypt (v : PrivateKey -> bytes -> option bytes) (x : World) : World :=
  mkWorld (now x) (draws x) (urandom x) (uuid4 x) (rsa_keygen x) (oaep_encrypt x) v (wire x) (server x) (files x) (delivered x).
Definition set_wire (v : list Request) (x : World) : World :=
  mkWorld (now x) (draws x) (urandom x) (uuid4 x) (rsa_keygen x) (oaep_encrypt x) (oaep_decrypt x) v (server x) (files x) (delivered x).
Definition set_server (v : list Request -> Request -> HttpResult) (x : World) : World :=
  mkWorld (now x) (draws x) (urandom x) (uuid4 x) (rsa_keygen x) (oaep_encrypt x) (oaep_decrypt x) (wire x) v (files x) (delivered x).
Definition set_files (v : list (string * string)) (x : World) : World :=
  mkWorld (now x) (draws x) (urandom x) (uuid4 x) (rsa_keygen x) (oaep_encrypt x) (oaep_decrypt x) (wire x) (server x) v (delivered x).
Definition set_delivered (v : list (list json)) (x : World) : World :=
  mkWorld (now x) (draws x) (urandom x) (uuid4 x) (rsa_keygen x) (oaep_encrypt x) (oaep_decrypt x) (wire x) (server x) (files x) v.

Definition draw (w : World) : nat * World := (draws w, set_draws (S (draws w)) w).
Definition sleep (ms : Z) (w : World) : World := set_now (now w + ms) w.
End W.

(** The outcome of a call that may let an exception escape. *)
Inductive outcome (A : Type) :=
| Ret (a : A)
| Raise (msg : string).
Arguments Ret {A} a.
Arguments Raise {A} msg.

(* ================================================================== *)
(** * [util/http_client.py] *)

Module HttpClient.
(** [HttpClient.request("POST", path, json_body=..., timeout=...)].  The
    throttle only delays the call and is left out, as are the headers. *)
Definition request (w : World) (path : string) (json_body : json) (timeout : Z)
  : HttpResult * World :=
  let r := mkRequest path json_body timeout in
  (server w (wire w) r, W.set_wire (wire w ++ [r]) w).
End HttpClient.

(* ================================================================== *)
(** * [util/session_recovery_utility.py] *)

Module Sess.

Definition replace_slash (s : string) : string :=
  str_of_bytes (map (fun c => if Ascii.eqb c "/" then "_"%char else c) (bytes_of_str s)).

(** [_key(channel_name)]: the file of a channel; a key that is not a [str]
    raises [AttributeError]. *)
Definition _key (channel_name : json) : option string :=
  match channel_name with
  | JStr s => Some (replace_slash s ++ ".json")%string
  | _ => None
  end.

Fixpoint lookup (k : string) (fs : list (string * string)) : option string :=
  match fs with
  | [] => None
  | (k', v) :: r => if String.eqb k k' then Some v else lookup k r
  end.

Fixpoint store (k v : string) (fs : list (string * string)) : list (string * string) :=
  match fs with
  | [] => [(k, v)]
  | (k', v') :: r => if String.eqb k k' then (k, v) :: r else (k', v') :: store k v r
  end.

(** [load_session_id]: [None] when there is no file or it cannot be read
    as a JSON object. *)
Definition load_session_id (w : World) (channel_name : json) : outcome json :=
  match _key channel_name with
  | None => Raise "AttributeError"
  | Some p =>
      match lookup p (files w) with
      | None => Ret JNull
      | Some text =>
          match Json.loads text with
          | Some (JObj obj) => Ret (get obj "sessionId")
          | _ => Ret JNull
          end
      end
  end.

Definition save_session_id (w : World) (channel_name session_id : json) : outcome World :=
  match _key channel_name with
  | None => Raise "AttributeError"
  | Some p => Ret (W.set_files (store p (Json.dumps (JObj [("sessionId"%string, session_id)])) (files w)) w)
  end.

(** [clear_session(channel_name)]: the file of the channel is removed when
    there is one. *)
Definition clear_session (w : World) (channel_name : json) : outcome World :=
  match _key channel_name with
  | None => Raise "AttributeError"
  | Some p => Ret (W.set_files (filter (fun kv => negb (String.eqb p (fst kv))) (files w)) w)
  end.

(** A channel name whose file the file system takes: no NUL character, and
    a file name of at most 255 octets. *)
Definition portable (channel_name : string) : bool :=
  forallb (fun c => negb (Ascii.eqb c zero_byte)) (bytes_of_str channel_name)
  && (String.length channel_name + 5 <=? 255)%nat.

End Sess.

(* ================================================================== *)
(** * RSA helpers of [security/my_security.py] *)

Module RSA.

(** [MySecurity.rsa_generate()]: the next key pair of the world, or an
    exception. *)
Definition rsa_generate (w : World) : option (PrivateKey * string) * World :=
  let (n, w) := W.draw w in (rsa_keygen w n, w).

(** [MySecurity.rsa_decrypt(private_key, base64_cipher)] for a key object;
    [None] is an exception: a cipher that is not a [str] or not Base64, a
    failed OAEP decryption, a plaintext that is not UTF-8. *)
Definition rsa_decrypt (w : World) (private_key : PrivateKey) (base64_cipher : json)
  : option string :=
  match base64_cipher with
  | JStr c =>
      match Base64.b64decode c with
      | Some ct =>
          match oaep_decrypt w private_key ct with
          | Some plain => utf8_decode plain
          | None => None
          end
      | None => None
      end
  | _ => None
  end.

(** [MySecurity.rsa_encrypt(public_key, plaintext)] for a key given as
    text; [None] is an exception: a key that is not loaded, a plaintext
    that cannot be encoded, a failed encryption. *)
Definition rsa_encrypt (w : World) (public_key : json) (plaintext : string)
  : option string * World :=
  match public_key with
  | JStr pem =>
      match str_encode plaintext with
      | Some pt =>
          let (n, w) := W.draw w in
          match oaep_encrypt w pem pt n with
          | Some ct => (Some (str_of_bytes (Base64.b64encode ct)), w)
          | None => (None, w)
          end
      | None => (None, w)
      end
  | _ => (None, w)
  end.

End RSA.

(** [str(v) == s] for a [str] literal [s] that is not the text of any other
    JSON value: it holds exactly when [v] is that [str]. *)
Definition str_is (v : json) (s : string) : bool := eq_str v s.

(* ================================================================== *)
(** * [api/impl/messaging_channel_api.py] *)

Module MessagingChannelApi.

(** The fields the functions below read or write.  [udp_closed] is the state
    of the socket of [_udp_client]; [channel_password] is an attribute the
    class does not declare and that [setattr] may add. *)
Record t := mk {
  remote_url : string;
  channel_secret : option string;
  ready_state : bool;
  session_id : json;
  channel_state : option ChannelState.t;
  default_poll_source : json;
  udp_closed : bool;
  channel_password : option json
}.

Definition set_remote_url (v : string) (x : t) : t :=
  mk v (channel_secret x) (ready_state x) (session_id x) (channel_state x) (default_poll_source x) (udp_closed x) (channel_password x).
Definition set_channel_secret (v : option string) (x : t) : t :=
  mk (remote_url x) v (ready_state x) (session_id x) (channel_state x) (default_poll_source x) (udp_closed x) (channel_password x).
Definition set_ready_state (v : bool) (x : t) : t :=
  mk (remote_url x) (channel_secret x) v (session_id x) (channel_state x) (default_poll_source x) (udp_closed x) (channel_password x).
Definition set_session_id (v : json) (x : t) : t :=
  mk (remote_url x) (channel_secret x) (ready_state x) v (channel_state x) (default_poll_source x) (udp_closed x) (channel_password x).
Definition set_channel_state (v : option ChannelState.t) (x : t) : t :=
  mk (remote_url x) (channel_secret x) (ready_state x) (session_id x) v (default_poll_source x) (udp_closed x) (channel_password x).
Definition set_default_poll_source (v : json) (x : t) : t :=
  mk (remote_url x) (channel_secret x) (ready_state x) (session_id x) (channel_state x) v (udp_closed x) (channel_password x).
Definition set_udp_closed (v : bool) (x : t) : t :=
  mk (remote_url x) (channel_secret x) (ready_state x) (session_id x) (channel_state x) (default_poll_source x) v (channel_password x).
Definition set_channel_password (v : option json) (x : t) : t :=
  mk (remote_url x) (channel_secret x) (ready_state x) (session_id x) (channel_state x) (default_poll_source x) (udp_closed x) v.

Definition POLLING_TIMEOUT : Z := 40.

(** [MessagingChannelApi(remote_url)]. *)
Definition init (remote_url : string) : t :=
  mk remote_url None false JNull None (JStr "AUTO") false None.

Definition _url (action : string) : string := ("/" ++ action)%string.

Definition status_success (obj : dict) : bool := str_is (get obj "status") "success".

Definition create_agent_context : json :=
  JObj [ ("agentType"%string, JStr "PYTHON-AGENT");
         ("descriptor"%string, JStr "hmdev/messaging/agent/api/http/messaging_channel_api.py") ].

(** [_verify_and_decrypt_message(item)] on a dict. *)
Definition _verify_and_decrypt_message (self : t) (item : dict) : dict :=
  if truthy (get item "encrypted") then
    let plain := MySecurity.decrypt_and_verify (get_or item "content" (JStr EmptyString))
                                               (channel_secret self) in
    dict_set "encrypted" (JBool false) (dict_set "content" (of_optstr plain) item)
  else item.

Definition decrypt_item (self : t) (item : json) : json :=
  match item with
  | JObj d => JObj (_verify_and_decrypt_message self d)
  | _ => item
  end.

(** [_create_channel(name, password)]: the channel id, or [None]. *)
Definition _create_channel (w : World) (name password : json) : json * World :=
  let payload := JObj [("channelName"%string, name); ("channelPassword"%string, password)] in
  let (r, w) := HttpClient.request w (_url "create-channel") payload 30 in
  match r with
  | Reply txt =>
      match Json.loads txt with
      | Some (JObj obj) =>
          if status_success obj then
            match get_or obj "data" (JObj []) with
            | JObj data => (get data "channelId", w)
            | _ => (JNull, w)
            end
          else (JNull, w)
      | _ => (JNull, w)
      end
  | _ => (JNull, w)
  end.

(** The [ChannelState] built from the [state] object of a reply. *)
Definition state_of (md : dict) : ChannelState.t :=
  ChannelState.mk (get md "topicName") (get md "channelId")
                  (get md "channelName") (get md "channelPassword")
                  JNull JNull JNull JNull.

Definition md_of (data : dict) : json :=
  py_or (py_or (get data "state") (get data "metadata")) (get data "ChannelState").

(** [connect(channel_name, channel_password, agent_name, session_id,
    channel_id, enable_webrtc_relay, api_key_scope, poll_source)]. *)
Definition connect (self : t) (w : World)
    (channel_name channel_password agent_name session_id channel_id
     enable_webrtc_relay api_key_scope poll_source : json)
  : ConnectResponse.t * t * World :=
  let creds := truthy channel_name && truthy channel_password in
  let derived := if creds
                 then option_map Some (MySecurity.derive_channel_secret_dyn channel_name channel_password)
                 else Some None in
  match derived with
  | None => (ConnectResponse.empty, self, w)
  | Some secret =>
      let self := match secret with Some _ => set_channel_secret secret self | None => self end in
      let password_hash :=
        match secret, channel_password with
        | Some _, JStr p => of_optstr (MySecurity.hash p (channel_secret self))
        | _, _ => JNull
        end in
      let cid_w := if truthy channel_id then Some (channel_id, w)
                   else if creds then Some (_create_channel w channel_name password_hash)
                   else None in
      match cid_w with
      | None => (ConnectResponse.empty, self, w)
      | Some (cid, w) =>
          let payload := [] in
          let payload := if truthy cid then dict_set "channelId" cid payload else payload in
          let payload := if truthy channel_name && truthy password_hash
                         then dict_set "channelPassword" password_hash
                                (dict_set "channelName" channel_name payload)
                         else payload in
          let payload := dict_set "apiKeyScope" (py_or api_key_scope (JStr "private"))
                           (dict_set "enableWebrtcRelay" enable_webrtc_relay
                              (dict_set "agentContext" create_agent_context
                                 (dict_set "agentName" agent_name payload))) in
          let payload := if truthy session_id then dict_set "sessionId" session_id payload else payload in
          let (r, w) := HttpClient.request w (_url "connect") (JObj payload) 30 in
          match r with
          | Reply response_text =>
              match Json.loads response_text with
              | None => (ConnectResponse.empty, self, w)
              | Some (JObj json_data) =>
                  if status_success json_data then
                    let data := get_or json_data "data" (JObj []) in
                    let '(session, date, state, channel_id_resp) :=
                      match data with
                      | JObj data =>
                          let session := py_or (get data "sessionId") (get data "session") in
                          let date := get data "date" in
                          match md_of data with
                          | JObj md =>
                              let state := state_of md in
                              (session, date, Some state,
                               py_or (ChannelState.channelId state) (get data "channelId"))
                          | _ => (session, date, None, JNull)
                          end
                      | _ => (JNull, JNull, None, JNull)
                      end in
                    let self := set_ready_state true self in
                    let self := set_session_id session self in
                    let self := set_default_poll_source (py_or poll_source (JStr "AUTO")) self in
                    let self := match state with
                                | Some _ => set_channel_state state self
                                | None => self
                                end in
                    (ConnectResponse.mk session channel_id_resp date state, self, w)
                  else
                    let session := py_or (get json_data "sessionId") (get json_data "session") in
                    let state := match md_of json_data with
                                 | JObj md => Some (state_of md)
                                 | _ => None
                                 end in
                    let self := match state with
                                | Some _ => set_channel_state state self
                                | None => self
                                end in
                    let self := set_ready_state true self in
                    let self := set_session_id session self in
                    let self := set_default_poll_source (py_or poll_source (JStr "AUTO")) self in
                    (ConnectResponse.mk session
                       (match state with Some st => ChannelState.channelId st | None => JNull end)
                       JNull state, self, w)
              | Some _ =>
                  if negb (String.eqb (strip response_text) EmptyString) then
                    let session := JStr (strip response_text) in
                    let self := set_ready_state true self in
                    let self := set_session_id session self in
                    let self := set_default_poll_source (py_or poll_source (JStr "AUTO")) self in
                    (ConnectResponse.mk session JNull JNull None, self, w)
                  else (ConnectResponse.empty, self, w)
              end
          | _ => (ConnectResponse.empty, self, w)
          end
      end
  end.

(** [receive(session_id, receive_config)]: [None] on any exception but a
    timeout, which gives an empty result.  Reading an attribute of a plain
    dict is such an exception. *)
Definition receive (self : t) (w : World) (session_id : json) (receive_config : rc_arg)
  : option EventMessageResult.t * World :=
  match receive_config with
  | RcDict _ => (None, w)
  | RcObj rc =>
      let payload :=
        JObj [ ("sessionId"%string, session_id);
               ("receiveConfig"%string,
                JObj [ ("globalOffset"%string, ReceiveConfig.globalOffset rc);
                       ("localOffset"%string, ReceiveConfig.localOffset rc);
                       ("limit"%string, ReceiveConfig.limit rc);
                       ("pollSource"%string,
                        py_or (ReceiveConfig.pollSource rc) (default_poll_source self)) ]) ] in
      let (r, w) := HttpClient.request w (_url "pull") payload POLLING_TIMEOUT in
      match r with
      | TimedOut => (Some (EventMessageResult.mk [] JNull JNull None), w)
      | Failed => (None, w)
      | Reply txt =>
          match Json.loads txt with
          | Some (JObj obj) =>
              if status_success obj then
                match get_or obj "data" (JObj []) with
                | JObj data =>
                    match py_iter (get_or data "events" (JArr [])) with
                    | None => (None, w)
                    | Some cipher_array =>
                        let data_array := map (decrypt_item self) cipher_array in
                        let ephemeral_array := get_or data "ephemeralEvents" (JArr []) in
                        match (if truthy ephemeral_array then py_iter ephemeral_array else Some []) with
                        | None => (None, w)
                        | Some items =>
                            let ephemeral_data_array := map (decrypt_item self) items in
                            (Some (EventMessageResult.mk data_array
                                     (get data "nextGlobalOffset") (get data "nextLocalOffset")
                                     (match ephemeral_data_array with
                                      | [] => None
                                      | _ => Some ephemeral_data_array
                                      end)), w)
                        end
                    end
                | _ => (Some (EventMessageResult.mk [] JNull JNull None), w)
                end
              else (None, w)
          | Some (JArr l) => (Some (EventMessageResult.mk l JNull JNull None), w)
          | _ => (None, w)
          end
      end
  end.

(** [get_active_agents(session_id)]. *)
Definition get_active_agents (w : World) (session_id : json)
  : option (list AgentInfo.t) * World :=
  let params := JObj [("sessionId"%string, session_id)] in
  let (r, w) := HttpClient.request w (_url "list-agents") params 30 in
  match r with
  | Reply txt =>
      match Json.loads txt with
      | None => (None, w)
      | Some obj =>
          let data := match obj with
                      | JObj o => if status_success o then get_or o "data" (JArr []) else JArr []
                      | _ => JArr []
                      end in
          match py_iter data with
          | None => (None, w)
          | Some items =>
              (Some (flat_map (fun item =>
                        match item with
                        | JObj d => [AgentInfo.mk (get_or d "agentName" (JStr EmptyString))
                                                  (get d "date") item]
                        | _ => []
                        end) items), w)
          end
      end
  | _ => (None, w)
  end.

(** [send(msg, to_agent, session_id, encrypted, event_type, ephemeral)]. *)
Definition send (self : t) (w : World) (msg : string) (to_agent session_id : json)
    (encrypted : bool) (event_type : option string) (ephemeral : bool) : bool * World :=
  let (content, w) :=
    if encrypted then
      let (n, w') := W.draw w in
      (MySecurity.encrypt_and_sign (now w') (urandom w' n) msg (channel_secret self), w')
    else (msg, w) in
  let payload :=
    [ ("type"%string, JStr (match event_type with Some e => if String.eqb e EmptyString then "chat-text" else e
                                               | None => "chat-text" end));
      ("to"%string, to_agent);
      ("encrypted"%string, JBool encrypted);
      ("content"%string, JStr content);
      ("sessionId"%string, session_id) ] in
  let payload := if ephemeral then dict_set "ephemeral" (JBool true) payload else payload in
  let (r, w) := HttpClient.request w (_url "push") (JObj payload) 30 in
  match r with
  | Reply txt =>
      match Json.loads txt with
      | Some (JObj obj) => (status_success obj, w)
      | Some _ => (false, w)
      | None => (false, w)
      end
  | _ => (false, w)
  end.

(** [disconnect(session_id)]: the UDP client is closed first; the session is
    forgotten once the reply has been parsed. *)
Definition disconnect (self : t) (w : World) (session_id : json) : bool * t * World :=
  let self := set_udp_closed true self in
  let payload := JObj [("sessionId"%string, session_id)] in
  let (r, w) := HttpClient.request w (_url "disconnect") payload 30 in
  match r with
  | Reply txt =>
      match Json.loads txt with
      | Some obj =>
          let self := set_ready_state false self in
          let self := set_session_id JNull self in
          (match obj with JObj o => status_success o | _ => false end, self, w)
      | None => (false, self, w)
      end
  | _ => (false, self, w)
  end.

End MessagingChannelApi.

(* ================================================================== *)
(** * [util/password_utils.py] *)

Module PasswordUtils.

(** The plaintext of a reply: a bare password, or a JSON object with
    [channelName] and [channelPassword].  Returns the pair
    [(channel_name, channel_password)]. *)
Definition read_reply (dec : string) : json * json :=
  match Json.loads dec with
  | Some (JObj p) =>
      ( (if truthy (get p "channelName") then get p "channelName" else JNull),
        (if truthy (get p "channelPassword") then get p "channelPassword" else JStr dec) )
  | _ => (JNull, JStr dec)
  end.

(** The body of the loop over the events of one poll, for one event: [None]
    is [continue], [Some api] is [return True] with the channel API as the
    reply leaves it.  A [MessagingChannelApi] has none of the setters tried
    first, so the secret is derived here and stored in its [channel_secret]
    attribute, or the bare password in [channel_password]. *)
Definition accept_reply (w : World) (agent_name : json) (private_key : PrivateKey)
    (connection_time : json) (expected_request_id : option string)
    (channel_api : MessagingChannelApi.t) (ev : json) : option MessagingChannelApi.t :=
  let field k := match ev with JObj d => get d k | _ => JNull end in
  let etype := field "type"%string in
  let eto := field "to"%string in
  let edate := if is_none (field "date"%string) then JInt 0 else field "date"%string in
  if negb (eq_str etype "password-reply") || negb (py_eq eto agent_name) then None
  else
    match (if is_none connection_time then Some false else py_le edate connection_time) with
    | None => None
    | Some true => None
    | Some false =>
        let content := field "content"%string in
        if negb (truthy content) then None
        else
          (* [Some c]: go on with cipher text [c]; [None]: [continue] *)
          let cipher_b64 :=
            match content with
            | JStr text =>
                match Json.loads text with
                | Some (JObj parsed) =>
                    match dict_get "requestId" parsed, expected_request_id with
                    | Some rid, Some expected =>
                        if negb (py_eq rid (JStr expected)) then None
                        else Some (py_or (get parsed "cipher") (get parsed "content"))
                    | _, _ => Some (py_or (get parsed "cipher") (get parsed "content"))
                    end
                | Some _ => Some JNull
                | None => Some content
                end
            | _ => Some content
            end in
          match cipher_b64 with
          | None => None
          | Some c =>
              if negb (truthy c) then None
              else
                match RSA.rsa_decrypt w private_key c with
                | None => None
                | Some dec =>
                    let (channel_name, channel_password) := read_reply dec in
                    if truthy channel_name then
                      match MySecurity.derive_channel_secret_dyn channel_name channel_password with
                      | Some secret =>
                          if negb (String.eqb secret EmptyString)
                          then Some (MessagingChannelApi.set_channel_secret (Some secret) channel_api)
                          else Some (MessagingChannelApi.set_channel_password (Some channel_password) channel_api)
                      | None => Some channel_api
                      end
                    else Some (MessagingChannelApi.set_channel_password (Some channel_password) channel_api)
                end
          end
    end.

Fixpoint first_accepted (w : World) (agent_name : json) (private_key : PrivateKey)
    (connection_time : json) (expected_request_id : option string)
    (channel_api : MessagingChannelApi.t) (events : list json) : option MessagingChannelApi.t :=
  match events with
  | [] => None
  | ev :: r =>
      match accept_reply w agent_name private_key connection_time expected_request_id channel_api ev with
      | Some api => Some api
      | None => first_accepted w agent_name private_key connection_time expected_request_id channel_api r
      end
  end.

Section Wait.
(** The caller's state, in which the channel API lives, and the pull that
    the caller passes as [receive]. *)
Context {S : Type}.
Variable receive : rc_arg -> S -> World -> option EventMessageResult.t * S * World.
Variable get_api : S -> MessagingChannelApi.t.
Variable set_api : MessagingChannelApi.t -> S -> S.

(** [wait_for_password_reply]: [rounds] bounds the turns of the polling
    loop, which ends by itself when the clock passes the deadline. *)
Fixpoint poll (rounds : nat) (deadline : Z) (poll_interval : Z)
    (agent_name : json) (private_key : PrivateKey) (connection_time : json)
    (expected_request_id : option string) (st : S) (w : World) : bool * S * World :=
  match rounds with
  | O => (false, st, w)
  | Datatypes.S n =>
      if negb (now w <? deadline) then (false, st, w)
      else
        let '(res, st, w) :=
          receive (RcDict [ ("globalOffset"%string, JInt 0); ("localOffset"%string, JNull);
                            ("limit"%string, JInt 20) ]) st w in
        match match res with
              | Some r => first_accepted w agent_name private_key connection_time
                                         expected_request_id (get_api st)
                                         (EventMessageResult.events r)
              | None => None
              end with
        | Some api => (true, set_api api st, w)
        | None => poll n deadline poll_interval agent_name private_key connection_time
                       expected_request_id st (W.sleep poll_interval w)
        end
  end.

Definition wait_for_password_reply (agent_name : json) (private_key : PrivateKey)
    (connection_time : json) (expected_request_id : option string)
    (timeout_seconds : Z) (poll_interval : Z) (st : S) (w : World) : bool * S * World :=
  let deadline := now w + 1000 * timeout_seconds in
  poll (Datatypes.S (Z.to_nat (1000 * timeout_seconds / poll_interval))) deadline poll_interval
       agent_name private_key connection_time expected_request_id st w.
End Wait.

End PasswordUtils.

(* ================================================================== *)
(** * [core/agent_connection.py] *)

Module AgentConnection.

Definition DEFAULT_RECEIVE_LIMIT : Z := 20.
Definition PASSWORD_WAIT_TIMEOUT_SECONDS : Z := 5.

Record t := mk {
  connection_time : json;
  agent_name : json;
  channel_id : json;
  channel_secret : option string;
  initial_receive_config : option ReceiveConfig.t;
  current_receive_config : option ReceiveConfig.t;
  _channel_api : MessagingChannelApi.t;
  _check_last_session : json;
  enable_webrtc_relay : json;
  _session_id : json;
  _ready_state : bool;
  _channel_name : json;
  _channel_password : json;
  _receive_thread : bool;
  _key_pair : option (PrivateKey * string);
  _pending_private_key : option PrivateKey;
  _pending_request_id : option string;
  password_request_handler : option (json -> json -> json -> option json)
}.

Definition set_connection_time (v : json) (x : t) : t :=
  mk v (agent_name x) (channel_id x) (channel_secret x) (initial_receive_config x) (current_receive_config x) (_channel_api x) (_check_last_session x) (enable_webrtc_relay x) (_session_id x) (_ready_state x) (_channel_name x) (_channel_password x) (_receive_thread x) (_key_pair x) (_pending_private_key x) (_pending_request_id x) (password_request_handler x).
Definition set_agent_name (v : json) (x : t) : t :=
  mk (connection_time x) v (channel_id x) (channel_secret x) (initial_receive_config x) (current_receive_config x) (_channel_api x) (_check_last_session x) (enable_webrtc_relay x) (_session_id x) (_ready_state x) (_channel_name x) (_channel_password x) (_receive_thread x) (_key_pair x) (_pending_private_key x) (_pending_request_id x) (password_request_handler x).
Definition set_channel_id (v : json) (x : t) : t :=
  mk (connection_time x) (agent_name x) v (channel_secret x) (initial_receive_config x) (current_receive_config x) (_channel_api x) (_check_last_session x) (enable_webrtc_relay x) (_session_id x) (_ready_state x) (_channel_name x) (_channel_password x) (_receive_thread x) (_key_pair x) (_pending_private_key x) (_pending_request_id x) (password_request_handler x).
Definition set_channel_secret (v : option string) (x : t) : t :=
  mk (connection_time x) (agent_name x) (channel_id x) v (initial_receive_config x) (current_receive_config x) (_channel_api x) (_check_last_session x) (enable_webrtc_relay x) (_session_id x) (_ready_state x) (_channel_name x) (_channel_password x) (_receive_thread x) (_key_pair x) (_pending_private_key x) (_pending_request_id x) (password_request_handler x).
Definition set_initial_receive_config (v : option ReceiveConfig.t) (x : t) : t :=
  mk (connection_time x) (agent_name x) (channel_id x) (channel_secret x) v (current_receive_config x) (_channel_api x) (_check_last_session x) (enable_webrtc_relay x) (_session_id x) (_ready_state x) (_channel_name x) (_channel_password x) (_receive_thread x) (_key_pair x) (_pending_private_key x) (_pending_request_id x) (password_request_handler x).
Definition set_current_receive_config (v : option ReceiveConfig.t) (x : t) : t :=
  mk (connection_time x) (agent_name x) (channel_id x) (channel_secret x) (initial_receive_config x) v (_channel_api x) (_check_last_session x) (enable_webrtc_relay x) (_session_id x) (_ready_state x) (_channel_name x) (_channel_password x) (_receive_thread x) (_key_pair x) (_pending_private_key x) (_pending_request_id x) (password_request_handler x).
Definition set__channel_api (v : MessagingChannelApi.t) (x : t) : t :=
  mk (connection_time x) (agent_name x) (channel_id x) (channel_secret x) (initial_receive_config x) (current_receive_config x) v (_check_last_session x) (enable_webrtc_relay x) (_session_id x) (_ready_state x) (_channel_name x) (_channel_password x) (_receive_thread x) (_key_pair x) (_pending_private_key x) (_pending_request_id x) (password_request_handler x).
Definition set__check_last_session (v : json) (x : t) : t :=
  mk (connection_time x) (agent_name x) (channel_id x) (channel_secret x) (initial_receive_config x) (current_receive_config x) (_channel_api x) v (enable_webrtc_relay x) (_session_id x) (_ready_state x) (_channel_name x) (_channel_password x) (_receive_thread x) (_key_pair x) (_pending_private_key x) (_pending_request_id x) (password_request_handler x).
Definition set_enable_webrtc_relay (v : json) (x : t) : t :=
  mk (connection_time x) (agent_name x) (channel_id x) (channel_secret x) (initial_receive_config x) (current_receive_config x) (_channel_api x) (_check_last_session x) v (_session_id x) (_ready_state x) (_channel_name x) (_channel_password x) (_receive_thread x) (_key_pair x) (_pending_private_key x) (_pending_request_id x) (password_request_handler x).
Definition set__session_id (v : json) (x : t) : t :=
  mk (connection_time x) (agent_name x) (channel_id x) (channel_secret x) (initial_receive_config x) (current_receive_config x) (_channel_api x) (_check_last_session x) (enable_webrtc_relay x) v (_ready_state x) (_channel_name x) (_channel_password x) (_receive_thread x) (_key_pair x) (_pending_private_key x) (_pending_request_id x) (password_request_handler x).
Definition set__ready_state (v : bool) (x : t) : t :=
  mk (connection_time x) (agent_name x) (channel_id x) (channel_secret x) (initial_receive_config x) (current_receive_config x) (_channel_api x) (_check_last_session x) (enable_webrtc_relay x) (_session_id x) v (_channel_name x) (_channel_password x) (_receive_thread x) (_key_pair x) (_pending_private_key x) (_pending_request_id x) (password_request_handler x).
Definition set__channel_name (v : json) (x : t) : t :=
  mk (connection_time x) (agent_name x) (channel_id x) (channel_secret x) (initial_receive_config x) (current_receive_config x) (_channel_api x) (_check_last_session x) (enable_webrtc_relay x) (_session_id x) (_ready_state x) v (_channel_password x) (_receive_thread x) (_key_pair x) (_pending_private_key x) (_pending_request_id x) (password_request_handler x).
Definition set__channel_password (v : json) (x : t) : t :=
  mk (connection_time x) (agent_name x) (channel_id x) (channel_secret x) (initial_receive_config x) (current_receive_config x) (_channel_api x) (_check_last_session x) (enable_webrtc_relay x) (_session_id x) (_ready_state x) (_channel_name x) v (_receive_thread x) (_key_pair x) (_pending_private_key x) (_pending_request_id x) (password_request_handler x).
Definition set__receive_thread (v : bool) (x : t) : t :=
  mk (connection_time x) (agent_name x) (channel_id x) (channel_secret x) (initial_receive_config x) (current_receive_config x) (_channel_api x) (_check_last_session x) (enable_webrtc_relay x) (_session_id x) (_ready_state x) (_channel_name x) (_channel_password x) v (_key_pair x) (_pending_private_key x) (_pending_request_id x) (password_request_handler x).
Definition set__key_pair (v : option (PrivateKey * string)) (x : t) : t :=
  mk (connection_time x) (agent_name x) (channel_id x) (channel_secret x) (initial_receive_config x) (current_receive_config x) (_channel_api x) (_check_last_session x) (enable_webrtc_relay x) (_session_id x) (_ready_state x) (_channel_name x) (_channel_password x) (_receive_thread x) v (_pending_private_key x) (_pending_request_id x) (password_request_handler x).
Definition set__pending_private_key (v : option PrivateKey) (x : t) : t :=
  mk (connection_time x) (agent_name x) (channel_id x) (channel_secret x) (initial_receive_config x) (current_receive_config x) (_channel_api x) (_check_last_session x) (enable_webrtc_relay x) (_session_id x) (_ready_state x) (_channel_name x) (_channel_password x) (_receive_thread x) (_key_pair x) v (_pending_request_id x) (password_request_handler x).
Definition set__pending_request_id (v : option string) (x : t) : t :=
  mk (connection_time x) (agent_name x) (channel_id x) (channel_secret x) (initial_receive_config x) (current_receive_config x) (_channel_api x) (_check_last_session x) (enable_webrtc_relay x) (_session_id x) (_ready_state x) (_channel_name x) (_channel_password x) (_receive_thread x) (_key_pair x) (_pending_private_key x) v (password_request_handler x).
Definition set_password_request_handler (v : option (json -> json -> json -> option json)) (x : t) : t :=
  mk (connection_time x) (agent_name x) (channel_id x) (channel_secret x) (initial_receive_config x) (current_receive_config x) (_channel_api x) (_check_last_session x) (enable_webrtc_relay x) (_session_id x) (_ready_state x) (_channel_name x) (_channel_password x) (_receive_thread x) (_key_pair x) (_pending_private_key x) (_pending_request_id x) v.

(** [AgentConnection(api_url)]. *)
Definition init (api_url : string) : t :=
  mk JNull JNull JNull None None None (MessagingChannelApi.init api_url)
     (JBool true) (JBool false) JNull false JNull JNull false None None None None.

(** [self.agent_name], for use where a parameter is called [agent_name]. *)
Definition self_agent_name (self : t) : json := agent_name self.

Definition is_ready (self : t) : bool :=
  if negb (_ready_state self) || is_none (_session_id self) then false else true.

Definition default_config : ReceiveConfig.t :=
  ReceiveConfig.make (JInt 0) (JInt 0) (JInt DEFAULT_RECEIVE_LIMIT).

(** [_verify_and_decrypt_message(ev)]: only a dict can carry a true
    [encrypted] flag. *)
Definition _verify_and_decrypt_message (self : t) (ev : json) : json :=
  match ev with
  | JObj d =>
      if truthy (get d "encrypted") then
        match MySecurity.decrypt_and_verify (get_or d "content" (JStr EmptyString))
                                            (channel_secret self) with
        | Some plain => JObj (dict_set "encrypted" (JBool false) (dict_set "content" (JStr plain) d))
        | None => ev
        end
      else ev
  | _ => ev
  end.

Definition field (ev : json) (k : string) : json :=
  match ev with JObj d => get d k | _ => JNull end.

(** Store a secret on the channel API: it has no [set_channel_secret], so
    the attribute is set directly. *)
Definition api_set_secret (secret : string) (self : t) : t :=
  set__channel_api (MessagingChannelApi.set_channel_secret (Some secret) (_channel_api self)) self.

Definition api_set_password (password : json) (self : t) : t :=
  set__channel_api (MessagingChannelApi.set_channel_password (Some password) (_channel_api self)) self.

(** [_handle_password_reply(ev)]. *)
Definition _handle_password_reply (self : t) (w : World) (ev : json) : t :=
  let content := field ev "content" in
  match _pending_private_key self with
  | None => self
  | Some priv =>
      if negb (truthy content) then self
      else
        let cipher_b64 :=
          match content with
          | JStr text =>
              match Json.loads text with
              | Some (JObj parsed) => py_or (get parsed "cipher") (get parsed "content")
              | Some _ => JNull
              | None => content
              end
          | _ => content
          end in
        if negb (truthy cipher_b64) then self
        else
          match RSA.rsa_decrypt w priv cipher_b64 with
          | None => self
          | Some dec =>
              let (channel_name, channel_password) := PasswordUtils.read_reply dec in
              let self := if truthy channel_name && negb (truthy (_channel_name self))
                          then set__channel_name channel_name self else self in
              let self := set__channel_password channel_password self in
              if truthy (_channel_name self) && truthy (_channel_password self) then
                match MySecurity.derive_channel_secret_dyn (_channel_name self) (_channel_password self) with
                | Some secret => api_set_secret secret (set_channel_secret (Some secret) self)
                | None => self
                end
              else api_set_password channel_password self
          end
  end.

(** [_handle_password_request(ev)]. *)
Definition _handle_password_request (self : t) (w : World) (ev : json) : World :=
  let requester_agent := field ev "from" in
  let requester_pub_raw := field ev "content" in
  let requester_pub :=
    match requester_pub_raw with
    | JStr text =>
        match Json.loads text with
        | Some (JObj o) => get o "publicKeyPem"
        | _ => JNull
        end
    | _ => JNull
    end in
  let allowed :=
    match password_request_handler self with
    | Some handler =>
        let ch_id := match MessagingChannelApi.channel_state (_channel_api self) with
                     | Some md => ChannelState.channelId md
                     | None => JNull
                     end in
        match handler ch_id requester_agent requester_pub with
        | Some r => truthy r
        | None => true
        end
    | None => true
    end in
  if allowed && truthy (_channel_password self) && truthy (_channel_name self) && truthy requester_pub then
    let payload := Json.dumps (JObj [ ("channelName"%string, _channel_name self);
                                      ("channelPassword"%string, _channel_password self) ]) in
    match RSA.rsa_encrypt w requester_pub payload with
    | (Some cipher_b64, w) =>
        snd (MessagingChannelApi.send (_channel_api self) w cipher_b64 requester_agent
                                      (_session_id self) false (Some "password-reply"%string) false)
    | (None, w) => w
    end
  else w.

(** [connection_time is None or (edate is not None and edate > connection_time)];
    [None] is the [TypeError] of the comparison. *)
Definition newer (self : t) (edate : json) : option bool :=
  if is_none (connection_time self) then Some true
  else if is_none edate then Some false
  else py_gt edate (connection_time self).

(** The body of the loop of [_check_auto_events] for one event; an exception
    ends the work on this event only. *)
Definition auto_event (self : t) (w : World) (ev : json) : t * World :=
  let etype := field ev "type" in
  let edate := field ev "date" in
  if eq_str etype "password-request" then
    match newer self edate with
    | Some true => (self, _handle_password_request self w ev)
    | _ => (self, w)
    end
  else if eq_str etype "password-reply" then
    match newer self edate with
    | Some true =>
        if py_eq (field ev "to") (agent_name self)
        then (_handle_password_reply self w ev, w)
        else (self, w)
    | _ => (self, w)
    end
  else (self, w).

Fixpoint _check_auto_events (self : t) (w : World) (events : list json) : t * World :=
  match events with
  | [] => (self, w)
  | ev :: r => let (self, w) := auto_event self w ev in _check_auto_events self w r
  end.

(** [receive(offset_range)]. *)
Definition receive (offset_range : rc_arg) (self : t) (w : World)
  : option EventMessageResult.t * t * World :=
  if negb (is_ready self) then (None, self, w)
  else
    match MessagingChannelApi.receive (_channel_api self) w (_session_id self) offset_range with
    | (None, w) => (None, self, w)
    | (Some resp, w) =>
        let events := map (_verify_and_decrypt_message self) (EventMessageResult.events resp) in
        let (self, w) := _check_auto_events self w events in
        (Some (EventMessageResult.set_events events resp), self, w)
    end.

(** [request_password(maybe_channel_name, timeout_seconds)]. *)
Definition request_password (self : t) (w : World) (maybe_channel_name : json)
    (timeout_seconds : Z) : bool * t * World :=
  if negb (is_ready self) || negb (truthy (_session_id self)) then (false, self, w)
  else if negb (is_none (_channel_password self)) then (true, self, w)
  else
    match RSA.rsa_generate w with
    | (None, w) =>
        (false, set__pending_request_id None (set__pending_private_key None self), w)
    | (Some (priv_key, pub_pem), w) =>
        let (n, w) := W.draw w in
        let request_id := uuid4 w n in
        let self := set__pending_private_key (Some priv_key) self in
        let self := set__pending_request_id (Some request_id) self in
        let req_payload := Json.dumps (JObj [ ("requestId"%string, JStr request_id);
                                              ("publicKeyPem"%string, JStr pub_pem) ]) in
        let (_, w) := MessagingChannelApi.send (_channel_api self) w req_payload (JStr "*")
                                               (_session_id self) false
                                               (Some "password-request"%string) false in
        let '(success, self, w) :=
          PasswordUtils.wait_for_password_reply receive _channel_api set__channel_api
            (agent_name self) priv_key (connection_time self) (Some request_id)
            (if timeout_seconds =? 0 then PASSWORD_WAIT_TIMEOUT_SECONDS else timeout_seconds)
            400 self w in
        let self := set__pending_private_key None self in
        let self := set__pending_request_id None self in
        let self :=
          if success then
            let self := match MessagingChannelApi.channel_password (_channel_api self) with
                        | Some p => set__channel_password p self
                        | None => self
                        end in
            set_channel_secret (MessagingChannelApi.channel_secret (_channel_api self)) self
          else self in
        (success, self, w)
    end.

(** The receive configurations computed from the state of a connect reply. *)
Definition configs_of (md : option ChannelState.t) : ReceiveConfig.t * ReceiveConfig.t :=
  let ogo := match md with Some m => ChannelState.originalGlobalOffset m | None => JNull end in
  let go := match md with Some m => ChannelState.globalOffset m | None => JNull end in
  let lo := match md with Some m => ChannelState.localOffset m | None => JNull end in
  let start_offset := if negb (is_none ogo) then ogo else py_or go (JInt 0) in
  if negb (is_none go) || negb (is_none ogo) then
    ( ReceiveConfig.make start_offset (JInt 0) (JInt DEFAULT_RECEIVE_LIMIT),
      ReceiveConfig.make (py_or go (JInt 0)) (py_or lo (JInt 0)) (JInt DEFAULT_RECEIVE_LIMIT) )
  else (default_config, default_config).

(** [_connect_internal(channel_id, channel_name, channel_password,
    agent_name, api_key_scope)]. *)
Definition _connect_internal (self : t) (w : World)
    (channel_id channel_name channel_password agent_name api_key_scope : json)
  : outcome bool * t * World :=
  if _ready_state self && negb (is_none (_session_id self)) then
    (Raise "already connected", self, w)
  else
    let loaded :=
      if is_none (_session_id self) && truthy (_check_last_session self)
      then match Sess.load_session_id w (py_or channel_id channel_name) with
           | Ret sid => Ret (set__session_id sid self)
           | Raise e => Raise e
           end
      else Ret self in
    match loaded with
    | Raise e => (Raise e, self, w)
    | Ret self =>
        let self := set_agent_name agent_name self in
        let self := set__channel_name channel_name self in
        let self := set__channel_password channel_password self in
        let (kp, w) := RSA.rsa_generate w in
        let self := set__key_pair kp self in
        let '(resp, api, w) :=
          if negb (is_none channel_id)
          then MessagingChannelApi.connect (_channel_api self) w JNull JNull (self_agent_name self)
                 (_session_id self) channel_id (enable_webrtc_relay self) api_key_scope (JStr "AUTO")
          else MessagingChannelApi.connect (_channel_api self) w channel_name channel_password
                 (self_agent_name self) (_session_id self) JNull (enable_webrtc_relay self)
                 api_key_scope (JStr "AUTO") in
        let self := set__channel_api api self in
        if truthy (ConnectResponse.sessionId resp) then
          let self := set__session_id (ConnectResponse.sessionId resp) self in
          let self := set_connection_time (ConnectResponse.date resp) self in
          let self := set__ready_state true self in
          let state := ConnectResponse.state resp in
          let self := set_channel_id
                        (py_or (ConnectResponse.channelId resp)
                               (match state with Some st => ChannelState.channelId st | None => JNull end))
                        self in
          let (initial, current) := configs_of state in
          let self := set_initial_receive_config (Some initial) self in
          let self := set_current_receive_config (Some current) self in
          let self :=
            if negb (is_none (_channel_name self)) && negb (is_none (_channel_password self)) then
              let self := set_channel_secret
                            (MySecurity.derive_channel_secret_dyn (_channel_name self) (_channel_password self))
                            self in
              match channel_secret self with
              | Some secret => api_set_secret secret self
              | None => self
              end
            else self in
          let (self, w) :=
            match channel_secret self,
                  MessagingChannelApi.channel_secret (_channel_api self),
                  MessagingChannelApi.channel_password (_channel_api self) with
            | None, None, None =>
                let '(_, self, w) := request_password self w channel_name PASSWORD_WAIT_TIMEOUT_SECONDS in
                (self, w)
            | _, _, _ => (self, w)
            end in
          if truthy (_session_id self) then
            match Sess.save_session_id w (py_or channel_id channel_name) (_session_id self) with
            | Ret w => (Ret true, self, w)
            | Raise e => (Raise e, self, w)
            end
          else (Ret true, self, w)
        else (Ret false, self, w)
    end.

(** [_connect_with_dict(config)]. *)
Definition _connect_with_dict (self : t) (w : World) (config : json) : outcome bool * t * World :=
  match config with
  | JObj config =>
      let self := set_enable_webrtc_relay (get_or config "enableWebrtcRelay" (JBool false)) self in
      let self := set__check_last_session (get_or config "checkLastSession" (JBool true)) self in
      _connect_internal self w (get config "channelId") (get config "channelName")
        (get config "channelPassword") (get config "agentName")
        (get_or config "apiKeyScope" (JStr "private"))
  | _ => (Raise "AttributeError", self, w)
  end.

(** [connect(channel_name, channel_password, agent_name, **kwargs)]. *)
Definition connect (self : t) (w : World) (channel_name channel_password agent_name : json)
    (kwargs : dict) : outcome bool * t * World :=
  match channel_name with
  | JObj _ => _connect_with_dict self w channel_name
  | _ =>
      match dict_get "config" kwargs with
      | Some config => _connect_with_dict self w config
      | None =>
          let channel_name := if is_none channel_name then get kwargs "channelName" else channel_name in
          let channel_password :=
            if is_none channel_password then get kwargs "channelPassword" else channel_password in
          let agent_name := if is_none agent_name then get kwargs "agentName" else agent_name in
          let self := match dict_get "enableWebrtcRelay" kwargs with
                      | Some v => set_enable_webrtc_relay v self
                      | None => self
                      end in
          let self := match dict_get "checkLastSession" kwargs with
                      | Some v => set__check_last_session v self
                      | None => self
                      end in
          _connect_internal self w (get kwargs "channelId") channel_name channel_password agent_name
            (get_or kwargs "apiKeyScope" (JStr "private"))
      end
  end.

(** [disconnect()]. *)
Definition disconnect (self : t) (w : World) : bool * t * World :=
  if negb (is_ready self) then (false, self, w)
  else
    let '(result, api, w) := MessagingChannelApi.disconnect (_channel_api self) w (_session_id self) in
    let self := set__channel_api api self in
    if result then
      let self := set__session_id JNull self in
      let self := set__ready_state false self in
      let self := set__pending_private_key None self in
      let self := set__pending_request_id None self in
      let self := set__key_pair None self in
      (result, self, w)
    else (result, self, w).

(** [handler.on_message_events(events)]: the batch is recorded; whatever the
    handler raises is swallowed by the caller. *)
Definition on_message_events (w : World) (events : list json) : World :=
  W.set_delivered (delivered w ++ [events]) w.

(** The start of [_run_receive]: the offsets the pump begins with. *)
Definition pump_start (self : t) : ReceiveConfig.t :=
  match initial_receive_config self with
  | Some c =>
      ReceiveConfig.make (py_or (ReceiveConfig.globalOffset c) (JInt 0))
                         (py_or (ReceiveConfig.localOffset c) (JInt 0))
                         (py_or (ReceiveConfig.limit c) (JInt DEFAULT_RECEIVE_LIMIT))
  | None => default_config
  end.

(** One turn of the loop of [_run_receive], entered when [is_ready()]
    holds. *)
Definition pump_round (offset_range : ReceiveConfig.t) (self : t) (w : World)
  : ReceiveConfig.t * t * World :=
  match receive (RcObj offset_range) self w with
  | (None, self, w) => (offset_range, self, W.sleep 500 w)
  | (Some resp, self, w) =>
      let ephemeral_events := match EventMessageResult.ephemeralEvents resp with
                              | Some l => l
                              | None => []
                              end in
      let w := match ephemeral_events with
               | [] => w
               | _ => on_message_events w ephemeral_events
               end in
      let events := EventMessageResult.events resp in
      match events with
      | [] => (offset_range, self, w)
      | _ =>
          let w := on_message_events w events in
          let offset_range :=
            if negb (is_none (EventMessageResult.nextGlobalOffset resp))
            then ReceiveConfig.set_globalOffset (EventMessageResult.nextGlobalOffset resp) offset_range
            else offset_range in
          let offset_range :=
            if negb (is_none (EventMessageResult.nextLocalOffset resp))
            then ReceiveConfig.set_localOffset (EventMessageResult.nextLocalOffset resp) offset_range
            else offset_range in
          (offset_range, self, W.sleep 500 w)
      end
  end.

(** [_run_receive(handler)], for at most [rounds] turns of its loop. *)
Fixpoint pump (rounds : nat) (offset_range : ReceiveConfig.t) (self : t) (w : World)
  : ReceiveConfig.t * t * World :=
  match rounds with
  | O => (offset_range, self, w)
  | S n =>
      if is_ready self then
        let '(offset_range, self, w) := pump_round offset_range self w in
        pump n offset_range self w
      else (offset_range, self, w)
  end.

Definition _run_receive (rounds : nat) (self : t) (w : World) : ReceiveConfig.t * t * World :=
  pump rounds (pump_start self) self w.

(** [get_active_agents()]. *)
Definition get_active_agents (self : t) (w : World) : option (list AgentInfo.t) * World :=
  if negb (is_ready self) then (None, w)
  else MessagingChannelApi.get_active_agents w (_session_id self).

(** The loop of [is_host_agent] over the agents: the pair carried is
    [(earliest_agent, earliest_time)]; [None] is the [TypeError] of a
    comparison. *)
Fixpoint earliest (self : t) (agents : list AgentInfo.t) (acc : json * json) : option (json * json) :=
  match agents with
  | [] => Some acc
  | agent :: r =>
      let agent_name := py_or (AgentInfo.getattr agent "agentName" JNull)
                              (AgentInfo.getattr agent "name" JNull) in
      let connection_time := AgentInfo.getattr agent "connectionTime" JNull in
      let acc := if py_eq agent_name (self_agent_name self)
                 then (fst acc, connection_time) else acc in
      if negb (is_none connection_time) then
        if is_none (snd acc) then earliest self r (agent_name, connection_time)
        else match py_lt connection_time (snd acc) with
             | Some true => earliest self r (agent_name, connection_time)
             | Some false => earliest self r acc
             | None => None
             end
      else earliest self r acc
  end.

Definition is_str (v : json) : bool := match v with JStr _ => true | _ => false end.

(** [is_host_agent()]: the names are joined for the log line, which raises
    [TypeError] when one of them is not a [str]. *)
Definition is_host_agent (self : t) (w : World) : outcome bool * World :=
  if negb (is_ready self) then (Ret false, w)
  else
    match get_active_agents self w with
    | (None, w) => (Ret true, w)
    | (Some [], w) => (Ret true, w)
    | (Some agents_info, w) =>
        match earliest self agents_info (agent_name self, JNull) with
        | None => (Raise "TypeError", w)
        | Some (earliest_agent, _) =>
            let is_host := py_eq earliest_agent (agent_name self) in
            let agent_names := map (fun a => py_or (AgentInfo.getattr a "agentName" JNull)
                                                   (AgentInfo.getattr a "name" (JStr "Unknown")))
                                   agents_info in
            if forallb is_str agent_names then (Ret is_host, w) else (Raise "TypeError", w)
        end
    end.

(** [re.escape] (Python 3.7 and later): a backslash before each of the
    special characters, which are all ASCII. *)
Definition re_special (c : ascii) : bool :=
  existsb (Ascii.eqb c)
    (bytes_of_str "()[]{}?*+-|^$\.&~# " ++ map byte_of_Z [9; 10; 13; 11; 12]).

Definition re_escape (pattern : string) : string :=
  str_of_bytes (flat_map (fun c => if re_special c then ["\"%char; c] else [c])
                         (bytes_of_str pattern)).

(** [send_message(msg, destination, as_filter_regex)]: the message is
    encrypted when the connection holds a channel secret; [re.escape] of a
    destination that is not a [str] raises [TypeError] before the [try]. *)
Definition send_message (self : t) (w : World) (msg : string) (destination : json)
    (as_filter_regex : bool) : outcome bool * World :=
  if negb (is_ready self) then (Ret false, w)
  else
    let dest := if as_filter_regex then Ret destination
                else match destination with
                     | JStr d => Ret (JStr (re_escape d))
                     | _ => Raise "TypeError"
                     end in
    match dest with
    | Raise e => (Raise e, w)
    | Ret dest =>
        let encrypted := match channel_secret self with
                         | Some s => negb (String.eqb s EmptyString)
                         | None => false
                         end in
        let (result, w) := MessagingChannelApi.send (_channel_api self) w msg dest
                                                    (_session_id self) encrypted None false in
        (Ret result, w)
    end.

(** [connect_with_channel_id(channel_id, agent_name, maybe_channel_name)]. *)
Definition connect_with_channel_id (self : t) (w : World)
    (channel_id agent_name maybe_channel_name : json) : outcome bool * t * World :=
  _connect_internal self w channel_id maybe_channel_name JNull agent_name (JStr "private").

End AgentConnection.

(* ================================================================== *)
(** * Scenarios and vocabulary of the statements *)

(** Texts are written with apostrophes for the double quotes. *)
Definition q (s : string) : string :=
  str_of_bytes (map (fun c => if Ascii.eqb c "'" then dquote else c) (bytes_of_str s)).

Definition unhex_test (l : list Z) : bytes := map byte_of_Z l.

(** A world with a fixed clock and fixed random supplies, whose RSA is the
    identity, talking to the given server. *)
Definition mock_world (server : list Request -> Request -> HttpResult) : World :=
  mkWorld 1700000000123 0 (fun _ => [byte_of_Z 7; byte_of_Z 9]) (fun _ => "req-1"%string)
          (fun n => Some (PrivKey (N.of_nat n), "PEM"%string))
          (fun _ pt _ => Some pt) (fun _ ct => Some ct)
          [] server [] [].

Definition ok_server : list Request -> Request -> HttpResult :=
  fun _ _ => Reply (q "{'status': 'success'}").

Definition silent_server : list Request -> Request -> HttpResult :=
  fun _ _ => Failed.

(** A connection in the READY state for the agent [name], session [S1]. *)
Definition ready_conn (name : string) : AgentConnection.t :=
  AgentConnection.set__ready_state true
    (AgentConnection.set__session_id (JStr "S1")
       (AgentConnection.set_agent_name (JStr name) (AgentConnection.init "http://host"))).

(** The same holding a channel secret, on the connection and on its API. *)
Definition secret_conn : AgentConnection.t :=
  AgentConnection.api_set_secret "channel_abc"
    (AgentConnection.set_channel_secret (Some "channel_abc"%string) (ready_conn "a1")).

(** ... and holding a connect key pair and a pending request key. *)
Definition keyed_conn : AgentConnection.t :=
  AgentConnection.set__pending_private_key (Some (PrivKey 5))
    (AgentConnection.set__key_pair (Some (PrivKey 4, "PEM"%string)) secret_conn).

(** Two states that differ at most in the two option flags that the public
    [connect] entry points store. *)
Definition options_only (self self' : AgentConnection.t) : Prop :=
  exists relay check,
    self' = AgentConnection.set__check_last_session check
              (AgentConnection.set_enable_webrtc_relay relay self).

(** The [config] of a [connect] call, when there is one, is a dict. *)
Definition config_is_dict (channel_name : json) (kwargs : dict) : bool :=
  match channel_name with
  | JObj _ => true
  | _ => match dict_get "config" kwargs with
         | Some (JObj _) => true
         | Some _ => false
         | None => true
         end
  end.

Definition relay_config : json :=
  JObj [ ("channelName"%string, JStr "default"); ("channelPassword"%string, JStr "default");
         ("agentName"%string, JStr "a1"); ("enableWebrtcRelay"%string, JBool true) ].

(** Scenario 1 of the specification: the reply of the mock server to
    [/connect], and the call [connect("default", "default", "a1")]. *)
Definition connect_server : list Request -> Request -> HttpResult :=
  fun _ r =>
    if String.eqb (path r) "/connect"
    then Reply (q "{'status': 'success', 'data': {'sessionId': 'S1', 'date': 100, 'state': {'channelId': 'C1', 'globalOffset': 42, 'localOffset': 7, 'originalGlobalOffset': 0}}}")
    else Failed.

Definition scenario1 : outcome bool * AgentConnection.t * World :=
  AgentConnection.connect (AgentConnection.init "http://host") (mock_world connect_server)
    (JStr "default") (JStr "default") (JStr "a1") [].

(** Scenario 5: three agents listed with connection times 100, 200, 300. *)
Definition agents_server : list Request -> Request -> HttpResult :=
  fun _ r =>
    if String.eqb (path r) "/list-agents"
    then Reply (q "{'status': 'success', 'data': [{'agentName': 'a1', 'connectionTime': 100}, {'agentName': 'a2', 'connectionTime': 200}, {'agentName': 'a3', 'connectionTime': 300}]}")
    else Failed.

(** An agent whose name the log line of [is_host_agent] can print. *)
Definition named (a : AgentInfo.t) : bool :=
  AgentConnection.is_str (py_or (AgentInfo.agentName a) (JStr "Unknown")).

(** A pull whose only event is encrypted and does not verify. *)
Definition bad_content : string := q "{'cipher': 'ewAHCQDxU2XrnppdwQ==', 'hash': '00'}".

Definition bad_pull_server : list Request -> Request -> HttpResult :=
  fun _ _ => Reply (q "{'status': 'success', 'data': {'events': [{'type': 'chat-text', 'from': 'b', 'encrypted': true, 'content': '{\'cipher\': \'ewAHCQDxU2XrnppdwQ==\', \'hash\': \'00\'}'}], 'nextGlobalOffset': 1, 'nextLocalOffset': 1}}").

(** A pull without events, but with an ephemeral event and new offsets. *)
Definition empty_pull_server : list Request -> Request -> HttpResult :=
  fun _ _ => Reply (q "{'status': 'success', 'data': {'events': [], 'ephemeralEvents': [{'type': 'ping', 'content': 'x'}], 'nextGlobalOffset': 5, 'nextLocalOffset': 3}}").

(** A pull with one event and new offsets. *)
Definition one_event_server : list Request -> Request -> HttpResult :=
  fun _ _ => Reply (q "{'status': 'success', 'data': {'events': [{'type': 'chat-text', 'content': 'x'}], 'nextGlobalOffset': 5}}").

(** The offsets after a pull, as the specification states them: each one
    moves to the value of the reply, or stays when the reply has none. *)
Definition promote_offsets (resp : EventMessageResult.t) (o : ReceiveConfig.t) : ReceiveConfig.t :=
  let o := if is_none (EventMessageResult.nextGlobalOffset resp) then o
           else ReceiveConfig.set_globalOffset (EventMessageResult.nextGlobalOffset resp) o in
  if is_none (EventMessageResult.nextLocalOffset resp) then o
  else ReceiveConfig.set_localOffset (EventMessageResult.nextLocalOffset resp) o.

(** A requester [b1] of channel [chan] with a pending request [req-1], and a
    reply addressed to it that answers another request. *)
Definition reply_conn : AgentConnection.t :=
  AgentConnection.set__pending_request_id (Some "req-1"%string)
    (AgentConnection.set__pending_private_key (Some (PrivKey 1))
       (AgentConnection.set__channel_name (JStr "chan") (ready_conn "b1"))).

Definition stray_text : string := q "{'requestId': 'other', 'cipher': 'cHc='}".

Definition stray_reply : json :=
  JObj [ ("type"%string, JStr "password-reply"); ("to"%string, JStr "b1");
         ("date"%string, JInt 200); ("encrypted"%string, JBool false);
         ("content"%string, JStr stray_text) ].

(** Two keys that differ by a trailing NUL character. *)
Definition key_abc : string := "abc".
Definition key_abc_nul : string :=
  String "a" (String "b" (String "c" (String zero_byte EmptyString))).

Definition sample_rnd : bytes := [byte_of_Z 7; byte_of_Z 9].

(** The key that [AesCtr.encrypt] and [AesCtr.decrypt] derive for 128 bits. *)
Abbreviation key128 password :=
  (AES.encrypt_block (AesCtr.pw_bytes password 16) (AesCtr.pw_bytes password 16)).

(** The sixty-four values of a Base64 character, the sixteen of a hex digit. *)
Definition sextets : list Z := map Z.of_nat (seq 0 64).
Definition nibbles : list Z := map Z.of_nat (seq 0 16).

Definition opt_eqb (o : option Z) (n : Z) : bool :=
  match o with Some m => m =? n | None => false end.

(** Characters that a JSON string holds as they are. *)
Definition plain_char (c : ascii) : bool :=
  (32 <=? Z_of_byte c) && (Z_of_byte c <? 127)
  && negb (Ascii.eqb c dquote) && negb (Ascii.eqb c "\").

(** Printable and not a space: neither escaped by [json.dumps] nor removed
    by [strip]. *)
Definition graphic (c : ascii) : bool :=
  plain_char c && negb (Z_of_byte c =? 32).

Definition not_pad (c : ascii) : bool := negb (Ascii.eqb c "=").

(** A string literal of a JSON text, followed by [rest]. *)
Definition lit (s rest : string) : string := String dquote (s ++ String dquote rest).

(** The text that [encrypt_and_sign] produces for a cipher [c] and a hash
    [h]. *)
Definition cipher_hash_text (c h : string) : string :=
  String "{" (lit "cipher" (String ":" (String " " (lit c (String "," (String " "
    (lit "hash" (String ":" (String " " (lit h (String "}" EmptyString))))))))))).

(** Base64 with the URL-safe alphabet and no padding, as the specification
    words the encoding of the channel secret. *)
Fixpoint b64url_nopad (l : bytes) : list ascii :=
  match l with
  | [] => []
  | [a] =>
      let x := Z_of_byte a in
      [Base64.char_url (x / 4); Base64.char_url ((x mod 4) * 16)]
  | [a; b] =>
      let x := Z_of_byte a in let y := Z_of_byte b in
      [Base64.char_url (x / 4); Base64.char_url ((x mod 4) * 16 + y / 16);
       Base64.char_url ((y mod 16) * 4)]
  | a :: b :: c :: r =>
      let x := Z_of_byte a in let y := Z_of_byte b in let z := Z_of_byte c in
      Base64.char_url (x / 4) :: Base64.char_url ((x mod 4) * 16 + y / 16)
        :: Base64.char_url ((y mod 16) * 4 + z / 64) :: Base64.char_url (z mod 64)
        :: b64url_nopad r
  end.

(** [deriveChannelSecret] as the specification states it: PBKDF2-HMAC-SHA256
    over [channelName || password] with the salt [messaging-platform],
    100,000 iterations and 32 octets of output, encoded base64url without
    padding and prefixed with [channel_]. *)
Definition spec_deriveChannelSecret (channelName password : string) : string :=
  let key := PBKDF2.derive (utf8_encode channelName ++ utf8_encode password)
                           (utf8_encode "messaging-platform") 100000 32 in
  String.append "channel_" (str_of_bytes (b64url_nopad key)).

(** Vocabulary of the further properties. *)


Definition is_hex_char (c : ascii) : bool :=
  existsb (Ascii.eqb c) (bytes_of_str "0123456789abcdef").

Definition is_url_char (c : ascii) : bool :=
  existsb (Ascii.eqb c)
    (bytes_of_str "ABCDEFGHIJKLMNOPQRSTUVWXYZabcdefghijklmnopqrstuvwxyz0123456789-_").

(** Two worlds that differ at most in their clocks. *)
Definition only_clock (w w' : World) : Prop :=
  w' = w \/ exists t, w' = W.set_now t w.

(** What a pull leaves alone in a connection: the session, the readiness,
    the identity of the agent and its keys. *)
Definition same_session (self self' : AgentConnection.t) : Prop :=
  AgentConnection._session_id self' = AgentConnection._session_id self
  /\ AgentConnection._ready_state self' = AgentConnection._ready_state self
  /\ AgentConnection.agent_name self' = AgentConnection.agent_name self
  /\ AgentConnection.connection_time self' = AgentConnection.connection_time self
  /\ AgentConnection._key_pair self' = AgentConnection._key_pair self
  /\ AgentConnection._pending_private_key self' = AgentConnection._pending_private_key self
  /\ AgentConnection._pending_request_id self' = AgentConnection._pending_request_id self.

Definition refusing_server : list Request -> Request -> HttpResult :=
  fun _ _ => Reply (q "{'status': 'error'}").

(** A field of the JSON body of a request. *)
Definition body_field (r : Request) (k : string) : json :=
  match body r with JObj d => get d k | _ => JNull end.

(** The [password-reply] push that carries the cipher text [c] to [dest]. *)
Definition password_reply_push (self : AgentConnection.t) (dest : json) (c : string) : Request :=
  mkRequest "/push" (JObj [ ("type"%string, JStr "password-reply");
                            ("to"%string, dest);
                            ("encrypted"%string, JBool false);
                            ("content"%string, JStr c);
                            ("sessionId"%string, AgentConnection._session_id self) ]) 30.

(** What the password request handler, if there is one, says of the event. *)
Definition handler_allows (self : AgentConnection.t) (ev : json) : bool :=
  match AgentConnection.password_request_handler self with
  | Some handler =>
      match handler (match MessagingChannelApi.channel_state (AgentConnection._channel_api self) with
                     | Some md => ChannelState.channelId md
                     | None => JNull
                     end)
                    (AgentConnection.field ev "from")
                    (match AgentConnection.field ev "content" with
                     | JStr text => match Json.loads text with
                                    | Some (JObj o) => get o "publicKeyPem"
                                    | _ => JNull
                                    end
                     | _ => JNull
                     end) with
      | Some r => truthy r
      | None => true
      end
  | None => true
  end.

(** The text of one lone surrogate, U+D800, as the JSON text ["\ud800"]
    denotes it. *)
Definition lone_surrogate : string :=
  str_of_bytes [byte_of_Z 237; byte_of_Z 160; byte_of_Z 128].

(* ================================================================== *)
(** * Reference vectors for the library models *)

Example sha256_abc :
  hexlify (SHA256.digest (bytes_of_str "abc"))
  = "ba7816bf8f01cfea414140de5dae2223b00361a396177a9cb410ff61f20015ad"%string.
Proof. vm_compute. reflexivity. Qed.

Example sha256_constants :
  length SHA256.K = 64%nat
  /\ nth 0 SHA256.K 0 = 0x428a2f98 /\ nth 63 SHA256.K 0 = 0xc67178f2
  /\ SHA256.ha SHA256.H0 = 0x6a09e667 /\ SHA256.hh SHA256.H0 = 0x5be0cd19.
Proof. vm_compute. repeat split. Qed.

Example hmac_sha256_abc_hi :
  hexlify (HMAC.digest (bytes_of_str "abc") (bytes_of_str "hi"))
  = "330d91db907ac17a57142096e5458df0db9b4aec54916ed18160aa7859536daa"%string.
Proof. vm_compute. reflexivity. Qed.

Example pbkdf2_password_salt_2 :
  hexlify (PBKDF2.derive (bytes_of_str "password") (bytes_of_str "salt") 2 32)
  = "ae4d0c95af6b46d32d0adff928f06dd02a303f8ef3c251dfd6e2d85a95474c43"%string.
Proof. vm_compute. reflexivity. Qed.

Example pbkdf2_password_salt_1_40 :
  hexlify (PBKDF2.derive (bytes_of_str "password") (bytes_of_str "salt") 1 40)
  = "120fb6cffcf8b32c43e7225256c4f837a86548c92ccc35480805987cb70be17b4dbf3a2f3dad3377"%string.
Proof. vm_compute. reflexivity. Qed.

Example aes128_fips197_appendix_b :
  hexlify (AES.encrypt_block
             (unhex_test [0x2b;0x7e;0x15;0x16;0x28;0xae;0xd2;0xa6;0xab;0xf7;0x15;0x88;0x09;0xcf;0x4f;0x3c])
             (unhex_test [0x32;0x43;0xf6;0xa8;0x88;0x5a;0x30;0x8d;0x31;0x31;0x98;0xa2;0xe0;0x37;0x07;0x34]))
  = "3925841d02dc09fbdc118597196a0b32"%string.
Proof. vm_compute. reflexivity. Qed.

Example aes128_fips197_c1 :
  hexlify (AES.encrypt_block (map byte_of_Z (map Z.of_nat (seq 0 16)))
             (unhex_test [0x00;0x11;0x22;0x33;0x44;0x55;0x66;0x77;0x88;0x99;0xaa;0xbb;0xcc;0xdd;0xee;0xff]))
  = "69c4e0d86a7b0430d8cdb78070b4c55a"%string.
Proof. vm_compute. reflexivity. Qed.

Example aes192_fips197_c2 :
  hexlify (AES.encrypt_block (map byte_of_Z (map Z.of_nat (seq 0 24)))
             (unhex_test [0x00;0x11;0x22;0x33;0x44;0x55;0x66;0x77;0x88;0x99;0xaa;0xbb;0xcc;0xdd;0xee;0xff]))
  = "dda97ca4864cdfe06eaf70a0ec0d7191"%string.
Proof. vm_compute. reflexivity. Qed.

Example aes256_fips197_c3 :
  hexlify (AES.encrypt_block (map byte_of_Z (map Z.of_nat (seq 0 32)))
             (unhex_test [0x00;0x11;0x22;0x33;0x44;0x55;0x66;0x77;0x88;0x99;0xaa;0xbb;0xcc;0xdd;0xee;0xff]))
  = "8ea2b7ca516745bfeafc49904b496089"%string.
Proof. vm_compute. reflexivity. Qed.

Example b64_sample :
  str_of_bytes (Base64.b64encode (bytes_of_str "hi man=")) = "aGkgbWFuPQ=="%string
  /\ Base64.b64decode "aGkgbWFuPQ==" = Some (bytes_of_str "hi man=")
  /\ Base64.b64decode "aGk" = None
  /\ Base64.b64decode "a G-k=" = Some (bytes_of_str "hi").
Proof. vm_compute. repeat split; reflexivity. Qed.

Example strip_sample : strip "  ab c  "%string = "ab c"%string.
Proof. vm_compute. reflexivity. Qed.

Example loads_sample :
  Json.loads (q "{'status': 'success', 'data': {'n': [1, -20, 1.5e3, true, null], 's': 'a\nbé'}}")
  = Some (JObj [("status", JStr "success");
                ("data", JObj [("n", JArr [JInt 1; JInt (-20); JFloat (Fdec 15 2); JBool true; JNull]);
                               ("s", JStr (str_of_bytes (map byte_of_Z [97; 10; 98; 0xC3; 0xA9])))])])%string.
Proof. vm_compute. reflexivity. Qed.

Example loads_rejects :
  map Json.loads [q "{'a': 1,}"; "[1 2]"; "01"; "tru"; q "'abc"; "{} x"; EmptyString; "[1.]"; "-"]%string
  = [None; None; None; None; None; None; None; None; None].
Proof. vm_compute. reflexivity. Qed.

Example dumps_sample :
  Json.dumps (JObj [("cipher", JStr "aGk="); ("hash", JNull); ("n", JInt (-12))])%string
  = q "{'cipher': 'aGk=', 'hash': null, 'n': -12}"%string.
Proof. vm_compute. reflexivity. Qed.

(** The program's own sample ([aes_ctr.py], [__main__]) decrypts to what it
    encrypted. *)
Example aes_ctr_main_sample :
  match AesCtr.encrypt 1700000000123 sample_rnd "hi man=" "a" 128 with
  | Some salted => AesCtr.decrypt salted "a" 128
  | None => None
  end = Some "hi man="%string.
Proof. vm_compute. reflexivity. Qed.

(* ================================================================== *)
(** * Octets, Base64, UTF-8 *)

Lemma Z_of_byte_range b : 0 <= Z_of_byte b < 256.
Proof. unfold Z_of_byte. pose proof (N_ascii_bounded b). lia. Qed.

Lemma byte_of_Z_of_byte b : byte_of_Z (Z_of_byte b) = b.
Proof.
  unfold byte_of_Z. rewrite Z.mod_small by apply Z_of_byte_range.
  unfold Z_of_byte. rewrite N2Z.id. apply ascii_N_embedding.
Qed.

Lemma xor_byte_involutive a b : xor_byte (xor_byte a b) b = a.
Proof.
  destruct a, b. unfold xor_byte.
  f_equal; rewrite xorb_assoc, xorb_nilpotent, xorb_false_r; reflexivity.
Qed.

Lemma xor_bytes_length xs ys : length (xor_bytes xs ys) = Nat.min (length xs) (length ys).
Proof. revert ys. induction xs as [ | x xs IH ]; intros [ | y ys ]; simpl; auto. Qed.

Lemma xor_bytes_involutive d ks :
  (length d <= length ks)%nat -> xor_bytes (xor_bytes d ks) ks = d.
Proof.
  revert ks. induction d as [ | x d IH ]; intros [ | k ks ] H; simpl in *; try reflexivity; try lia.
  rewrite xor_byte_involutive, IH by lia. reflexivity.
Qed.

Lemma be_bytes_length k z : length (be_bytes k z) = k.
Proof. induction k; simpl; auto. Qed.

Lemma str_bytes_inv s : str_of_bytes (bytes_of_str s) = s.
Proof. apply string_of_list_ascii_of_string. Qed.

Lemma bytes_str_inv b : bytes_of_str (str_of_bytes b) = b.
Proof. apply list_ascii_of_string_of_list_ascii. Qed.

Lemma bytes_of_str_app (a b : string) :
  bytes_of_str (a ++ b)%string = bytes_of_str a ++ bytes_of_str b.
Proof.
  unfold bytes_of_str. induction a as [ | c a IH ]; cbn [append list_ascii_of_string app];
    [ reflexivity | rewrite IH; reflexivity ].
Qed.

Lemma append_assoc (a b c : string) : ((a ++ b) ++ c = a ++ (b ++ c))%string.
Proof. induction a as [ | x a IH ]; simpl; [ reflexivity | ]. rewrite IH. reflexivity. Qed.

Lemma rev_repeat {A} (x : A) k : rev (repeat x k) = repeat x k.
Proof.
  induction k as [ | k IH ]; [ reflexivity | ]. cbn [repeat rev]. rewrite IH.
  clear IH. induction k as [ | k IH ]; [ reflexivity | ]. cbn [repeat app]. rewrite IH. reflexivity.
Qed.

Lemma nth_firstn_lt {A} (l : list A) n i d : (i < n)%nat -> nth i (firstn n l) d = nth i l d.
Proof.
  revert l i. induction n as [ | n IH ]; intros l i H; [ lia | ].
  destruct l as [ | x l ]; [ reflexivity | ]. destruct i as [ | i ]; [ reflexivity | ].
  simpl. apply IH. lia.
Qed.

(** Induction over a list three elements at a time, as Base64 reads it. *)
Lemma list_ind3 {A} (P : list A -> Prop) :
  P [] -> (forall a, P [a]) -> (forall a b, P [a; b]) ->
  (forall a b c r, P r -> P (a :: b :: c :: r)) -> forall l, P l.
Proof.
  intros H0 H1 H2 H3.
  fix IH 1. intros [ | a [ | b [ | c r ] ] ];
    [ exact H0 | apply H1 | apply H2 | apply H3; apply IH ].
Qed.

Ltac sextet_bounds :=
  repeat match goal with
         | |- context [Z_of_byte ?b] =>
             lazymatch goal with
             | _ : 0 <= Z_of_byte b < 256 |- _ => fail
             | _ => pose proof (Z_of_byte_range b)
             end
         end.

Ltac div_lia := Z.div_mod_to_equations; lia.

Lemma sextet_check (P : Z -> bool) :
  forallb P sextets = true -> forall n, 0 <= n < 64 -> P n = true.
Proof.
  intros H n Hn. rewrite forallb_forall in H. apply H.
  unfold sextets. apply in_map_iff. exists (Z.to_nat n). split; [ lia | ]. apply in_seq. lia.
Qed.

Lemma nibble_check (P : Z -> bool) :
  forallb P nibbles = true -> forall n, 0 <= n < 16 -> P n = true.
Proof.
  intros H n Hn. rewrite forallb_forall in H. apply H.
  unfold nibbles. apply in_map_iff. exists (Z.to_nat n). split; [ lia | ]. apply in_seq. lia.
Qed.

Lemma index_char_std n : 0 <= n < 64 -> Base64.index (Base64.char_std n) = Some n.
Proof.
  intros H.
  pose proof (sextet_check (fun n => opt_eqb (Base64.index (Base64.char_std n)) n) eq_refl n H) as E.
  cbv beta in E. destruct (Base64.index (Base64.char_std n)); simpl in E; [ | discriminate ].
  apply Z.eqb_eq in E. congruence.
Qed.

Lemma char_std_not_pad n : 0 <= n < 64 -> Ascii.eqb (Base64.char_std n) "=" = false.
Proof.
  intros H.
  pose proof (sextet_check (fun n => negb (Ascii.eqb (Base64.char_std n) "=")) eq_refl n H) as E.
  cbv beta in E. apply negb_true_iff in E. exact E.
Qed.

Lemma char_std_ascii n : 0 <= n < 64 -> Base64.is_ascii (Base64.char_std n) = true.
Proof. intros H. exact (sextet_check (fun n => Base64.is_ascii (Base64.char_std n)) eq_refl n H). Qed.

Lemma char_std_plain n : 0 <= n < 64 -> plain_char (Base64.char_std n) = true.
Proof. intros H. exact (sextet_check (fun n => plain_char (Base64.char_std n)) eq_refl n H). Qed.

Lemma not_pad_url n : 0 <= n < 64 -> not_pad (Base64.char_url n) = true.
Proof. intros H. exact (sextet_check (fun n => not_pad (Base64.char_url n)) eq_refl n H). Qed.

Lemma a2b_step c (Hc : Ascii.eqb c "=" = false) v (Hv : Base64.index c = Some v) qp left pads s :
  Base64.a2b qp left pads (c :: s) =
  match qp with
  | 0%nat => Base64.a2b 1 v 0 s
  | 1%nat => option_map (cons (byte_of_Z (left * 4 + v / 16))) (Base64.a2b 2 (v mod 16) 0 s)
  | 2%nat => option_map (cons (byte_of_Z (left * 16 + v / 4))) (Base64.a2b 3 (v mod 4) 0 s)
  | _ => option_map (cons (byte_of_Z (left * 64 + v))) (Base64.a2b 0 0 0 s)
  end.
Proof. simpl. rewrite Hc, Hv. reflexivity. Qed.

Ltac a2b_char n :=
  rewrite (a2b_step _ (char_std_not_pad n ltac:(div_lia)) _ (index_char_std n ltac:(div_lia))).

(** Decoding undoes encoding, whatever the length. *)
Lemma a2b_encode bs : Base64.a2b 0 0 0 (Base64.b64encode bs) = Some bs.
Proof.
  unfold Base64.b64encode.
  induction bs as [ | a | a b | a b c r IH ] using list_ind3.
  - reflexivity.
  - cbn [Base64.encode_with]. pose proof (Z_of_byte_range a).
    set (x := Z_of_byte a) in *.
    a2b_char (x / 4). a2b_char (x mod 4 * 16).
    simpl. f_equal. f_equal.
    replace (x / 4 * 4 + x mod 4 * 16 / 16) with x by div_lia.
    apply byte_of_Z_of_byte.
  - cbn [Base64.encode_with]. pose proof (Z_of_byte_range a). pose proof (Z_of_byte_range b).
    set (x := Z_of_byte a) in *. set (y := Z_of_byte b) in *.
    a2b_char (x / 4). a2b_char (x mod 4 * 16 + y / 16). a2b_char (y mod 16 * 4).
    simpl.
    replace (x / 4 * 4 + (x mod 4 * 16 + y / 16) / 16) with x by div_lia.
    replace ((x mod 4 * 16 + y / 16) mod 16 * 16 + y mod 16 * 4 / 4) with y by div_lia.
    subst x y. rewrite !byte_of_Z_of_byte. reflexivity.
  - cbn [Base64.encode_with]. pose proof (Z_of_byte_range a). pose proof (Z_of_byte_range b).
    pose proof (Z_of_byte_range c).
    set (x := Z_of_byte a) in *. set (y := Z_of_byte b) in *. set (z := Z_of_byte c) in *.
    a2b_char (x / 4). a2b_char (x mod 4 * 16 + y / 16).
    a2b_char (y mod 16 * 4 + z / 64). a2b_char (z mod 64).
    rewrite IH. cbn [option_map].
    replace (x / 4 * 4 + (x mod 4 * 16 + y / 16) / 16) with x by div_lia.
    replace ((x mod 4 * 16 + y / 16) mod 16 * 16 + (y mod 16 * 4 + z / 64) / 4) with y by div_lia.
    replace ((y mod 16 * 4 + z / 64) mod 4 * 64 + z mod 64) with z by div_lia.
    subst x y z. rewrite !byte_of_Z_of_byte. reflexivity.
Qed.

Lemma encode_std_ascii bs : forallb Base64.is_ascii (Base64.b64encode bs) = true.
Proof.
  unfold Base64.b64encode.
  induction bs as [ | a | a b | a b c r IH ] using list_ind3; [ reflexivity | | | ];
    cbn [Base64.encode_with forallb]; sextet_bounds;
    rewrite ?IH, ?andb_true_r, ?andb_true_iff; repeat split;
    try reflexivity; apply char_std_ascii; div_lia.
Qed.

Lemma encode_std_plain bs : forallb plain_char (Base64.b64encode bs) = true.
Proof.
  unfold Base64.b64encode.
  induction bs as [ | a | a b | a b c r IH ] using list_ind3; [ reflexivity | | | ];
    cbn [Base64.encode_with forallb]; sextet_bounds;
    rewrite ?IH, ?andb_true_r, ?andb_true_iff; repeat split;
    try reflexivity; apply char_std_plain; div_lia.
Qed.

Lemma b64decode_encode bs : Base64.b64decode (str_of_bytes (Base64.b64encode bs)) = Some bs.
Proof.
  unfold Base64.b64decode. rewrite bytes_str_inv, encode_std_ascii. apply a2b_encode.
Qed.

Lemma utf8_decode_encode m : wf_str m -> utf8_decode (utf8_encode m) = Some m.
Proof.
  intros H. unfold utf8_decode, utf8_encode. rewrite H. f_equal. apply str_bytes_inv.
Qed.

Lemma ascii_utf8_valid l : forallb Base64.is_ascii l = true -> utf8_valid l = true.
Proof.
  induction l as [ | a l IH ]; [ reflexivity | ].
  cbn [forallb]. intros H. apply andb_true_iff in H. destruct H as [Ha Hl].
  cbn [utf8_valid]. unfold Base64.is_ascii in Ha. rewrite Ha. apply IH. exact Hl.
Qed.

(** [str.encode]: the octets of a well-formed string, an error for any
    other. *)
Lemma str_encode_wf s : wf_str s -> str_encode s = Some (utf8_encode s).
Proof. intros H. unfold str_encode. rewrite H. reflexivity. Qed.

Lemma str_encode_some s b : str_encode s = Some b -> wf_str s /\ b = utf8_encode s.
Proof.
  unfold str_encode, wf_str. destruct (utf8_valid (bytes_of_str s)); [ | discriminate ].
  intros [= <-]. split; reflexivity.
Qed.

Lemma utf8_valid_app a b : utf8_valid a = true -> utf8_valid (a ++ b) = utf8_valid b.
Proof.
  remember (length a) as n eqn:Hn. revert a Hn.
  induction n as [n IH] using lt_wf_ind. intros a Hn.
  assert (step : forall r, (length r < n)%nat -> utf8_valid r = true ->
                           utf8_valid (r ++ b) = utf8_valid b)
    by (intros r Hr H; exact (IH (length r) Hr r eq_refl H)).
  clear IH. subst n.
  destruct a as [ | x a ]; [ reflexivity | ].
  cbn [app utf8_valid].
  destruct (Z_of_byte x <? 128); [ apply step; simpl; lia | ].
  destruct (Z_of_byte x <? 194); [ discriminate | ].
  destruct (Z_of_byte x <? 224).
  { destruct a as [ | y a ]; [ discriminate | ]. cbn [app].
    intros H. apply andb_true_iff in H. destruct H as [-> H]. cbn [andb].
    apply step; [ simpl; lia | exact H ]. }
  destruct (Z_of_byte x <? 240).
  { destruct a as [ | y [ | z a ] ]; try discriminate. cbn [app].
    intros H. apply andb_true_iff in H. destruct H as [-> H]. cbn [andb].
    apply step; [ simpl; lia | exact H ]. }
  destruct (Z_of_byte x <? 245); [ | discriminate ].
  destruct a as [ | y [ | z [ | t a ] ] ]; try discriminate. cbn [app].
  intros H. apply andb_true_iff in H. destruct H as [-> H]. cbn [andb].
  apply step; [ simpl; lia | exact H ].
Qed.

Lemma wf_str_app a b : wf_str a -> wf_str b -> wf_str (a ++ b).
Proof.
  unfold wf_str. intros Ha Hb. rewrite bytes_of_str_app, utf8_valid_app by exact Ha. exact Hb.
Qed.

Lemma utf8_decode_wf b s : utf8_decode b = Some s -> wf_str s.
Proof.
  unfold utf8_decode, wf_str. destruct (utf8_valid b) eqn:E; [ | discriminate ].
  intros [= <-]. rewrite bytes_str_inv. exact E.
Qed.

(* ================================================================== *)
(** * AES in counter mode *)

Lemma encrypt_block_length key block :
  length block = 16%nat -> length (AES.encrypt_block key block) = 16%nat.
Proof.
  intros H. unfold AES.encrypt_block.
  destruct (AES.round_keys _); [ exact H | ].
  rewrite length_map. unfold AES.last_round, AES.add_round_key.
  rewrite length_map, length_seq. reflexivity.
Qed.

Lemma keystream_length key nonce n i :
  (length nonce <= 16)%nat ->
  length (AES.keystream key nonce n i) = (16 * n)%nat.
Proof.
  intros Hn. revert i. induction n as [ | n IH ]; intros i; [ reflexivity | ].
  cbn [AES.keystream]. rewrite length_app, IH, encrypt_block_length; [ lia | ].
  rewrite length_app, be_bytes_length. lia.
Qed.

Lemma ctr_crypt_some key nonce data :
  AES.key_size_ok key = true -> (length nonce < 16)%nat ->
  AES.ctr_crypt key nonce data
  = Some (xor_bytes data (AES.keystream key nonce ((length data + 15) / 16) 0)).
Proof.
  intros Hk Hn. unfold AES.ctr_crypt. rewrite Hk.
  replace (16 <=? length nonce)%nat with false by (symmetry; apply Nat.leb_gt; exact Hn).
  reflexivity.
Qed.

(** Counter mode is its own inverse. *)
Lemma ctr_crypt_involutive key nonce data c :
  (length nonce <= 16)%nat ->
  AES.ctr_crypt key nonce data = Some c ->
  AES.ctr_crypt key nonce c = Some data.
Proof.
  intros Hn. unfold AES.ctr_crypt.
  destruct (negb (AES.key_size_ok key)); [ discriminate | ].
  destruct (16 <=? length nonce)%nat; [ discriminate | ].
  intros H. inversion H; subst; clear H.
  assert (Hk : (length data <= length (AES.keystream key nonce ((length data + 15) / 16) 0))%nat).
  { rewrite keystream_length by exact Hn.
    pose proof (Nat.div_mod_eq (length data + 15) 16).
    pose proof (Nat.mod_upper_bound (length data + 15) 16). lia. }
  rewrite xor_bytes_length, Nat.min_l by exact Hk.
  rewrite xor_bytes_involutive by exact Hk. reflexivity.
Qed.

Lemma pw_bytes_length p n : length (AesCtr.pw_bytes p n) = n.
Proof. unfold AesCtr.pw_bytes, AesCtr.zero_padded. rewrite length_map, length_seq. reflexivity. Qed.

(** The padded password is a function of the first octets of the
    passphrase. *)
Lemma pw_bytes_prefix p1 p2 n :
  firstn n (utf8_encode p1) = firstn n (utf8_encode p2) ->
  AesCtr.pw_bytes p1 n = AesCtr.pw_bytes p2 n.
Proof.
  intros H. unfold AesCtr.pw_bytes, AesCtr.zero_padded. apply map_ext_in. intros i Hi. apply in_seq in Hi.
  rewrite <- (nth_firstn_lt (utf8_encode p1) n) by lia.
  rewrite <- (nth_firstn_lt (utf8_encode p2) n) by lia.
  rewrite H. reflexivity.
Qed.

Lemma chunks_one f l : l <> [] -> chunks (S f) (length l) l = [l].
Proof.
  intros Hl. cbn [chunks]. destruct l as [ | x l ]; [ congruence | ].
  rewrite firstn_all, skipn_all. destruct f; reflexivity.
Qed.

Lemma ecb_one_block key :
  length key = 16%nat ->
  AES.ecb_encrypt key key = Some (AES.encrypt_block key key).
Proof.
  intros H. unfold AES.ecb_encrypt, AES.key_size_ok. rewrite H. cbn [Nat.eqb orb negb Nat.modulo].
  change (16 mod 16 =? 0)%nat with true. cbn [negb].
  pose proof (chunks_one 15 key) as Hc. rewrite H in Hc.
  rewrite Hc by (destruct key; simpl in *; congruence).
  cbn [flat_map]. rewrite app_nil_r. reflexivity.
Qed.

Lemma key128_length p : length (key128 p) = 16%nat.
Proof. apply encrypt_block_length. apply pw_bytes_length. Qed.

Lemma firstn_16_key p : firstn 16 (key128 p) = key128 p.
Proof. pose proof (firstn_all (key128 p)) as H. rewrite key128_length in H. exact H. Qed.

Lemma key_size_ok_128 p : AES.key_size_ok (key128 p) = true.
Proof. unfold AES.key_size_ok. rewrite key128_length. reflexivity. Qed.

Lemma iv_length now r : length (firstn 8 (AesCtr.make_iv now r)) = 8%nat.
Proof. reflexivity. Qed.

Lemma iv_skip now r : skipn 8 (firstn 8 (AesCtr.make_iv now r)) = [].
Proof. reflexivity. Qed.

(** [AesCtr.encrypt] and [AesCtr.decrypt] at 128 bits, with the key schedule
    carried out. *)
Lemma encrypt_128 now rnd m p :
  wf_str m -> wf_str p ->
  AesCtr.encrypt now rnd m p 128 =
  match AES.ctr_crypt (key128 p) (firstn 8 (AesCtr.make_iv now (AesCtr.int_from_bytes_little rnd)))
                      (utf8_encode m) with
  | Some cipher_bytes =>
      utf8_decode (Base64.b64encode
                     (firstn 8 (AesCtr.make_iv now (AesCtr.int_from_bytes_little rnd)) ++ cipher_bytes))
  | None => None
  end.
Proof.
  intros Hm Hp.
  unfold AesCtr.encrypt. change (AesCtr.n_bits_ok 128) with true. cbn [negb].
  change (Z.to_nat (128 / 8)) with 16%nat.
  rewrite (str_encode_wf p Hp), (str_encode_wf m Hm).
  change (AesCtr.zero_padded (utf8_encode p) 16) with (AesCtr.pw_bytes p 16).
  rewrite ecb_one_block by apply pw_bytes_length.
  unfold slice_assign. change (Nat.min 16 16) with 16%nat. change (16 <? 16)%nat with false.
  rewrite firstn_16_key.
  change (firstn 0 (repeat zero_byte 16)) with (@nil ascii).
  change (skipn 16 (repeat zero_byte 16)) with (@nil ascii).
  rewrite app_nil_l, app_nil_r. reflexivity.
Qed.

Lemma decrypt_128 c p :
  wf_str p ->
  AesCtr.decrypt c p 128 =
  match Base64.b64decode c with
  | Some data =>
      match AES.ctr_crypt (key128 p) (firstn 8 data) (skipn 8 data) with
      | Some plaintext => utf8_decode plaintext
      | None => None
      end
  | None => None
  end.
Proof.
  intros Hp.
  unfold AesCtr.decrypt. change (AesCtr.n_bits_ok 128) with true. cbn [negb].
  change (Z.to_nat (128 / 8)) with 16%nat.
  destruct (Base64.b64decode c); [ | reflexivity ].
  rewrite (str_encode_wf p Hp).
  change (AesCtr.zero_padded (utf8_encode p) 16) with (AesCtr.pw_bytes p 16).
  rewrite ecb_one_block by apply pw_bytes_length.
  unfold slice_assign. rewrite key128_length. change (16 <? 16)%nat with false.
  change (firstn 0 (repeat zero_byte 16)) with (@nil ascii).
  change (skipn 16 (repeat zero_byte 16)) with (@nil ascii).
  rewrite app_nil_l, app_nil_r. reflexivity.
Qed.

Lemma encrypt_prefix now rnd m k1 k2 :
  wf_str m -> wf_str k1 -> wf_str k2 ->
  firstn 16 (utf8_encode k1) = firstn 16 (utf8_encode k2) ->
  AesCtr.encrypt now rnd m k1 128 = AesCtr.encrypt now rnd m k2 128.
Proof.
  intros Hm H1 H2 H.
  rewrite (encrypt_128 now rnd m k1 Hm H1), (encrypt_128 now rnd m k2 Hm H2),
    (pw_bytes_prefix k1 k2 16 H).
  reflexivity.
Qed.

(** Neither works with a text that cannot be encoded. *)
Lemma encrypt_wf now rnd m p n_bits c :
  AesCtr.encrypt now rnd m p n_bits = Some c -> wf_str m /\ wf_str p.
Proof.
  unfold AesCtr.encrypt.
  destruct (negb (AesCtr.n_bits_ok n_bits)); [ discriminate | ].
  destruct (str_encode p) as [ pw_input | ] eqn:Ep; [ | discriminate ].
  destruct (AES.ecb_encrypt _ _); [ | discriminate ].
  destruct (str_encode m) as [ data | ] eqn:Em; [ | discriminate ].
  intros _. split; [ exact (proj1 (str_encode_some _ _ Em)) | exact (proj1 (str_encode_some _ _ Ep)) ].
Qed.

Lemma decrypt_wf c p n_bits m :
  AesCtr.decrypt c p n_bits = Some m -> wf_str m /\ wf_str p.
Proof.
  unfold AesCtr.decrypt.
  destruct (negb (AesCtr.n_bits_ok n_bits)); [ discriminate | ].
  destruct (Base64.b64decode c); [ | discriminate ].
  destruct (str_encode p) as [ pw_input | ] eqn:Ep; [ | discriminate ].
  destruct (AES.ecb_encrypt _ _); [ | discriminate ].
  destruct (AES.ctr_crypt _ _ _); [ | discriminate ].
  intros H. split; [ exact (utf8_decode_wf _ _ H) | exact (proj1 (str_encode_some _ _ Ep)) ].
Qed.

(** What is encrypted under one passphrase decrypts under any passphrase
    with the same first sixteen octets; the cipher text is the Base64 of the
    nonce followed by the encrypted octets. *)
Lemma aes_ctr_roundtrip now rnd m k1 k2 :
  wf_str m -> wf_str k1 -> wf_str k2 ->
  firstn 16 (utf8_encode k1) = firstn 16 (utf8_encode k2) ->
  exists ct,
    AesCtr.encrypt now rnd m k1 128
    = Some (str_of_bytes (Base64.b64encode
              (firstn 8 (AesCtr.make_iv now (AesCtr.int_from_bytes_little rnd)) ++ ct)))
    /\ AesCtr.decrypt (str_of_bytes (Base64.b64encode
              (firstn 8 (AesCtr.make_iv now (AesCtr.int_from_bytes_little rnd)) ++ ct))) k2 128
       = Some m.
Proof.
  intros Hm H1 H2 Hk.
  pose proof (pw_bytes_prefix k1 k2 16 Hk) as Hpw.
  pose proof (iv_length now (AesCtr.int_from_bytes_little rnd)) as Hiv.
  assert (Hlt : (length (firstn 8 (AesCtr.make_iv now (AesCtr.int_from_bytes_little rnd))) < 16)%nat)
    by (rewrite Hiv; lia).
  pose proof (ctr_crypt_some _ _ (utf8_encode m) (key_size_ok_128 k1) Hlt) as E.
  rewrite (encrypt_128 now rnd m k1 Hm H1), E.
  unfold utf8_decode at 1. rewrite ascii_utf8_valid by apply encode_std_ascii.
  eexists. split; [ reflexivity | ].
  rewrite (decrypt_128 _ k2 H2), b64decode_encode.
  rewrite firstn_app, Hiv, Nat.sub_diag, firstn_O, app_nil_r, firstn_firstn.
  change (Nat.min 8 8) with 8%nat.
  rewrite skipn_app, Hiv, Nat.sub_diag, skipn_O.
  rewrite iv_skip, app_nil_l.
  rewrite <- Hpw.
  rewrite (ctr_crypt_involutive _ _ _ _ ltac:(rewrite Hiv; lia) E).
  apply utf8_decode_encode. exact Hm.
Qed.

Lemma channel_prefix e :
  firstn 16 (utf8_encode ("channel_" ++ e))
  = bytes_of_str "channel_" ++ firstn 8 (utf8_encode e).
Proof. reflexivity. Qed.

(* ================================================================== *)
(** * JSON texts without escapes *)

Lemma plain_char_facts c :
  plain_char c = true ->
  32 <= Z_of_byte c < 127 /\ Ascii.eqb c dquote = false /\ Ascii.eqb c "\" = false.
Proof.
  unfold plain_char. rewrite !andb_true_iff, !negb_true_iff. intros [[[H1 H2] H3] H4].
  apply Z.leb_le in H1. apply Z.ltb_lt in H2. auto.
Qed.

Ltac byte_tests c :=
  repeat match goal with
         | |- context [Z_of_byte c =? ?n] =>
             replace (Z_of_byte c =? n) with false by (symmetry; apply Z.eqb_neq; lia)
         | |- context [Z_of_byte c <? 32] =>
             replace (Z_of_byte c <? 32) with false by (symmetry; apply Z.ltb_ge; lia)
         | |- context [Z_of_byte c <? 128] =>
             replace (Z_of_byte c <? 128) with true by (symmetry; apply Z.ltb_lt; lia)
         end.

Lemma escape_plain l : forallb plain_char l = true -> Json.escape l = l.
Proof.
  induction l as [ | c l IH ]; [ reflexivity | ].
  cbn [forallb]. rewrite andb_true_iff. intros [Hc Hl].
  apply plain_char_facts in Hc. destruct Hc as (Hr & Hq & Hb).
  cbn [Json.escape]. byte_tests c.
  rewrite IH by exact Hl. unfold Json.esc_ascii. rewrite Hq, Hb.
  byte_tests c. reflexivity.
Qed.

Lemma lex_plain l : forall acc rest,
  forallb plain_char l = true ->
  Json.lex (Json.MStr acc) (str_of_bytes l ++ rest) = Json.lex (Json.MStr (rev l ++ acc)) rest.
Proof.
  induction l as [ | c l IH ]; intros acc rest; [ reflexivity | ].
  cbn [forallb]. rewrite andb_true_iff. intros [Hc Hl].
  apply plain_char_facts in Hc. destruct Hc as (Hr & Hq & Hb).
  change (str_of_bytes (c :: l) ++ rest)%string with (String c (str_of_bytes l ++ rest)).
  cbn [Json.lex Json.step]. unfold Json.str_step. rewrite Hq, Hb.
  byte_tests c.
  cbn [option_map app]. rewrite IH by exact Hl.
  cbn [rev]. rewrite <- app_assoc. cbn [app].
  destruct (Json.lex _ rest); reflexivity.
Qed.

Lemma lex_lit s rest :
  forallb plain_char (bytes_of_str s) = true ->
  Json.lex Json.MTop (lit s rest)
  = option_map (cons (Json.TStr s)) (Json.lex Json.MTop rest).
Proof.
  intros H. unfold lit.
  change (Json.lex Json.MTop (String dquote (s ++ String dquote rest)))
    with (option_map (app []) (Json.lex (Json.MStr []) (s ++ String dquote rest))).
  rewrite <- (str_bytes_inv s) at 1. rewrite lex_plain by exact H.
  rewrite app_nil_r.
  change (Json.lex (Json.MStr (rev (bytes_of_str s))) (String dquote rest))
    with (option_map (app [Json.TStr (str_of_bytes (rev (rev (bytes_of_str s))))])
                     (Json.lex Json.MTop rest)).
  rewrite rev_involutive, str_bytes_inv.
  destruct (Json.lex Json.MTop rest); reflexivity.
Qed.

Lemma quote_app s rest :
  forallb plain_char (bytes_of_str s) = true ->
  (Json.quote s ++ rest)%string = lit s rest.
Proof.
  intros H. unfold Json.quote, lit. rewrite escape_plain by exact H. rewrite str_bytes_inv.
  cbn [append]. rewrite append_assoc. reflexivity.
Qed.

Lemma dumps_cipher_hash c h :
  forallb plain_char (bytes_of_str c) = true ->
  forallb plain_char (bytes_of_str h) = true ->
  Json.dumps (JObj [("cipher"%string, JStr c); ("hash"%string, JStr h)]) = cipher_hash_text c h.
Proof.
  intros Hc Hh. cbn [Json.dumps map fst snd Json.join].
  rewrite !append_assoc.
  rewrite (quote_app h) by exact Hh.
  rewrite (quote_app "hash") by reflexivity.
  rewrite (quote_app c) by exact Hc.
  rewrite (quote_app "cipher") by reflexivity.
  reflexivity.
Qed.

Lemma loads_cipher_hash c h :
  forallb plain_char (bytes_of_str c) = true ->
  forallb plain_char (bytes_of_str h) = true ->
  Json.loads (cipher_hash_text c h)
  = Some (JObj [("cipher"%string, JStr c); ("hash"%string, JStr h)]).
Proof.
  intros Hc Hh. unfold Json.loads, cipher_hash_text.
  assert (Hlex : Json.lex Json.MTop
            (String "{" (lit "cipher" (String ":" (String " " (lit c (String "," (String " "
               (lit "hash" (String ":" (String " " (lit h (String "}" EmptyString)))))))))))) =
          Some [Json.TLBrace; Json.TStr "cipher"; Json.TColon; Json.TStr c; Json.TComma;
                Json.TStr "hash"; Json.TColon; Json.TStr h; Json.TRBrace]).
  { change (Json.lex Json.MTop (String "{" ?r)) with (option_map (app [Json.TLBrace]) (Json.lex Json.MTop r)).
    rewrite (lex_lit "cipher") by reflexivity.
    change (Json.lex Json.MTop (String ":" (String " " ?r)))
      with (option_map (app [Json.TColon]) (option_map (app []) (Json.lex Json.MTop r))).
    rewrite (lex_lit c) by exact Hc.
    change (Json.lex Json.MTop (String "," (String " " ?r)))
      with (option_map (app [Json.TComma]) (option_map (app []) (Json.lex Json.MTop r))).
    rewrite (lex_lit "hash") by reflexivity.
    change (Json.lex Json.MTop (String ":" (String " " ?r)))
      with (option_map (app [Json.TColon]) (option_map (app []) (Json.lex Json.MTop r))).
    rewrite (lex_lit h) by exact Hh.
    reflexivity. }
  rewrite Hlex. reflexivity.
Qed.

(* ================================================================== *)
(** * Hex digests and [strip] *)

Lemma hex_digit_graphic n : 0 <= n < 16 -> graphic (hex_digit n) = true.
Proof. intros H. exact (nibble_check (fun n => graphic (hex_digit n)) eq_refl n H). Qed.

Lemma hexlify_graphic b : forallb graphic (bytes_of_str (hexlify b)) = true.
Proof.
  unfold hexlify. rewrite bytes_str_inv.
  induction b as [ | x b IH ]; [ reflexivity | ].
  cbn [flat_map hex_of_byte app forallb]. pose proof (Z_of_byte_range x).
  rewrite IH, !hex_digit_graphic by div_lia. reflexivity.
Qed.

Lemma graphic_plain l : forallb graphic l = true -> forallb plain_char l = true.
Proof.
  induction l as [ | c l IH ]; [ reflexivity | ]. cbn [forallb]. rewrite !andb_true_iff.
  intros [Hc Hl]. split; [ | auto ]. unfold graphic in Hc. apply andb_true_iff in Hc. tauto.
Qed.

Lemma graphic_facts c : graphic c = true -> 32 < Z_of_byte c < 127.
Proof.
  unfold graphic. rewrite andb_true_iff, negb_true_iff. intros [Hp Hs].
  apply plain_char_facts in Hp. apply Z.eqb_neq in Hs. lia.
Qed.

Ltac not_space c :=
  replace (9 <=? Z_of_byte c) with true by (symmetry; apply Z.leb_le; lia);
  replace (Z_of_byte c <=? 13) with false by (symmetry; apply Z.leb_gt; lia);
  replace (28 <=? Z_of_byte c) with true by (symmetry; apply Z.leb_le; lia);
  replace (Z_of_byte c <=? 32) with false by (symmetry; apply Z.leb_gt; lia);
  replace (Z_of_byte c <? 128) with true by (symmetry; apply Z.ltb_lt; lia).

Lemma drop_ws_graphic c r : graphic c = true -> drop_ws (c :: r) = None.
Proof.
  intros H. apply graphic_facts in H. unfold drop_ws, ws1. not_space c. reflexivity.
Qed.

Lemma drop_ws_rev_graphic c r : graphic c = true -> drop_ws_rev (c :: r) = None.
Proof.
  intros H. apply graphic_facts in H. unfold drop_ws_rev, ws1. not_space c. reflexivity.
Qed.

Lemma drop_all_stuck drop n l :
  (l = [] \/ drop l = None) -> (forall x, drop [] = x -> x = None) -> drop_all drop n l = l.
Proof.
  intros H H0. destruct n as [ | n ]; [ reflexivity | ]. cbn [drop_all].
  destruct H as [-> | ->]; [ | reflexivity ].
  rewrite (H0 _ eq_refl). reflexivity.
Qed.

(** [strip] leaves a text of printable characters without spaces alone. *)
Lemma strip_graphic s : forallb graphic (bytes_of_str s) = true -> strip s = s.
Proof.
  intros H. unfold strip.
  assert (H1 : drop_all drop_ws (String.length s) (bytes_of_str s) = bytes_of_str s).
  { apply drop_all_stuck; [ | intros x <-; reflexivity ].
    destruct (bytes_of_str s) as [ | c r ]; [ left; reflexivity | right ].
    apply drop_ws_graphic. cbn [forallb] in H. apply andb_true_iff in H. tauto. }
  rewrite H1.
  assert (H2 : forallb graphic (rev (bytes_of_str s)) = true).
  { rewrite forallb_forall in *. intros x Hx. apply H. apply in_rev. exact Hx. }
  rewrite drop_all_stuck; [ rewrite rev_involutive; apply str_bytes_inv | | intros x <-; reflexivity ].
  destruct (rev (bytes_of_str s)) as [ | c r ]; [ left; reflexivity | right ].
  apply drop_ws_rev_graphic. cbn [forallb] in H2. apply andb_true_iff in H2. tauto.
Qed.

(** The hash of a message and a key that can be encoded; there is none
    otherwise. *)
Lemma hash_wf msg k :
  wf_str msg -> wf_str k ->
  MySecurity.hash msg (Some k) = Some (hexlify (HMAC.digest (utf8_encode k) (utf8_encode msg))).
Proof.
  intros Hm Hk. unfold MySecurity.hash. rewrite (str_encode_wf k Hk), (str_encode_wf msg Hm).
  reflexivity.
Qed.

Lemma hash_some msg k h :
  MySecurity.hash msg (Some k) = Some h ->
  wf_str msg /\ wf_str k /\ h = hexlify (HMAC.digest (utf8_encode k) (utf8_encode msg)).
Proof.
  unfold MySecurity.hash.
  destruct (str_encode k) as [ kb | ] eqn:Ek; [ | discriminate ].
  destruct (str_encode msg) as [ mb | ] eqn:Em; [ | discriminate ].
  destruct (str_encode_some _ _ Ek) as [Hk ->]. destruct (str_encode_some _ _ Em) as [Hm ->].
  intros [= <-]. repeat split; assumption.
Qed.

(** The envelope of [encrypt_and_sign] parses back to its two fields. *)
Lemma encrypt_and_sign_loads now rnd m k c :
  AesCtr.encrypt now rnd m k 128 = Some c ->
  forallb plain_char (bytes_of_str c) = true ->
  Json.loads (MySecurity.encrypt_and_sign now rnd m (Some k))
  = Some (JObj [("cipher"%string, JStr c);
                ("hash"%string, JStr (hexlify (HMAC.digest (utf8_encode k) (utf8_encode m))))]).
Proof.
  intros E Hc.
  assert (Hh : forallb plain_char (bytes_of_str (hexlify (HMAC.digest (utf8_encode k) (utf8_encode m)))) = true)
    by apply graphic_plain, hexlify_graphic.
  destruct (encrypt_wf _ _ _ _ _ _ E) as [Hm Hk].
  unfold MySecurity.encrypt_and_sign, MySecurity.encrypt. rewrite E, (hash_wf m k Hm Hk).
  cbn [of_optstr]. rewrite dumps_cipher_hash by assumption.
  apply loads_cipher_hash; assumption.
Qed.

(* ================================================================== *)
(** * Base64 without padding *)

Lemma nopad_no_pad bs : forallb not_pad (b64url_nopad bs) = true.
Proof.
  induction bs as [ | a | a b | a b c r IH ] using list_ind3; [ reflexivity | | | ];
    cbn [b64url_nopad forallb]; sextet_bounds;
    rewrite !not_pad_url by div_lia; rewrite ?IH; reflexivity.
Qed.

(** The padded encoding is the unpadded one followed by [=] signs. *)
Lemma encode_url_nopad bs :
  exists k, Base64.urlsafe_b64encode bs = b64url_nopad bs ++ repeat "="%char k.
Proof.
  unfold Base64.urlsafe_b64encode.
  induction bs as [ | a | a b | a b c r IH ] using list_ind3.
  - exists 0%nat. reflexivity.
  - exists 2%nat. reflexivity.
  - exists 1%nat. reflexivity.
  - destruct IH as [k IH]. exists k. cbn [Base64.encode_with b64url_nopad]. rewrite IH. reflexivity.
Qed.

Lemma drop_pads c k : forall fuel u,
  (k <= fuel)%nat -> forallb (fun x => negb (Ascii.eqb x c)) u = true ->
  drop_all (drop_char c) fuel (repeat c k ++ rev u) = rev u.
Proof.
  induction k as [ | k IH ]; intros fuel u Hf Hu.
  - cbn [repeat app]. destruct fuel as [ | fuel ]; [ reflexivity | ]. cbn [drop_all].
    destruct (rev u) as [ | x r ] eqn:E; [ reflexivity | ].
    cbn [drop_char]. replace (Ascii.eqb x c) with false; [ reflexivity | ].
    symmetry. rewrite forallb_forall in Hu. apply negb_true_iff. apply Hu.
    apply in_rev. rewrite E. left. reflexivity.
  - destruct fuel as [ | fuel ]; [ lia | ]. cbn [repeat app drop_all drop_char].
    rewrite Ascii.eqb_refl. apply IH; [ lia | exact Hu ].
Qed.

(** [rstrip(c)] removes exactly the trailing run of [c]. *)
Lemma rstrip_pads c u k :
  forallb (fun x => negb (Ascii.eqb x c)) u = true ->
  rstrip_char c (u ++ repeat c k) = u.
Proof.
  intros Hu. unfold rstrip_char. rewrite rev_app_distr, rev_repeat.
  rewrite drop_pads; [ apply rev_involutive | | exact Hu ].
  rewrite length_app, repeat_length. lia.
Qed.

(* ================================================================== *)
(** * The connection *)

Lemma is_ready_spec self :
  AgentConnection.is_ready self = true <->
  AgentConnection._ready_state self = true /\ AgentConnection._session_id self <> JNull.
Proof.
  unfold AgentConnection.is_ready.
  destruct (AgentConnection._ready_state self), (AgentConnection._session_id self); simpl;
    split; intros; try discriminate; try (split; congruence); try tauto;
    destruct H; congruence.
Qed.

(** The guard at the head of [_connect_internal]. *)
Lemma connect_internal_when_ready self w cid cn cp an scope :
  AgentConnection.is_ready self = true ->
  AgentConnection._connect_internal self w cid cn cp an scope
  = (Raise "already connected", self, w).
Proof.
  intros H. apply is_ready_spec in H. destruct H as [Hr Hs].
  unfold AgentConnection._connect_internal. rewrite Hr.
  destruct (AgentConnection._session_id self); simpl; try reflexivity. congruence.
Qed.

Lemma set_options_ready relay check self :
  AgentConnection.is_ready self = true ->
  AgentConnection.is_ready (AgentConnection.set__check_last_session check
              (AgentConnection.set_enable_webrtc_relay relay self)) = true.
Proof. intros H. exact H. Qed.

Lemma options_only_ready self self' :
  options_only self self' ->
  AgentConnection.is_ready self = true -> AgentConnection.is_ready self' = true.
Proof. intros (relay & check & ->) H. exact H. Qed.

Lemma connect_with_dict_when_ready self w config :
  AgentConnection.is_ready self = true ->
  exists self',
    AgentConnection._connect_with_dict self w (JObj config) = (Raise "already connected", self', w)
    /\ options_only self self'.
Proof.
  intros H. eexists. split.
  - cbn [AgentConnection._connect_with_dict]. apply connect_internal_when_ready.
    apply set_options_ready. exact H.
  - eexists _, _. reflexivity.
Qed.

(** The options that [connect] takes from its keyword arguments. *)
Lemma kwargs_options_only self (relay check : option json) :
  options_only self
    (match check with
     | Some v => AgentConnection.set__check_last_session v
                   match relay with
                   | Some v0 => AgentConnection.set_enable_webrtc_relay v0 self
                   | None => self
                   end
     | None => match relay with
               | Some v0 => AgentConnection.set_enable_webrtc_relay v0 self
               | None => self
               end
     end).
Proof.
  destruct self, check, relay; eexists _, _;
    unfold AgentConnection.set__check_last_session, AgentConnection.set_enable_webrtc_relay;
    simpl; reflexivity.
Qed.

Lemma api_disconnect_true api w sid api' w' :
  MessagingChannelApi.disconnect api w sid = (true, api', w') ->
  MessagingChannelApi.udp_closed api' = true
  /\ MessagingChannelApi.session_id api' = JNull
  /\ MessagingChannelApi.ready_state api' = false
  /\ MessagingChannelApi.channel_secret api' = MessagingChannelApi.channel_secret api.
Proof.
  unfold MessagingChannelApi.disconnect, HttpClient.request.
  destruct (server w (wire w) _); try (intros H; inversion H; fail).
  destruct (Json.loads text); intros H; inversion H; subst; clear H.
  repeat split.
Qed.

(** The two [_verify_and_decrypt_message]: when the content does not verify,
    the connection's returns the event as it is, the API's blanks it. *)
Lemma conn_verify_failure self d :
  MySecurity.decrypt_and_verify (get_or d "content" (JStr EmptyString))
                                (AgentConnection.channel_secret self) = None ->
  AgentConnection._verify_and_decrypt_message self (JObj d) = JObj d.
Proof.
  intros Hd. cbn [AgentConnection._verify_and_decrypt_message]. rewrite Hd.
  destruct (truthy (get d "encrypted")); reflexivity.
Qed.

Lemma api_verify_failure api item :
  truthy (get item "encrypted") = true ->
  MySecurity.decrypt_and_verify (get_or item "content" (JStr EmptyString))
                                (MessagingChannelApi.channel_secret api) = None ->
  MessagingChannelApi._verify_and_decrypt_message api item
  = dict_set "encrypted" (JBool false) (dict_set "content" JNull item).
Proof.
  intros He Hd. unfold MessagingChannelApi._verify_and_decrypt_message. rewrite He, Hd. reflexivity.
Qed.

(** The [ChannelState] that [MessagingChannelApi.connect] builds carries no
    offsets, so the receive configurations computed from it are the default
    ones, whatever the reply said. *)
Lemma configs_of_state_of md :
  AgentConnection.configs_of (Some (MessagingChannelApi.state_of md))
  = (AgentConnection.default_config, AgentConnection.default_config).
Proof. reflexivity. Qed.

Lemma earliest_keeps_self self agents t :
  exists t', AgentConnection.earliest self agents (AgentConnection.agent_name self, t)
             = Some (AgentConnection.agent_name self, t').
Proof.
  revert t. induction agents as [ | a r IH ]; intros t; simpl.
  - eauto.
  - unfold AgentInfo.getattr at 3. simpl.
    destruct (py_eq _ _); simpl; apply IH.
Qed.

Lemma names_named l :
  forallb AgentConnection.is_str
    (map (fun a => py_or (AgentInfo.getattr a "agentName" JNull)
                         (AgentInfo.getattr a "name" (JStr "Unknown"))) l)
  = forallb named l.
Proof. induction l as [ | x l IH ]; simpl; [ reflexivity | ]. rewrite IH. reflexivity. Qed.

(** Whatever the agents listed, a connected agent takes itself for the
    host: an [AgentInfo] has no [connectionTime] to compare. *)
Lemma is_host_agent_always self w me a agents w' :
  AgentConnection.is_ready self = true ->
  AgentConnection.agent_name self = JStr me ->
  AgentConnection.get_active_agents self w = (Some (a :: agents), w') ->
  forallb named (a :: agents) = true ->
  AgentConnection.is_host_agent self w = (Ret true, w').
Proof.
  intros Hr Hme Hg Hn. unfold AgentConnection.is_host_agent. rewrite Hr, Hg. simpl negb. cbv iota.
  destruct (earliest_keeps_self self (a :: agents) JNull) as [t' ->].
  rewrite Hme. simpl py_eq. rewrite String.eqb_refl.
  rewrite names_named, Hn. reflexivity.
Qed.

Lemma rsa_decrypt_wf w priv c dec : RSA.rsa_decrypt w priv c = Some dec -> wf_str dec.
Proof.
  unfold RSA.rsa_decrypt. destruct c; try discriminate.
  destruct (Base64.b64decode _); [ | discriminate ].
  destruct (oaep_decrypt _ _ _); [ | discriminate ].
  apply utf8_decode_wf.
Qed.

Lemma derive_channel_secret_dyn_wf n p :
  wf_str n -> wf_str p ->
  MySecurity.derive_channel_secret_dyn (JStr n) (JStr p)
  = Some (MySecurity.derive_channel_secret n p).
Proof.
  intros Hn Hp. cbn [MySecurity.derive_channel_secret_dyn].
  rewrite (str_encode_wf _ (wf_str_app n p Hn Hp)). reflexivity.
Qed.

(** [_handle_password_reply] decrypts and installs whatever reply carries a
    cipher text: the [requestId] of the reply, [rid], and the pending one are
    never compared. *)
Lemma handle_password_reply_installs self w ev priv pending text parsed rid cipher dec name :
  AgentConnection._pending_private_key self = Some priv ->
  AgentConnection._pending_request_id self = Some pending ->
  AgentConnection.field ev "content" = JStr text ->
  Json.loads text = Some (JObj parsed) ->
  dict_get "requestId" parsed = Some rid ->
  py_eq rid (JStr pending) = false ->
  py_or (get parsed "cipher") (get parsed "content") = JStr cipher ->
  cipher <> EmptyString ->
  RSA.rsa_decrypt w priv (JStr cipher) = Some dec ->
  PasswordUtils.read_reply dec = (JNull, JStr dec) ->
  dec <> EmptyString ->
  AgentConnection._channel_name self = JStr name ->
  name <> EmptyString ->
  wf_str name ->
  let self' := AgentConnection._handle_password_reply self w ev in
  AgentConnection._channel_password self' = JStr dec
  /\ AgentConnection.channel_secret self' = Some (MySecurity.derive_channel_secret name dec)
  /\ MessagingChannelApi.channel_secret (AgentConnection._channel_api self')
     = Some (MySecurity.derive_channel_secret name dec).
Proof.
  intros Hp Hid Hc Hl Hr Hne Hci Hcne Hd Hrd Hdne Hn Hnne Hnwf self'.
  pose proof (derive_channel_secret_dyn_wf name dec Hnwf (rsa_decrypt_wf _ _ _ _ Hd)) as Hdyn.
  assert (Ht : truthy (JStr text) = true).
  { simpl. destruct text; [ vm_compute in Hl; discriminate | reflexivity ]. }
  assert (Htc : truthy (JStr cipher) = true).
  { simpl. destruct cipher; [ congruence | reflexivity ]. }
  assert (Htn : truthy (JStr name) = true) by (simpl; destruct name; [ congruence | reflexivity ]).
  assert (Htd : truthy (JStr dec) = true) by (simpl; destruct dec; [ congruence | reflexivity ]).
  subst self'. unfold AgentConnection._handle_password_reply.
  rewrite Hp, Hc, Hl, Hci, Ht, Htc, Hd, Hrd.
  cbn [negb truthy andb].
  destruct self; cbn [AgentConnection._channel_name AgentConnection._channel_password
                      AgentConnection.set__channel_password] in *.
  subst. rewrite Htn, Htd. cbn [andb]. rewrite Hdyn.
  repeat split.
Qed.

(** The blocking wait does compare: a reply whose [requestId] differs from
    the expected one is passed over. *)
Lemma wait_ignores_mismatch w agent_name priv ct expected api d text parsed rid :
  get d "content" = JStr text ->
  Json.loads text = Some (JObj parsed) ->
  dict_get "requestId" parsed = Some rid ->
  py_eq rid (JStr expected) = false ->
  PasswordUtils.accept_reply w agent_name priv ct (Some expected) api (JObj d) = None.
Proof.
  intros Hc Hl Hr Hne. unfold PasswordUtils.accept_reply.
  rewrite Hc, Hl, Hr, Hne.
  destruct (negb _ || negb _); [ reflexivity | ].
  destruct (if is_none ct then _ else _) as [ [ | ] | ]; try reflexivity.
  destruct (negb (truthy (JStr text))); reflexivity.
Qed.

(* ================================================================== *)
(** * The properties of the specification *)

(** C1: after [disconnect()] has returned true, the session id of the
    connection is null, so are the pending RSA private key, the pending
    request id and the connect key pair, the connection is no longer ready
    and the UDP socket of its API is closed; the channel secret is the one
    the connection held before the call. *)
Theorem C1_disconnect_clears_session_and_keys self w self' w' :
  AgentConnection.disconnect self w = (true, self', w') ->
  AgentConnection._session_id self' = JNull
  /\ AgentConnection._pending_private_key self' = None
  /\ AgentConnection._pending_request_id self' = None
  /\ AgentConnection._key_pair self' = None
  /\ MessagingChannelApi.udp_closed (AgentConnection._channel_api self') = true
  /\ AgentConnection._ready_state self' = false
  /\ AgentConnection.channel_secret self' = AgentConnection.channel_secret self
  /\ MessagingChannelApi.channel_secret (AgentConnection._channel_api self')
     = MessagingChannelApi.channel_secret (AgentConnection._channel_api self).
Proof.
  unfold AgentConnection.disconnect.
  destruct (AgentConnection.is_ready self); simpl; [ | intros H; inversion H ].
  destruct (MessagingChannelApi.disconnect _ _ _) as [[result api] w1] eqn:E.
  destruct result; intros H; inversion H; subst; clear H.
  apply api_disconnect_true in E. destruct E as (Hu & _ & _ & Hs).
  repeat split; simpl; auto.
Qed.

Lemma C1_disconnect_witness :
  exists self' w',
    AgentConnection.disconnect keyed_conn (mock_world ok_server) = (true, self', w')
    /\ AgentConnection._session_id self' = JNull.
Proof.
  eexists _, _. split; [ vm_compute; reflexivity | ].
  eapply (C1_disconnect_clears_session_and_keys keyed_conn (mock_world ok_server)).
  vm_compute. reflexivity.
Defined.

(** C1, as stated, fails: a connection that holds a channel secret still
    holds it, and so does its API, after [disconnect()] has returned true. *)
Lemma C1_disconnect_keeps_channel_secret :
  fst (fst (AgentConnection.disconnect keyed_conn (mock_world ok_server))) = true
  /\ AgentConnection.channel_secret
       (snd (fst (AgentConnection.disconnect keyed_conn (mock_world ok_server))))
     = Some "channel_abc"%string
  /\ MessagingChannelApi.channel_secret
       (AgentConnection._channel_api
          (snd (fst (AgentConnection.disconnect keyed_conn (mock_world ok_server)))))
     = Some "channel_abc"%string.
Proof. repeat split; vm_compute; reflexivity. Qed.

(** C2: the receive pump pulls one event with [encrypted = true] whose
    content does not verify under the channel secret; the event is delivered
    to the handler, but with its content replaced by null and its
    [encrypted] flag turned off. *)
Theorem C2_failed_decrypt_blanks_event :
  MySecurity.decrypt_and_verify (JStr bad_content) (AgentConnection.channel_secret secret_conn) = None
  /\ delivered (snd (AgentConnection.pump_round AgentConnection.default_config secret_conn
                                               (mock_world bad_pull_server)))
     = [[JObj [("type"%string, JStr "chat-text"); ("from"%string, JStr "b");
               ("encrypted"%string, JBool false); ("content"%string, JNull)]]].
Proof. split; vm_compute; reflexivity. Qed.

(** C3: in the first scenario of the specification, [connect] succeeds, the
    channel id is [C1], the channel secret is the derived one and the initial
    receive configuration is (0, 0, 20); the current receive configuration
    is (0, 0, 20) as well, not (42, 7, 20). *)
Theorem C3_connect_scenario_configs :
  fst (fst scenario1) = Ret true
  /\ AgentConnection.channel_id (snd (fst scenario1)) = JStr "C1"
  /\ AgentConnection.initial_receive_config (snd (fst scenario1))
     = Some (ReceiveConfig.make (JInt 0) (JInt 0) (JInt 20))
  /\ AgentConnection.current_receive_config (snd (fst scenario1))
     = Some (ReceiveConfig.make (JInt 0) (JInt 0) (JInt 20))
  /\ AgentConnection.channel_secret (snd (fst scenario1))
     = Some (MySecurity.derive_channel_secret "default" "default").
Proof.
  repeat split; lazy -[MySecurity.derive_channel_secret MySecurity.hash]; reflexivity.
Qed.

(** C4: of three agents listed with connection times 100, 200 and 300,
    each one gets true from [is_host_agent()], the two later ones too. *)
Theorem C4_three_agents_all_host :
  map (fun me => fst (AgentConnection.is_host_agent (ready_conn me) (mock_world agents_server)))
      ["a1"; "a2"; "a3"]%string
  = [Ret true; Ret true; Ret true].
Proof. vm_compute. reflexivity. Qed.

(** C5: for every plaintext [m] and key [k] that can be encoded as UTF-8
    (no lone surrogate), [decrypt_and_verify] under [k] of
    [encrypt_and_sign(m, k)] returns [m]; under any key [k'] it returns null
    unless the text it decrypts to has, under [k'], the HMAC that [m] has
    under [k]. *)
Theorem C5_roundtrip_and_hash_guard now rnd m k :
  wf_str m -> wf_str k ->
  MySecurity.decrypt_and_verify (JStr (MySecurity.encrypt_and_sign now rnd m (Some k))) (Some k) = Some m
  /\ forall k' m',
       MySecurity.decrypt_and_verify (JStr (MySecurity.encrypt_and_sign now rnd m (Some k))) (Some k')
       = Some m' ->
       MySecurity.hash m' (Some k') = MySecurity.hash m (Some k).
Proof.
  intros Hm Hk.
  destruct (aes_ctr_roundtrip now rnd m k k Hm Hk Hk eq_refl) as (ct & E & D).
  pose proof (encrypt_and_sign_loads now rnd m k _ E
                ltac:(rewrite bytes_str_inv; apply encode_std_plain)) as Hl.
  split.
  - unfold MySecurity.decrypt_and_verify. rewrite Hl.
    cbn [get_or dict_get String.eqb Ascii.eqb Bool.eqb MySecurity.decrypt].
    rewrite D, (hash_wf m k Hm Hk). rewrite String.eqb_refl. reflexivity.
  - intros k' m'. unfold MySecurity.decrypt_and_verify. rewrite Hl.
    cbn [get_or dict_get String.eqb Ascii.eqb Bool.eqb MySecurity.decrypt].
    destruct (AesCtr.decrypt _ k' 128) as [message | ]; [ | discriminate ].
    destruct (MySecurity.hash message (Some k')) as [ h | ] eqn:Eh; [ | discriminate ].
    destruct (hash_some _ _ _ Eh) as (_ & _ & ->).
    rewrite !strip_graphic by apply hexlify_graphic.
    destruct (String.eqb _ _) eqn:Heq; cbn [negb]; [ | discriminate ].
    intros H. inversion H; subst message. apply String.eqb_eq in Heq.
    rewrite Eh, (hash_wf m k Hm Hk), Heq. reflexivity.
Qed.

Lemma C5_roundtrip_witness :
  MySecurity.decrypt_and_verify
    (JStr (MySecurity.encrypt_and_sign 1700000000123 sample_rnd "hello" (Some key_abc)))
    (Some key_abc) = Some "hello"%string.
Proof.
  pose proof (C5_roundtrip_and_hash_guard 1700000000123 sample_rnd "hello" key_abc) as H.
  assert (Hw : wf_str "hello") by (vm_compute; reflexivity).
  assert (Hk : wf_str key_abc) by (vm_compute; reflexivity).
  destruct (H Hw Hk) as [H1 _].
  exact H1.
Defined.

(** C5, as stated, fails: the key [abc] followed by a NUL character is
    another key, and it decrypts and verifies what was signed under [abc]. *)
Lemma C5_padded_key_accepted :
  String.eqb key_abc key_abc_nul = false
  /\ MySecurity.decrypt_and_verify
       (JStr (MySecurity.encrypt_and_sign 1700000000123 sample_rnd "hello" (Some key_abc)))
       (Some key_abc_nul) = Some "hello"%string.
Proof. split; vm_compute; reflexivity. Qed.

(** C6: for a channel name and a password that can be encoded as UTF-8,
    the call [derive_channel_secret(channel_name, password)] returns, and
    what it returns is the function the specification describes:
    PBKDF2-HMAC-SHA256 over the concatenation of the two, salt
    [messaging-platform], 100,000 iterations, 32 octets, encoded base64url
    without padding, prefixed with [channel_]; equal inputs give equal
    strings. *)
Theorem C6_derive_channel_secret_refines_spec :
  forall channel_name password,
    wf_str channel_name -> wf_str password ->
    MySecurity.derive_channel_secret_dyn (JStr channel_name) (JStr password)
    = Some (spec_deriveChannelSecret channel_name password)
    /\ MySecurity.derive_channel_secret channel_name password
       = spec_deriveChannelSecret channel_name password
    /\ forall channel_name' password',
         channel_name' = channel_name -> password' = password ->
         MySecurity.derive_channel_secret_dyn (JStr channel_name') (JStr password')
         = MySecurity.derive_channel_secret_dyn (JStr channel_name) (JStr password).
Proof.
  intros channel_name password Hn Hp.
  assert (E : MySecurity.derive_channel_secret channel_name password
              = spec_deriveChannelSecret channel_name password);
    [ | split; [ rewrite (derive_channel_secret_dyn_wf _ _ Hn Hp), E; reflexivity | split ] ].
  - unfold MySecurity.derive_channel_secret, spec_deriveChannelSecret.
    unfold utf8_encode. rewrite bytes_of_str_app.
    destruct (encode_url_nopad (PBKDF2.derive (bytes_of_str channel_name ++ bytes_of_str password)
                                  (bytes_of_str "messaging-platform") 100000 32)) as [k ->].
    rewrite rstrip_pads by apply nopad_no_pad. reflexivity.
  - exact E.
  - intros ? ? -> ->. reflexivity.
Qed.

Lemma C6_derive_witness :
  MySecurity.derive_channel_secret_dyn (JStr "system001") (JStr "123456781")
  = Some (spec_deriveChannelSecret "system001" "123456781").
Proof.
  assert (Hn : wf_str "system001") by (vm_compute; reflexivity).
  assert (Hp : wf_str "123456781") by (vm_compute; reflexivity).
  exact (proj1 (C6_derive_channel_secret_refines_spec "system001" "123456781" Hn Hp)).
Defined.

(** C7: a requester waits for the reply to request [req-1]; the pump hands
    [_handle_password_reply] a reply whose [requestId] is [other]: its cipher
    is decrypted with the pending key, and the password and the channel
    secret derived from it are installed on the connection and on its API. *)
Theorem C7_pump_installs_mismatched_reply :
  AgentConnection._pending_request_id reply_conn = Some "req-1"%string
  /\ option_map (fun parsed => AgentConnection.field parsed "requestId") (Json.loads stray_text)
     = Some (JStr "other")
  /\ let self' := AgentConnection._handle_password_reply reply_conn (mock_world silent_server)
                    stray_reply in
     AgentConnection._channel_password self' = JStr "pw"
     /\ AgentConnection.channel_secret self' = Some (MySecurity.derive_channel_secret "chan" "pw")
     /\ MessagingChannelApi.channel_secret (AgentConnection._channel_api self')
        = Some (MySecurity.derive_channel_secret "chan" "pw").
Proof.
  split; [ reflexivity | ]. split; [ vm_compute; reflexivity | ].
  eapply (handle_password_reply_installs reply_conn (mock_world silent_server) stray_reply
            (PrivKey 1) "req-1" stray_text
            [("requestId"%string, JStr "other"); ("cipher"%string, JStr "cHc=")]
            (JStr "other") "cHc=" "pw" "chan");
    try (vm_compute; reflexivity); try (vm_compute; discriminate).
Qed.

(** C8: after a successful pull in the receive pump, the offsets of the pump
    are promoted to the [nextGlobalOffset] and [nextLocalOffset] of the
    reply, each kept where the reply has none, when the reply carries at
    least one event; after a pull without events the offsets are the
    previous ones. *)
Theorem C8_pump_promotes_when_events o self w resp self' w' :
  AgentConnection.receive (RcObj o) self w = (Some resp, self', w') ->
  fst (fst (AgentConnection.pump_round o self w))
  = match EventMessageResult.events resp with
    | [] => o
    | _ :: _ => promote_offsets resp o
    end.
Proof.
  intros H. unfold AgentConnection.pump_round. rewrite H.
  destruct (EventMessageResult.events resp); simpl; [ reflexivity | ].
  unfold promote_offsets.
  destruct (is_none (EventMessageResult.nextGlobalOffset resp)),
           (is_none (EventMessageResult.nextLocalOffset resp)); reflexivity.
Qed.

Lemma C8_pump_witness :
  exists resp self' w',
    AgentConnection.receive (RcObj AgentConnection.default_config) (ready_conn "a1")
                            (mock_world one_event_server) = (Some resp, self', w')
    /\ fst (fst (AgentConnection.pump_round AgentConnection.default_config (ready_conn "a1")
                                            (mock_world one_event_server)))
       = match EventMessageResult.events resp with
         | [] => AgentConnection.default_config
         | _ :: _ => promote_offsets resp AgentConnection.default_config
         end.
Proof.
  eexists _, _, _. split; [ vm_compute; reflexivity | ].
  eapply (C8_pump_promotes_when_events AgentConnection.default_config (ready_conn "a1")
            (mock_world one_event_server)).
  vm_compute. reflexivity.
Defined.

(** C8, as stated, fails: a successful pull without events, with an
    ephemeral event and the next offsets 5 and 3, leaves the pump at the
    offsets 0 and 0. *)
Lemma C8_empty_pull_keeps_offsets :
  exists resp self' w',
    AgentConnection.receive (RcObj AgentConnection.default_config) (ready_conn "a1")
                            (mock_world empty_pull_server) = (Some resp, self', w')
    /\ EventMessageResult.nextGlobalOffset resp = JInt 5
    /\ EventMessageResult.nextLocalOffset resp = JInt 3
    /\ fst (fst (AgentConnection.pump_round AgentConnection.default_config (ready_conn "a1")
                                            (mock_world empty_pull_server)))
       = ReceiveConfig.make (JInt 0) (JInt 0) (JInt 20).
Proof. eexists _, _, _. repeat split; vm_compute; reflexivity. Qed.

(** C9: while the connection is READY, [_connect_internal] raises
    [already connected] at once and leaves the connection and the world (no
    key generated, no session looked up, nothing on the wire) as they were;
    the public [connect], called with a dict for its config if it has one,
    raises the same error and leaves the world as it was, having stored at
    most the two options [enableWebrtcRelay] and [checkLastSession]. *)
Theorem C9_connect_when_ready self w :
  AgentConnection.is_ready self = true ->
  (forall channel_id channel_name channel_password agent_name api_key_scope,
     AgentConnection._connect_internal self w channel_id channel_name channel_password
                                       agent_name api_key_scope
     = (Raise "already connected", self, w))
  /\ (forall channel_name channel_password agent_name kwargs,
        config_is_dict channel_name kwargs = true ->
        exists self',
          AgentConnection.connect self w channel_name channel_password agent_name kwargs
          = (Raise "already connected", self', w)
          /\ options_only self self').
Proof.
  intros H. split.
  - intros. apply connect_internal_when_ready. exact H.
  - intros cn cp an kwargs Hc.
    assert (Hopts := kwargs_options_only self (dict_get "enableWebrtcRelay" kwargs)
                                         (dict_get "checkLastSession" kwargs)).
    pose proof (options_only_ready _ _ Hopts H) as Hr.
    unfold AgentConnection.connect, config_is_dict in *.
    destruct cn; try (apply connect_with_dict_when_ready; exact H);
      (destruct (dict_get "config" kwargs) as [ config | ];
       [ destruct config; try discriminate Hc; apply connect_with_dict_when_ready; exact H
       | eexists; split; [ apply connect_internal_when_ready; exact Hr | exact Hopts ] ]).
Qed.

Lemma C9_connect_witness :
  AgentConnection._connect_internal (ready_conn "a1") (mock_world ok_server)
    JNull (JStr "default") (JStr "default") (JStr "a1") (JStr "private")
  = (Raise "already connected", ready_conn "a1", mock_world ok_server).
Proof.
  exact (proj1 (C9_connect_when_ready (ready_conn "a1") (mock_world ok_server) eq_refl)
               JNull (JStr "default") (JStr "default") (JStr "a1") (JStr "private")).
Defined.

(** C9, as stated, fails: [connect] with a config dict on a READY connection
    raises [already connected], and the connection has its
    [enable_webrtc_relay] option changed from false to true. *)
Lemma C9_connect_when_ready_stores_options :
  AgentConnection.is_ready (ready_conn "a1") = true
  /\ fst (fst (AgentConnection.connect (ready_conn "a1") (mock_world ok_server)
                                       relay_config JNull JNull []))
     = Raise "already connected"
  /\ AgentConnection.enable_webrtc_relay (ready_conn "a1") = JBool false
  /\ AgentConnection.enable_webrtc_relay
       (snd (fst (AgentConnection.connect (ready_conn "a1") (mock_world ok_server)
                                          relay_config JNull JNull [])))
     = JBool true.
Proof. repeat split; vm_compute; reflexivity. Qed.

(** C10: the key of the AES-CTR cipher is a function of the first sixteen
    octets of the UTF-8 passphrase: for every plaintext, time and random
    draw, and every two passphrases that have a UTF-8 encoding and whose
    encodings agree on their first sixteen octets, the keys are equal and
    what [AesCtr.encrypt] produces under the one, [AesCtr.decrypt] turns
    back into the plaintext under the other; for two such secrets that
    start with [channel_], agreeing on the eight octets after the prefix is
    enough, and the cipher texts are equal. *)
Theorem C10_key_from_first_16_octets now rnd m :
  wf_str m ->
  (forall k1 k2,
     wf_str k1 -> wf_str k2 ->
     firstn 16 (utf8_encode k1) = firstn 16 (utf8_encode k2) ->
     key128 k1 = key128 k2
     /\ exists c, AesCtr.encrypt now rnd m k1 128 = Some c /\ AesCtr.decrypt c k2 128 = Some m)
  /\ (forall e1 e2,
        wf_str e1 -> wf_str e2 ->
        firstn 8 (utf8_encode e1) = firstn 8 (utf8_encode e2) ->
        AesCtr.encrypt now rnd m ("channel_" ++ e1) 128
        = AesCtr.encrypt now rnd m ("channel_" ++ e2) 128
        /\ exists c, AesCtr.encrypt now rnd m ("channel_" ++ e1) 128 = Some c
                     /\ AesCtr.decrypt c ("channel_" ++ e2) 128 = Some m).
Proof.
  intros Hm. split.
  - intros k1 k2 H1 H2 Hk. split.
    + rewrite (pw_bytes_prefix k1 k2 16 Hk). reflexivity.
    + destruct (aes_ctr_roundtrip now rnd m k1 k2 Hm H1 H2 Hk) as (ct & E & D).
      eexists. split; [ exact E | exact D ].
  - intros e1 e2 H1 H2 He.
    assert (Hk : firstn 16 (utf8_encode ("channel_" ++ e1))
                 = firstn 16 (utf8_encode ("channel_" ++ e2))).
    { rewrite !channel_prefix, He. reflexivity. }
    assert (Hc : wf_str "channel_") by reflexivity.
    pose proof (wf_str_app _ _ Hc H1) as W1. pose proof (wf_str_app _ _ Hc H2) as W2.
    split; [ apply encrypt_prefix; assumption | ].
    destruct (aes_ctr_roundtrip now rnd m _ _ Hm W1 W2 Hk) as (ct & E & D).
    eexists. split; [ exact E | exact D ].
Qed.

Lemma C10_key_witness :
  exists c,
    AesCtr.encrypt 1700000000123 sample_rnd "hello" "0123456789abcdef-one"%string 128 = Some c
    /\ AesCtr.decrypt c "0123456789abcdef-two"%string 128 = Some "hello"%string.
Proof.
  pose proof (C10_key_from_first_16_octets 1700000000123 sample_rnd "hello") as H.
  assert (Hw : wf_str "hello") by (vm_compute; reflexivity).
  destruct (H Hw) as [H1 _].
  exact (proj2 (H1 "0123456789abcdef-one"%string "0123456789abcdef-two"%string
                   eq_refl eq_refl eq_refl)).
Defined.

(* ================================================================== *)
(** * Further properties of the code *)

(* ================================================================== *)
(** * The session files *)


Lemma lookup_store_other k k' v fs :
  String.eqb k' k = false -> Sess.lookup k' (Sess.store k v fs) = Sess.lookup k' fs.
Proof.
  intros H. induction fs as [ | [k0 v0] r IH ]; cbn [Sess.store Sess.lookup].
  - rewrite H. reflexivity.
  - destruct (String.eqb k k0) eqn:E; cbn [Sess.lookup].
    + apply String.eqb_eq in E. subst k0. rewrite H. reflexivity.
    + rewrite IH. reflexivity.
Qed.

Lemma lookup_removed k fs :
  Sess.lookup k (filter (fun kv => negb (String.eqb k (fst kv))) fs) = None.
Proof.
  induction fs as [ | [k0 v0] r IH ]; cbn [filter fst Sess.lookup]; [ reflexivity | ].
  destruct (String.eqb k k0) eqn:E; cbn [negb Sess.lookup]; [ exact IH | ].
  rewrite E. exact IH.
Qed.

Lemma lookup_remove_other k k' fs :
  String.eqb k' k = false ->
  Sess.lookup k' (filter (fun kv => negb (String.eqb k (fst kv))) fs) = Sess.lookup k' fs.
Proof.
  intros H. induction fs as [ | [k0 v0] r IH ]; cbn [filter fst Sess.lookup]; [ reflexivity | ].
  destruct (String.eqb k k0) eqn:E; cbn [negb Sess.lookup].
  - apply String.eqb_eq in E. subst k0. rewrite H. exact IH.
  - rewrite IH. reflexivity.
Qed.

Lemma append_inv_tail (a b t : string) : (a ++ t = b ++ t)%string -> a = b.
Proof.
  intros H. apply (f_equal bytes_of_str) in H. rewrite !bytes_of_str_app in H.
  apply app_inv_tail in H. apply (f_equal str_of_bytes) in H.
  rewrite !str_bytes_inv in H. exact H.
Qed.





(** Saving the session of one channel leaves what [load_session_id] returns
    for a channel with another file as it was. *)
Theorem session_save_other_channel w n1 n2 v w' :
  String.eqb (Sess.replace_slash n2) (Sess.replace_slash n1) = false ->
  Sess.save_session_id w (JStr n1) v = Ret w' ->
  Sess.load_session_id w' (JStr n2) = Sess.load_session_id w (JStr n2).
Proof.
  intros Hn Hs. cbn [Sess.save_session_id Sess._key] in Hs. inversion Hs; subst; clear Hs.
  unfold Sess.load_session_id, Sess._key. cbn [files W.set_files].
  rewrite lookup_store_other; [ reflexivity | ].
  apply String.eqb_neq. intros E. apply append_inv_tail in E.
  rewrite E, String.eqb_refl in Hn. discriminate.
Qed.

Lemma session_save_other_channel_witness :
  exists w',
    Sess.save_session_id (mock_world ok_server) (JStr "lobby") (JStr "S-42") = Ret w'
    /\ Sess.load_session_id w' (JStr "arena") = Ret JNull.
Proof.
  eexists. split; [ reflexivity | ].
  rewrite (session_save_other_channel (mock_world ok_server) "lobby" "arena" (JStr "S-42") _
             eq_refl eq_refl).
  reflexivity.
Defined.

(** After [clear_session(n)], [load_session_id] returns [None] for [n] and
    for every name that shares its file, and what it returned before for
    the channels with another file. *)
Theorem session_clear_then_load w n :
  Sess.portable n = true ->
  exists w',
    Sess.clear_session w (JStr n) = Ret w'
    /\ (forall n', Sess.replace_slash n' = Sess.replace_slash n ->
                   Sess.load_session_id w' (JStr n') = Ret JNull)
    /\ (forall n', String.eqb (Sess.replace_slash n') (Sess.replace_slash n) = false ->
                   Sess.load_session_id w' (JStr n') = Sess.load_session_id w (JStr n')).
Proof.
  intros _. eexists. split; [ reflexivity | ]. split.
  - intros n' Hn. unfold Sess.load_session_id, Sess._key. rewrite Hn.
    cbn [files W.set_files]. rewrite lookup_removed. reflexivity.
  - intros n' Hn. unfold Sess.load_session_id, Sess._key. cbn [files W.set_files].
    rewrite lookup_remove_other; [ reflexivity | ].
    apply String.eqb_neq. intros E. apply append_inv_tail in E.
    rewrite E, String.eqb_refl in Hn. discriminate.
Qed.

Lemma session_clear_then_load_witness :
  exists w',
    Sess.clear_session (mock_world ok_server) (JStr "lobby") = Ret w'
    /\ Sess.load_session_id w' (JStr "lobby") = Ret JNull.
Proof.
  destruct (session_clear_then_load (mock_world ok_server) "lobby" eq_refl) as (w' & Hc & Hl & _).
  exists w'. split; [ exact Hc | ]. apply Hl. reflexivity.
Defined.

(* ================================================================== *)
(** * Digests and derived keys *)

Lemma sha256_digest_length m : length (SHA256.digest m) = 32%nat.
Proof.
  unfold SHA256.digest, SHA256.digest_of. rewrite !length_app, !be_bytes_length. reflexivity.
Qed.

Lemma hmac_digest_length k m : length (HMAC.digest k m) = 32%nat.
Proof. unfold HMAC.digest. apply sha256_digest_length. Qed.

Lemma hex_digit_hex n : 0 <= n < 16 -> is_hex_char (hex_digit n) = true.
Proof. intros H. exact (nibble_check (fun n => is_hex_char (hex_digit n)) eq_refl n H). Qed.

Lemma hexlify_hex b : forallb is_hex_char (bytes_of_str (hexlify b)) = true.
Proof.
  unfold hexlify. rewrite bytes_str_inv.
  induction b as [ | x b IH ]; [ reflexivity | ].
  cbn [flat_map hex_of_byte app forallb]. pose proof (Z_of_byte_range x).
  rewrite IH, !hex_digit_hex by div_lia. reflexivity.
Qed.

Lemma str_length_bytes l : String.length (str_of_bytes l) = length l.
Proof. induction l as [ | x l IH ]; [ reflexivity | ]. cbn. rewrite <- IH. reflexivity. Qed.

Lemma hexlify_length b : String.length (hexlify b) = (2 * length b)%nat.
Proof.
  unfold hexlify. rewrite str_length_bytes.
  induction b as [ | x b IH ]; [ reflexivity | ].
  cbn [flat_map hex_of_byte app length]. rewrite IH. lia.
Qed.

(** For a message and a key that can be encoded as UTF-8, [MySecurity.hash]
    returns sixty-four lowercase hexadecimal digits; it returns [None]
    without a key, and it returns a digest only for a message and a key that
    can be encoded. *)
Theorem hash_is_64_hex_digits msg key :
  wf_str msg -> wf_str key ->
  (exists h,
     MySecurity.hash msg (Some key) = Some h
     /\ String.length h = 64%nat
     /\ forallb is_hex_char (bytes_of_str h) = true)
  /\ MySecurity.hash msg None = None
  /\ (forall msg' key', MySecurity.hash msg' (Some key') <> None -> wf_str msg' /\ wf_str key').
Proof.
  intros Hm Hk. split; [ | split; [ reflexivity | ] ].
  - eexists. split; [ apply (hash_wf msg key Hm Hk) | ]. split.
    + rewrite hexlify_length, hmac_digest_length. reflexivity.
    + apply hexlify_hex.
  - intros msg' key' H.
    destruct (MySecurity.hash msg' (Some key')) as [ h | ] eqn:E; [ | congruence ].
    destruct (hash_some _ _ _ E) as (H1 & H2 & _). split; assumption.
Qed.

Lemma hash_is_64_hex_digits_witness :
  exists h,
    MySecurity.hash "hello" (Some key_abc) = Some h
    /\ String.length h = 64%nat
    /\ forallb is_hex_char (bytes_of_str h) = true.
Proof.
  assert (Hm : wf_str "hello") by (vm_compute; reflexivity).
  assert (Hk : wf_str key_abc) by (vm_compute; reflexivity).
  exact (proj1 (hash_is_64_hex_digits "hello" key_abc Hm Hk)).
Defined.

Lemma pbkdf2_F_length p s c i : length (PBKDF2.F p s c i) = 32%nat.
Proof.
  unfold PBKDF2.F.
  assert (H : forall n,
             let r := Pos.iter (fun q : bytes * bytes =>
                                  (HMAC.digest p (fst q), xor_bytes (snd q) (HMAC.digest p (fst q))))
                               (HMAC.digest p (s ++ be_bytes 4 i), HMAC.digest p (s ++ be_bytes 4 i)) n in
             length (snd r) = 32%nat).
  { intros n. cbv zeta. apply Pos.iter_invariant.
    - intros [u acc] Hacc. cbn [fst snd] in *.
      rewrite xor_bytes_length, Hacc, hmac_digest_length. reflexivity.
    - cbn [snd]. apply hmac_digest_length. }
  destruct c; [ apply H | apply H | apply hmac_digest_length ].
Qed.

Lemma pbkdf2_derive_32 p s c : length (PBKDF2.derive p s c 32) = 32%nat.
Proof.
  unfold PBKDF2.derive. change ((32 + 31) / 32)%nat with 1%nat.
  cbn [PBKDF2.blocks]. rewrite app_nil_r, length_firstn, pbkdf2_F_length. reflexivity.
Qed.

Lemma nopad_length l : length (b64url_nopad l) = ((4 * length l + 2) / 3)%nat.
Proof.
  induction l as [ | a | a b | a b c r IH ] using list_ind3; try reflexivity.
  cbn [b64url_nopad length]. rewrite IH.
  replace (4 * S (S (S (length r))) + 2)%nat with ((4 * length r + 2) + 4 * 3)%nat by lia.
  rewrite Nat.div_add by lia. lia.
Qed.

Lemma url_char_url n : 0 <= n < 64 -> is_url_char (Base64.char_url n) = true.
Proof. intros H. exact (sextet_check (fun n => is_url_char (Base64.char_url n)) eq_refl n H). Qed.

Lemma nopad_url_chars l : forallb is_url_char (b64url_nopad l) = true.
Proof.
  induction l as [ | a | a b | a b c r IH ] using list_ind3; [ reflexivity | | | ];
    cbn [b64url_nopad forallb]; sextet_bounds;
    rewrite !url_char_url by div_lia; rewrite ?IH; reflexivity.
Qed.

(** The secret of a channel without the padding of its encoding. *)
Lemma derive_channel_secret_unpadded n p :
  MySecurity.derive_channel_secret n p
  = ("channel_" ++ str_of_bytes (b64url_nopad
       (PBKDF2.derive (utf8_encode (n ++ p)) (bytes_of_str "messaging-platform") 100000 32)))%string.
Proof.
  unfold MySecurity.derive_channel_secret.
  destruct (encode_url_nopad (PBKDF2.derive (utf8_encode (n ++ p))
                                (bytes_of_str "messaging-platform") 100000 32)) as [k ->].
  rewrite rstrip_pads by apply nopad_no_pad. reflexivity.
Qed.

Lemma length_channel_prefix x : String.length ("channel_" ++ x) = (8 + String.length x)%nat.
Proof. reflexivity. Qed.

(** The secret of a channel whose name and password can be encoded as
    UTF-8 is [channel_] followed by forty-three characters of the URL-safe
    Base64 alphabet: fifty-one characters, none of them the padding sign. *)
Theorem channel_secret_format channel_name password :
  wf_str channel_name -> wf_str password ->
  exists body,
    MySecurity.derive_channel_secret_dyn (JStr channel_name) (JStr password)
    = Some ("channel_" ++ body)%string
    /\ String.length body = 43%nat
    /\ forallb is_url_char (bytes_of_str body) = true
    /\ String.length ("channel_" ++ body) = 51%nat.
Proof.
  intros Hn Hp. rewrite (derive_channel_secret_dyn_wf _ _ Hn Hp).
  pose proof (derive_channel_secret_unpadded channel_name password) as E.
  remember (PBKDF2.derive (utf8_encode (channel_name ++ password))
              (bytes_of_str "messaging-platform") 100000 32) as key eqn:Hk.
  assert (Hl : length key = 32%nat) by (subst key; apply pbkdf2_derive_32).
  clear Hk.
  exists (str_of_bytes (b64url_nopad key)).
  assert (L : String.length (str_of_bytes (b64url_nopad key)) = 43%nat).
  { rewrite str_length_bytes, nopad_length, Hl. reflexivity. }
  split; [ rewrite E; reflexivity | ]. split; [ exact L | ]. split.
  - rewrite bytes_str_inv. apply nopad_url_chars.
  - rewrite length_channel_prefix, L. reflexivity.
Qed.

Lemma channel_secret_format_witness :
  exists body,
    MySecurity.derive_channel_secret_dyn (JStr "system001") (JStr "123456781")
    = Some ("channel_" ++ body)%string
    /\ String.length body = 43%nat.
Proof.
  assert (Hn : wf_str "system001") by (vm_compute; reflexivity).
  assert (Hp : wf_str "123456781") by (vm_compute; reflexivity).
  destruct (channel_secret_format "system001" "123456781" Hn Hp) as (body & E & L & _).
  exists body. split; [ exact E | exact L ].
Defined.

(** A channel secret is ASCII text, so it can always be encoded. *)
Lemma url_char_ascii c : is_url_char c = true -> Base64.is_ascii c = true.
Proof.
  unfold is_url_char, Base64.is_ascii.
  destruct c as [ [ ] [ ] [ ] [ ] [ ] [ ] [ ] [ ] ]; vm_compute; congruence.
Qed.

Lemma derive_channel_secret_wf n p : wf_str (MySecurity.derive_channel_secret n p).
Proof.
  rewrite derive_channel_secret_unpadded.
  remember (PBKDF2.derive (utf8_encode (n ++ p))
              (bytes_of_str "messaging-platform") 100000 32) as key eqn:Hk.
  clear Hk. apply wf_str_app; [ reflexivity | ].
  unfold wf_str. rewrite bytes_str_inv. apply ascii_utf8_valid.
  pose proof (nopad_url_chars key) as H. rewrite forallb_forall in *.
  intros x Hx. apply url_char_ascii, H, Hx.
Qed.

(* ================================================================== *)
(** * The AES-CTR envelope *)

(** A key size of 192 bits passes the check of [AesCtr.encrypt] and
    [AesCtr.decrypt], and both then raise for every input: the password of
    twenty-four octets is not a whole number of blocks for the ECB step. *)
Theorem aes_ctr_192_always_raises :
  AesCtr.n_bits_ok 192 = true
  /\ (forall now rnd plaintext password, AesCtr.encrypt now rnd plaintext password 192 = None)
  /\ (forall ciphertext_b64 password, AesCtr.decrypt ciphertext_b64 password 192 = None).
Proof.
  assert (H : forall pw_input,
             AES.ecb_encrypt (AesCtr.zero_padded pw_input 24) (AesCtr.zero_padded pw_input 24)
             = None).
  { intros pw_input. unfold AES.ecb_encrypt, AES.key_size_ok, AesCtr.zero_padded.
    rewrite length_map, length_seq. reflexivity. }
  split; [ reflexivity | ]. split.
  - intros. unfold AesCtr.encrypt. change (AesCtr.n_bits_ok 192) with true. cbn [negb].
    change (Z.to_nat (192 / 8)) with 24%nat.
    destruct (str_encode password); [ rewrite H | ]; reflexivity.
  - intros. unfold AesCtr.decrypt. change (AesCtr.n_bits_ok 192) with true. cbn [negb].
    change (Z.to_nat (192 / 8)) with 24%nat.
    destruct (Base64.b64decode ciphertext_b64); [ | reflexivity ].
    destruct (str_encode password); [ rewrite H | ]; reflexivity.
Qed.

Lemma ctr_crypt_length key nonce data c :
  (length nonce <= 16)%nat ->
  AES.ctr_crypt key nonce data = Some c -> length c = length data.
Proof.
  intros Hn.
  assert (Hk : (length data <= length (AES.keystream key nonce ((length data + 15) / 16) 0))%nat).
  { rewrite keystream_length by exact Hn.
    pose proof (Nat.div_mod_eq (length data + 15) 16).
    pose proof (Nat.mod_upper_bound (length data + 15) 16). lia. }
  unfold AES.ctr_crypt.
  destruct (negb (AES.key_size_ok key)); [ discriminate | ].
  destruct (16 <=? length nonce)%nat; [ discriminate | ].
  intros [= <-]. rewrite xor_bytes_length. apply Nat.min_l. exact Hk.
Qed.

(** For a plaintext and a password that can be encoded as UTF-8,
    [AesCtr.encrypt] at 128 bits returns, and what it returns is the Base64
    text of the eight-octet nonce, which depends on the clock and the two
    random octets only, followed by exactly as many octets as the UTF-8
    plaintext has.  For any other plaintext or password it raises, at every
    key size. *)
Theorem aes_ctr_cipher_layout now rnd plaintext password :
  wf_str plaintext -> wf_str password ->
  (exists c ct,
     AesCtr.encrypt now rnd plaintext password 128 = Some c
     /\ Base64.b64decode c
        = Some (firstn 8 (AesCtr.make_iv now (AesCtr.int_from_bytes_little rnd)) ++ ct)
     /\ length ct = length (utf8_encode plaintext))
  /\ (forall plaintext' password' n_bits,
        AesCtr.encrypt now rnd plaintext' password' n_bits <> None ->
        wf_str plaintext' /\ wf_str password').
Proof.
  intros Hm Hp. split;
    [ | intros m' p' n H;
        destruct (AesCtr.encrypt now rnd m' p' n) as [ c | ] eqn:E; [ | congruence ];
        exact (encrypt_wf _ _ _ _ _ _ E) ].
  pose proof (iv_length now (AesCtr.int_from_bytes_little rnd)) as Hiv.
  assert (Hlt : (length (firstn 8 (AesCtr.make_iv now (AesCtr.int_from_bytes_little rnd))) < 16)%nat)
    by (rewrite Hiv; lia).
  pose proof (ctr_crypt_some _ _ (utf8_encode plaintext) (key_size_ok_128 password) Hlt) as E.
  eexists _, _. rewrite (encrypt_128 now rnd plaintext password Hm Hp), E.
  unfold utf8_decode at 1. rewrite ascii_utf8_valid by apply encode_std_ascii.
  split; [ reflexivity | ]. split; [ apply b64decode_encode | ].
  apply (ctr_crypt_length _ _ _ _ ltac:(rewrite Hiv; lia) E).
Qed.

Lemma aes_ctr_cipher_layout_witness :
  exists c ct,
    AesCtr.encrypt 1700000000123 sample_rnd "hello" key_abc 128 = Some c
    /\ Base64.b64decode c
       = Some (firstn 8 (AesCtr.make_iv 1700000000123 (AesCtr.int_from_bytes_little sample_rnd))
               ++ ct)
    /\ length ct = length (utf8_encode "hello").
Proof.
  assert (Hm : wf_str "hello") by (vm_compute; reflexivity).
  assert (Hk : wf_str key_abc) by (vm_compute; reflexivity).
  exact (proj1 (aes_ctr_cipher_layout 1700000000123 sample_rnd "hello" key_abc Hm Hk)).
Defined.

Lemma xor_bytes_cancel a b k :
  length a = length b -> (length a <= length k)%nat ->
  xor_bytes (xor_bytes a k) (xor_bytes b k) = xor_bytes a b.
Proof.
  revert b k. induction a as [ | x a IH ]; intros [ | y b ] [ | z k ] Hl Hk;
    simpl in *; try reflexivity; try lia.
  rewrite IH by lia. f_equal.
  destruct x, y, z. unfold xor_byte.
  f_equal; match goal with |- xorb (xorb ?p ?r) (xorb ?q ?r) = _ => destruct p, q, r; reflexivity end.
Qed.

(** Two plaintexts of the same length encrypted under the same password at
    the same millisecond with the same two random octets (all three texts
    being ones that can be encoded as UTF-8) get the same nonce and the same
    key stream: the xor of the two cipher texts is the xor of the two
    plaintexts. *)
Theorem aes_ctr_same_nonce_leaks_xor now rnd m1 m2 password :
  wf_str m1 -> wf_str m2 -> wf_str password ->
  length (utf8_encode m1) = length (utf8_encode m2) ->
  exists c1 c2 nonce ct1 ct2,
    AesCtr.encrypt now rnd m1 password 128 = Some c1
    /\ AesCtr.encrypt now rnd m2 password 128 = Some c2
    /\ Base64.b64decode c1 = Some (nonce ++ ct1)
    /\ Base64.b64decode c2 = Some (nonce ++ ct2)
    /\ length nonce = 8%nat
    /\ xor_bytes ct1 ct2 = xor_bytes (utf8_encode m1) (utf8_encode m2).
Proof.
  intros W1 W2 Wp Hl.
  pose proof (iv_length now (AesCtr.int_from_bytes_little rnd)) as Hiv.
  assert (Hlt : (length (firstn 8 (AesCtr.make_iv now (AesCtr.int_from_bytes_little rnd))) < 16)%nat)
    by (rewrite Hiv; lia).
  pose proof (ctr_crypt_some _ _ (utf8_encode m1) (key_size_ok_128 password) Hlt) as E1.
  pose proof (ctr_crypt_some _ _ (utf8_encode m2) (key_size_ok_128 password) Hlt) as E2.
  eexists _, _, _, _, _.
  rewrite (encrypt_128 now rnd m1 password W1 Wp), (encrypt_128 now rnd m2 password W2 Wp), E1, E2.
  unfold utf8_decode. rewrite !ascii_utf8_valid by apply encode_std_ascii.
  split; [ reflexivity | ]. split; [ reflexivity | ].
  split; [ apply b64decode_encode | ]. split; [ apply b64decode_encode | ].
  split; [ exact Hiv | ].
  rewrite <- Hl. apply xor_bytes_cancel; [ exact Hl | ].
  rewrite keystream_length by (rewrite Hiv; lia).
  pose proof (Nat.div_mod_eq (length (utf8_encode m1) + 15) 16).
  pose proof (Nat.mod_upper_bound (length (utf8_encode m1) + 15) 16). lia.
Qed.

Lemma aes_ctr_same_nonce_witness :
  exists c1 c2 nonce ct1 ct2,
    AesCtr.encrypt 1700000000123 sample_rnd "attack" "k" 128 = Some c1
    /\ AesCtr.encrypt 1700000000123 sample_rnd "defend" "k" 128 = Some c2
    /\ Base64.b64decode c1 = Some (nonce ++ ct1)
    /\ Base64.b64decode c2 = Some (nonce ++ ct2)
    /\ length nonce = 8%nat
    /\ xor_bytes ct1 ct2 = xor_bytes (utf8_encode "attack") (utf8_encode "defend").
Proof.
  exact (aes_ctr_same_nonce_leaks_xor 1700000000123 sample_rnd "attack" "defend" "k"
           eq_refl eq_refl eq_refl eq_refl).
Defined.

(** An envelope whose cipher decrypts to [m] under [k] verifies under [k]
    exactly when its hash field, stripped, is the HMAC of [m] under [k]. *)
Lemma verify_plain_envelope m k c h :
  forallb plain_char (bytes_of_str c) = true ->
  forallb plain_char (bytes_of_str h) = true ->
  AesCtr.decrypt c k 128 = Some m ->
  MySecurity.decrypt_and_verify
    (JStr (Json.dumps (JObj [("cipher"%string, JStr c); ("hash"%string, JStr h)]))) (Some k)
  = if String.eqb (hexlify (HMAC.digest (utf8_encode k) (utf8_encode m))) (strip h)
    then Some m else None.
Proof.
  intros Hc Hh D.
  destruct (decrypt_wf _ _ _ _ D) as [Wm Wk].
  unfold MySecurity.decrypt_and_verify.
  rewrite (dumps_cipher_hash c h Hc Hh), (loads_cipher_hash c h Hc Hh).
  cbn [get_or dict_get String.eqb Ascii.eqb Bool.eqb MySecurity.decrypt].
  rewrite D, (hash_wf m k Wm Wk). rewrite strip_graphic by apply hexlify_graphic.
  destruct (String.eqb _ _); reflexivity.
Qed.

Lemma some_inj {A} (x y : A) : Some x = Some y -> x = y.
Proof. intros H. injection H as H. exact H. Qed.

(** What [AesCtr.encrypt] returns is a text of Base64 characters that
    decrypts to the plaintext under the same password. *)
Lemma encrypt_plain_and_back now rnd m k c :
  wf_str m ->
  AesCtr.encrypt now rnd m k 128 = Some c ->
  forallb plain_char (bytes_of_str c) = true /\ AesCtr.decrypt c k 128 = Some m.
Proof.
  intros Hm Hc.
  pose proof (proj2 (encrypt_wf _ _ _ _ _ _ Hc)) as Hk.
  destruct (aes_ctr_roundtrip now rnd m k k Hm Hk Hk eq_refl) as (ct & E & D).
  rewrite E in Hc. apply some_inj in Hc. subst c. split; [ | exact D ].
  rewrite bytes_str_inv. apply encode_std_plain.
Qed.

Lemma verify_envelope now rnd m k c h :
  wf_str m ->
  AesCtr.encrypt now rnd m k 128 = Some c ->
  forallb plain_char (bytes_of_str h) = true ->
  MySecurity.decrypt_and_verify
    (JStr (Json.dumps (JObj [("cipher"%string, JStr c); ("hash"%string, JStr h)]))) (Some k)
  = if String.eqb (hexlify (HMAC.digest (utf8_encode k) (utf8_encode m))) (strip h)
    then Some m else None.
Proof.
  intros Hm Hc Hh.
  destruct (encrypt_plain_and_back now rnd m k c Hm Hc) as [Hp D].
  exact (verify_plain_envelope m k c h Hp Hh D).
Qed.

(** An envelope of [encrypt_and_sign] whose hash has been replaced by
    another text is rejected: [decrypt_and_verify] returns [None] although
    the cipher itself decrypts. *)
Theorem tampered_hash_is_rejected now rnd m k c h :
  wf_str m ->
  AesCtr.encrypt now rnd m k 128 = Some c ->
  forallb plain_char (bytes_of_str h) = true ->
  String.eqb (hexlify (HMAC.digest (utf8_encode k) (utf8_encode m))) (strip h) = false ->
  MySecurity.decrypt (JStr c) (Some k) = Some m
  /\ MySecurity.decrypt_and_verify
       (JStr (Json.dumps (JObj [("cipher"%string, JStr c); ("hash"%string, JStr h)]))) (Some k)
     = None.
Proof.
  intros Hm Hc Hh Hne. split.
  - exact (proj2 (encrypt_plain_and_back now rnd m k c Hm Hc)).
  - rewrite (verify_envelope now rnd m k c h Hm Hc Hh), Hne. reflexivity.
Qed.

Lemma tampered_hash_witness :
  exists c,
    AesCtr.encrypt 1700000000123 sample_rnd "hello" key_abc 128 = Some c
    /\ MySecurity.decrypt_and_verify
         (JStr (Json.dumps (JObj [("cipher"%string, JStr c); ("hash"%string, JStr "00")])))
         (Some key_abc) = None.
Proof.
  eexists. split; [ vm_compute; reflexivity | ].
  assert (Hw : wf_str "hello") by (vm_compute; reflexivity).
  assert (He : AesCtr.encrypt 1700000000123 sample_rnd "hello" key_abc 128
               = Some "ewAHCQDxU2XrnppdwQ=="%string) by (vm_compute; reflexivity).
  assert (Hn : String.eqb (hexlify (HMAC.digest (utf8_encode key_abc) (utf8_encode "hello")))
                          (strip "00") = false) by (vm_compute; reflexivity).
  pose proof (tampered_hash_is_rejected 1700000000123 sample_rnd "hello" key_abc
                "ewAHCQDxU2XrnppdwQ==" "00" Hw He eq_refl Hn) as H.
  destruct H as [_ H]. exact H.
Defined.

(* ================================================================== *)
(** * The blocking password request *)

Lemma only_clock_sleep w w' ms : only_clock w w' -> only_clock w (W.sleep ms w').
Proof.
  intros [-> | [t ->]]; right; eexists; reflexivity.
Qed.

Lemma only_clock_trans w w' w'' : only_clock w w' -> only_clock w' w'' -> only_clock w w''.
Proof.
  intros [-> | [t ->]] [-> | [t' ->]]; try (left; reflexivity); right; eexists; reflexivity.
Qed.

(** The pull that [wait_for_password_reply] makes passes a plain dict for
    the receive configuration, and comes back empty-handed. *)
Lemma receive_dict d self w :
  AgentConnection.receive (RcDict d) self w = (None, self, w).
Proof.
  unfold AgentConnection.receive. destruct (negb (AgentConnection.is_ready self)); reflexivity.
Qed.

Lemma poll_never_accepts rounds : forall deadline poll_interval an pk ct rid self w,
  exists w',
    PasswordUtils.poll AgentConnection.receive AgentConnection._channel_api
                       AgentConnection.set__channel_api rounds deadline poll_interval
                       an pk ct rid self w = (false, self, w')
    /\ only_clock w w'.
Proof.
  induction rounds as [ | n IH ]; intros; cbn [PasswordUtils.poll].
  - exists w. split; [ reflexivity | left; reflexivity ].
  - destruct (negb (now w <? deadline)).
    + exists w. split; [ reflexivity | left; reflexivity ].
    + rewrite receive_dict.
      destruct (IH deadline poll_interval an pk ct rid self (W.sleep poll_interval w))
        as (w' & E & Hc).
      exists w'. split; [ exact E | ].
      eapply only_clock_trans; [ | exact Hc ]. right. eexists. reflexivity.
Qed.

Lemma wait_never_succeeds an pk ct rid timeout_seconds poll_interval self w :
  exists w',
    PasswordUtils.wait_for_password_reply AgentConnection.receive AgentConnection._channel_api
      AgentConnection.set__channel_api an pk ct rid timeout_seconds poll_interval self w
    = (false, self, w')
    /\ only_clock w w'.
Proof. unfold PasswordUtils.wait_for_password_reply. apply poll_never_accepts. Qed.

Lemma send_wire api w msg to sid encrypted event_type ephemeral :
  exists r,
    wire (snd (MessagingChannelApi.send api w msg to sid encrypted event_type ephemeral))
    = wire w ++ [r]
    /\ path r = "/push"%string.
Proof.
  unfold MessagingChannelApi.send.
  destruct encrypted; cbn [W.draw HttpClient.request];
    (match goal with
     | |- context [server ?w0 ?l ?r] => exists r; destruct (server w0 l r) as [ txt | | ]
     end;
     [ destruct (Json.loads txt) as [ [ ] | ] | | ]; split; reflexivity).
Qed.

Lemma only_clock_wire w w' : only_clock w w' -> wire w' = wire w.
Proof. intros [-> | [t ->]]; reflexivity. Qed.

(** [request_password] returns [True] only when the password is known
    already: otherwise it sends its request, waits in vain (the pull of the
    wait never returns an event) and returns [False], the connection being
    as before but for the pending key and request id, which are cleared;
    one request at most has gone out, the push of the password request. *)
Theorem request_password_only_when_known self w maybe_channel_name timeout_seconds :
  fst (fst (AgentConnection.request_password self w maybe_channel_name timeout_seconds))
  = AgentConnection.is_ready self && truthy (AgentConnection._session_id self)
    && negb (is_none (AgentConnection._channel_password self))
  /\ (AgentConnection.is_ready self = true ->
      truthy (AgentConnection._session_id self) = true ->
      AgentConnection._channel_password self = JNull ->
      snd (fst (AgentConnection.request_password self w maybe_channel_name timeout_seconds))
      = AgentConnection.set__pending_request_id None
          (AgentConnection.set__pending_private_key None self)
      /\ (wire (snd (AgentConnection.request_password self w maybe_channel_name timeout_seconds))
          = wire w
          \/ exists r,
               wire (snd (AgentConnection.request_password self w maybe_channel_name
                                                           timeout_seconds))
               = wire w ++ [r]
               /\ path r = "/push"%string)).
Proof.
  unfold AgentConnection.request_password.
  destruct (AgentConnection.is_ready self) eqn:Hr; cbn [negb orb andb];
    [ | split; [ reflexivity | discriminate ] ].
  destruct (truthy (AgentConnection._session_id self)) eqn:Hs; cbn [negb orb andb];
    [ | split; [ reflexivity | discriminate ] ].
  destruct (is_none (AgentConnection._channel_password self)) eqn:Hp; cbn [negb];
    [ | split; [ reflexivity | intros _ _ E; rewrite E in Hp; discriminate ] ].
  unfold RSA.rsa_generate. cbn [W.draw].
  destruct (rsa_keygen _ _) as [ [priv_key pub_pem] | ].
  - match goal with
    | |- context [MessagingChannelApi.send ?a ?w0 ?m ?t ?s ?e ?ty ?ep] =>
        destruct (send_wire a w0 m t s e ty ep) as (r & Hw & Hpath);
        destruct (MessagingChannelApi.send a w0 m t s e ty ep) as [sent w1]
    end.
    match goal with
    | |- context [PasswordUtils.wait_for_password_reply _ _ _ ?an ?pk ?ct ?rid ?ts ?pi ?st w1] =>
        destruct (wait_never_succeeds an pk ct rid ts pi st w1) as (w2 & -> & Hc)
    end.
    cbn [fst snd]. split; [ reflexivity | ]. intros _ _ _. split; [ reflexivity | ].
    right. exists r. rewrite (only_clock_wire _ _ Hc). split; [ exact Hw | exact Hpath ].
  - cbn [fst snd]. split; [ reflexivity | ]. intros _ _ _. split; [ reflexivity | ].
    left. reflexivity.
Qed.

(* ================================================================== *)
(** * What a pull leaves alone *)

Lemma same_session_refl self : same_session self self.
Proof. repeat split. Qed.

Lemma same_session_trans a b c : same_session a b -> same_session b c -> same_session a c.
Proof.
  unfold same_session. intros (H1 & H2 & H3 & H4 & H5 & H6 & H7) (G1 & G2 & G3 & G4 & G5 & G6 & G7).
  repeat split; congruence.
Qed.

Lemma handle_password_reply_same_session self w ev :
  same_session self (AgentConnection._handle_password_reply self w ev).
Proof.
  unfold AgentConnection._handle_password_reply.
  destruct (AgentConnection._pending_private_key self) as [ priv | ]; [ | apply same_session_refl ].
  destruct (negb (truthy _)); [ apply same_session_refl | ].
  destruct (negb (truthy _)); [ apply same_session_refl | ].
  destruct (RSA.rsa_decrypt _ _ _) as [ dec | ]; [ | apply same_session_refl ].
  destruct (PasswordUtils.read_reply dec) as [channel_name channel_password].
  destruct (truthy channel_name && _);
    (match goal with
     | |- context [if ?c then _ else _] => destruct c
     end;
     [ match goal with
       | |- context [MySecurity.derive_channel_secret_dyn ?a ?b] =>
           destruct (MySecurity.derive_channel_secret_dyn a b)
       end | ]);
    destruct self; repeat split.
Qed.

Lemma auto_event_same_session self w ev :
  same_session self (fst (AgentConnection.auto_event self w ev)).
Proof.
  unfold AgentConnection.auto_event.
  destruct (eq_str _ "password-request").
  - destruct (AgentConnection.newer self _) as [ [ | ] | ]; apply same_session_refl.
  - destruct (eq_str _ "password-reply"); [ | apply same_session_refl ].
    destruct (AgentConnection.newer self _) as [ [ | ] | ]; try apply same_session_refl.
    destruct (py_eq _ _); [ apply handle_password_reply_same_session | apply same_session_refl ].
Qed.

Lemma check_auto_events_same_session events : forall self w,
  same_session self (fst (AgentConnection._check_auto_events self w events)).
Proof.
  induction events as [ | ev r IH ]; intros self w; cbn [AgentConnection._check_auto_events].
  - apply same_session_refl.
  - pose proof (auto_event_same_session self w ev) as H.
    destruct (AgentConnection.auto_event self w ev) as [self1 w1]. cbn [fst] in H.
    eapply same_session_trans; [ exact H | apply IH ].
Qed.

Lemma receive_keeps_session_aux offset_range self w :
  same_session self (snd (fst (AgentConnection.receive offset_range self w))).
Proof.
  unfold AgentConnection.receive.
  destruct (negb (AgentConnection.is_ready self)); [ apply same_session_refl | ].
  destruct (MessagingChannelApi.receive _ _ _ _) as [ [ resp | ] w1 ]; [ | apply same_session_refl ].
  pose proof (check_auto_events_same_session
                (map (AgentConnection._verify_and_decrypt_message self)
                     (EventMessageResult.events resp)) self w1) as H.
  destruct (AgentConnection._check_auto_events _ _ _) as [self1 w2]. exact H.
Qed.

Lemma same_session_ready self self' :
  same_session self self' -> AgentConnection.is_ready self' = AgentConnection.is_ready self.
Proof.
  intros (H1 & H2 & _). unfold AgentConnection.is_ready. rewrite H1, H2. reflexivity.
Qed.

(** [receive] never ends or changes the session: whatever the server
    answers, the session id, the readiness, the name and connection time of
    the agent and its keys are those it started with. *)
Theorem receive_keeps_session offset_range self w :
  same_session self (snd (fst (AgentConnection.receive offset_range self w)))
  /\ AgentConnection.is_ready (snd (fst (AgentConnection.receive offset_range self w)))
     = AgentConnection.is_ready self.
Proof.
  pose proof (receive_keeps_session_aux offset_range self w) as H.
  split; [ exact H | apply same_session_ready; exact H ].
Qed.

(* ================================================================== *)
(** * What reaches the event handler *)

Ltac split_matches :=
  repeat match goal with
         | |- context [match ?x with _ => _ end] =>
             lazymatch x with
             | context [match _ with _ => _ end] => fail
             | _ => destruct x
             end
         end.

Lemma send_delivered api w msg to sid encrypted event_type ephemeral :
  delivered (snd (MessagingChannelApi.send api w msg to sid encrypted event_type ephemeral))
  = delivered w.
Proof.
  unfold MessagingChannelApi.send, HttpClient.request, W.draw.
  destruct encrypted; split_matches; reflexivity.
Qed.

Lemma api_receive_delivered api w sid rc :
  delivered (snd (MessagingChannelApi.receive api w sid rc)) = delivered w.
Proof.
  unfold MessagingChannelApi.receive, HttpClient.request.
  destruct rc; [ | reflexivity ]. split_matches; reflexivity.
Qed.

Lemma handle_password_request_delivered self w ev :
  delivered (AgentConnection._handle_password_request self w ev) = delivered w.
Proof.
  unfold AgentConnection._handle_password_request.
  match goal with |- context [if ?c then _ else _] => destruct c end; [ | reflexivity ].
  unfold RSA.rsa_encrypt.
  match goal with
  | |- context [match ?p with JStr _ => _ | _ => _ end] => destruct p
  end; try reflexivity.
  destruct (str_encode _); [ | reflexivity ].
  cbn [W.draw]. destruct (oaep_encrypt _ _ _ _); [ | reflexivity ].
  rewrite send_delivered. reflexivity.
Qed.

Lemma auto_event_delivered self w ev :
  delivered (snd (AgentConnection.auto_event self w ev)) = delivered w.
Proof.
  unfold AgentConnection.auto_event.
  destruct (eq_str _ "password-request").
  - destruct (AgentConnection.newer self _) as [ [ | ] | ]; try reflexivity.
    apply handle_password_request_delivered.
  - destruct (eq_str _ "password-reply"); [ | reflexivity ].
    destruct (AgentConnection.newer self _) as [ [ | ] | ]; try reflexivity.
    destruct (py_eq _ _); reflexivity.
Qed.

Lemma check_auto_events_delivered events : forall self w,
  delivered (snd (AgentConnection._check_auto_events self w events)) = delivered w.
Proof.
  induction events as [ | ev r IH ]; intros self w; cbn [AgentConnection._check_auto_events].
  - reflexivity.
  - pose proof (auto_event_delivered self w ev) as H.
    destruct (AgentConnection.auto_event self w ev) as [self1 w1]. cbn [snd] in H.
    rewrite IH. exact H.
Qed.

Lemma receive_delivered rc self w :
  delivered (snd (AgentConnection.receive rc self w)) = delivered w.
Proof.
  unfold AgentConnection.receive.
  destruct (negb (AgentConnection.is_ready self)); [ reflexivity | ].
  pose proof (api_receive_delivered (AgentConnection._channel_api self) w
                (AgentConnection._session_id self) rc) as H.
  destruct (MessagingChannelApi.receive _ _ _ _) as [ [ resp | ] w1 ]; cbn [snd] in H; [ | exact H ].
  pose proof (check_auto_events_delivered
                (map (AgentConnection._verify_and_decrypt_message self)
                     (EventMessageResult.events resp)) self w1) as G.
  destruct (AgentConnection._check_auto_events _ _ _) as [self1 w2]. cbn [snd] in *.
  congruence.
Qed.

Lemma pump_round_delivers o self w :
  same_session self (snd (fst (AgentConnection.pump_round o self w)))
  /\ exists batches,
       delivered (snd (AgentConnection.pump_round o self w)) = delivered w ++ batches
       /\ Forall (fun b => b <> []) batches.
Proof.
  unfold AgentConnection.pump_round.
  pose proof (receive_keeps_session_aux (RcObj o) self w) as Hs.
  pose proof (receive_delivered (RcObj o) self w) as Hd.
  destruct (AgentConnection.receive (RcObj o) self w) as [ [ [ resp | ] self1 ] w1 ];
    cbn [fst snd] in *.
  - split.
    + destruct (EventMessageResult.events resp); exact Hs.
    + destruct (EventMessageResult.ephemeralEvents resp) as [ [ | e es ] | ];
        destruct (EventMessageResult.events resp) as [ | ev evs ];
        cbn [fst snd delivered W.sleep W.set_now AgentConnection.on_message_events W.set_delivered];
        rewrite Hd;
        first [ exists []; split; [ symmetry; apply app_nil_r | constructor ]
              | eexists [_]; split; [ reflexivity | repeat constructor; discriminate ]
              | eexists [_; _]; split; [ rewrite <- app_assoc; reflexivity
                                       | repeat constructor; discriminate ] ].
  - split; [ exact Hs | ]. exists []. split; [ rewrite app_nil_r; exact Hd | constructor ].
Qed.

(** However many turns the receive pump takes and whatever the server
    answers, it only adds batches to what the handler has been given, never
    hands it an empty batch, and leaves the session of the connection as it
    was. *)
Theorem pump_delivers_nonempty_batches rounds : forall offset_range self w,
  same_session self (snd (fst (AgentConnection.pump rounds offset_range self w)))
  /\ exists batches,
       delivered (snd (AgentConnection.pump rounds offset_range self w))
       = delivered w ++ batches
       /\ Forall (fun b => b <> []) batches.
Proof.
  induction rounds as [ | n IH ]; intros o self w; cbn [AgentConnection.pump].
  - split; [ apply same_session_refl | ]. exists []. split; [ symmetry; apply app_nil_r | constructor ].
  - destruct (AgentConnection.is_ready self).
    + destruct (pump_round_delivers o self w) as (Hs & b1 & Hd & Hb).
      destruct (AgentConnection.pump_round o self w) as [ [o1 self1] w1 ]. cbn [fst snd] in *.
      destruct (IH o1 self1 w1) as (Hs' & b2 & Hd' & Hb').
      split; [ eapply same_session_trans; eassumption | ].
      exists (b1 ++ b2). split.
      * rewrite Hd', Hd, app_assoc. reflexivity.
      * apply Forall_app. split; assumption.
    + split; [ apply same_session_refl | ]. exists []. split; [ symmetry; apply app_nil_r | constructor ].
Qed.

(* ================================================================== *)
(** * Leaving and sending *)

Lemma api_disconnect_effects api w sid :
  MessagingChannelApi.udp_closed (snd (fst (MessagingChannelApi.disconnect api w sid))) = true
  /\ wire (snd (MessagingChannelApi.disconnect api w sid))
     = wire w ++ [mkRequest "/disconnect" (JObj [("sessionId"%string, sid)]) 30].
Proof.
  unfold MessagingChannelApi.disconnect, HttpClient.request.
  destruct (server w (wire w) _) as [ txt | | ]; [ destruct (Json.loads txt) | | ];
    split; reflexivity.
Qed.

(** A [disconnect()] that returns [False] leaves the session, the readiness
    and the keys of the connection as they were.  On a connection that was
    not ready nothing happens at all; on a READY one the request has gone
    out and the UDP socket is closed all the same, so the connection stays
    READY without its socket. *)
Theorem disconnect_refused_stays_connected self w self' w' :
  AgentConnection.disconnect self w = (false, self', w') ->
  same_session self self'
  /\ AgentConnection.is_ready self' = AgentConnection.is_ready self
  /\ AgentConnection.channel_secret self' = AgentConnection.channel_secret self
  /\ (AgentConnection.is_ready self = false -> self' = self /\ w' = w)
  /\ (AgentConnection.is_ready self = true ->
      MessagingChannelApi.udp_closed (AgentConnection._channel_api self') = true
      /\ wire w' = wire w ++ [mkRequest "/disconnect"
                                (JObj [("sessionId"%string, AgentConnection._session_id self)]) 30]).
Proof.
  unfold AgentConnection.disconnect.
  destruct (AgentConnection.is_ready self) eqn:Hr; cbn [negb].
  - pose proof (api_disconnect_effects (AgentConnection._channel_api self) w
                  (AgentConnection._session_id self)) as [Hu Hw].
    destruct (MessagingChannelApi.disconnect _ _ _) as [ [ result api ] w1 ]. cbn [fst snd] in *.
    destruct result; [ discriminate | ].
    intros H. injection H as <- <-.
    assert (Hs : same_session self (AgentConnection.set__channel_api api self))
      by (destruct self; repeat split).
    split; [ exact Hs | ].
    split; [ rewrite (same_session_ready _ _ Hs); exact Hr | ].
    split; [ destruct self; reflexivity | ].
    split; [ discriminate | ].
    intros _. split; [ destruct self; exact Hu | exact Hw ].
  - intros H. injection H as <- <-.
    split; [ apply same_session_refl | ]. split; [ exact Hr | ]. split; [ reflexivity | ].
    split; [ intros _; split; reflexivity | discriminate ].
Qed.

Lemma disconnect_refused_witness :
  AgentConnection.is_ready
    (snd (fst (AgentConnection.disconnect keyed_conn (mock_world refusing_server)))) = true
  /\ MessagingChannelApi.udp_closed
       (AgentConnection._channel_api
          (snd (fst (AgentConnection.disconnect keyed_conn (mock_world refusing_server))))) = true.
Proof.
  destruct (AgentConnection.disconnect keyed_conn (mock_world refusing_server))
    as [ [ result self' ] w' ] eqn:E.
  assert (Hres : result = false).
  { apply (f_equal (fun x => fst (fst x))) in E. vm_compute in E. symmetry. exact E. }
  subst result.
  destruct (disconnect_refused_stays_connected _ _ _ _ E) as (_ & Hr & _ & _ & Hu).
  cbn [fst snd]. split; [ rewrite Hr; reflexivity | apply Hu; reflexivity ].
Defined.

(** What [encrypt_and_sign] makes under a key, [decrypt_and_verify] reads
    back under that key. *)
Lemma sign_then_verify now rnd m k :
  wf_str m -> wf_str k ->
  MySecurity.decrypt_and_verify (JStr (MySecurity.encrypt_and_sign now rnd m (Some k))) (Some k)
  = Some m.
Proof.
  intros Hm Hk.
  destruct (aes_ctr_roundtrip now rnd m k k Hm Hk Hk eq_refl) as (ct & E & D).
  assert (Hp : forallb plain_char (bytes_of_str (str_of_bytes (Base64.b64encode
                 (firstn 8 (AesCtr.make_iv now (AesCtr.int_from_bytes_little rnd)) ++ ct)))) = true)
    by (rewrite bytes_str_inv; apply encode_std_plain).
  assert (Hh : forallb plain_char
                 (bytes_of_str (hexlify (HMAC.digest (utf8_encode k) (utf8_encode m)))) = true)
    by apply graphic_plain, hexlify_graphic.
  unfold MySecurity.encrypt_and_sign, MySecurity.encrypt. rewrite E, (hash_wf m k Hm Hk).
  cbn [of_optstr].
  rewrite (verify_plain_envelope m k _ _ Hp Hh D).
  rewrite strip_graphic by apply hexlify_graphic. rewrite String.eqb_refl. reflexivity.
Qed.

(** On a READY connection that holds a channel secret, as its API does,
    the secret and the message being texts that can be encoded as UTF-8,
    [send_message] sends one push whose content is not the message but an
    envelope, marked as encrypted, that [decrypt_and_verify] turns back into
    the message under the secret; a channel API that holds the same secret
    delivers an event with that content as the message in clear. *)
Theorem send_message_is_read_back self w msg d as_filter_regex k :
  AgentConnection.is_ready self = true ->
  AgentConnection.channel_secret self = Some k ->
  MessagingChannelApi.channel_secret (AgentConnection._channel_api self) = Some k ->
  String.eqb k EmptyString = false ->
  wf_str k ->
  wf_str msg ->
  exists content,
    (exists sent, fst (AgentConnection.send_message self w msg (JStr d) as_filter_regex) = Ret sent)
    /\ wire (snd (AgentConnection.send_message self w msg (JStr d) as_filter_regex))
       = wire w ++ [mkRequest "/push" (JObj
                [ ("type"%string, JStr "chat-text");
                  ("to"%string, JStr (if as_filter_regex then d else AgentConnection.re_escape d));
                  ("encrypted"%string, JBool true);
                  ("content"%string, JStr content);
                  ("sessionId"%string, AgentConnection._session_id self) ]) 30]
    /\ MySecurity.decrypt_and_verify (JStr content) (Some k) = Some msg
    /\ forall api item,
         MessagingChannelApi.channel_secret api = Some k ->
         truthy (get item "encrypted") = true ->
         get_or item "content" (JStr EmptyString) = JStr content ->
         MessagingChannelApi._verify_and_decrypt_message api item
         = dict_set "encrypted" (JBool false) (dict_set "content" (JStr msg) item).
Proof.
  intros Hr Hs Ha Hk Hkwf Hm.
  exists (MySecurity.encrypt_and_sign (now w) (urandom w (draws w)) msg (Some k)).
  unfold AgentConnection.send_message. rewrite Hr, Hs, Hk. cbn [negb].
  unfold MessagingChannelApi.send, HttpClient.request, W.draw, MessagingChannelApi._url. rewrite Ha.
  cbn [now urandom W.set_draws wire server W.set_wire].
  pose proof (sign_then_verify (now w) (urandom w (draws w)) msg k Hm Hkwf) as Hv.
  set (content := MySecurity.encrypt_and_sign (now w) (urandom w (draws w)) msg (Some k)) in *.
  clearbody content.
  split; [ | split; [ | split ] ].
  - destruct as_filter_regex;
      (match goal with
       | |- context [server w (wire w) ?r] => destruct (server w (wire w) r) as [ txt | | ]
       end; [ destruct (Json.loads txt) as [ [ ] | ] | | ]; eexists; reflexivity).
  - destruct as_filter_regex;
      (match goal with
       | |- context [server w (wire w) ?r] => destruct (server w (wire w) r) as [ txt | | ]
       end; [ destruct (Json.loads txt) as [ [ ] | ] | | ]; reflexivity).
  - exact Hv.
  - intros api item Hsec He Hc.
    unfold MessagingChannelApi._verify_and_decrypt_message. rewrite He, Hc, Hsec, Hv. reflexivity.
Qed.

Lemma send_message_is_read_back_witness :
  exists content,
    wire (snd (AgentConnection.send_message secret_conn (mock_world ok_server) "hello"
                                            (JStr "*") true))
    = [mkRequest "/push" (JObj
                [ ("type"%string, JStr "chat-text");
                  ("to"%string, JStr "*");
                  ("encrypted"%string, JBool true);
                  ("content"%string, JStr content);
                  ("sessionId"%string, JStr "S1") ]) 30]
    /\ MySecurity.decrypt_and_verify (JStr content) (Some "channel_abc"%string) = Some "hello"%string.
Proof.
  assert (Hw : wf_str "hello") by (vm_compute; reflexivity).
  destruct (send_message_is_read_back secret_conn (mock_world ok_server) "hello" "*" true
              "channel_abc" eq_refl eq_refl eq_refl eq_refl eq_refl Hw)
    as (content & _ & Hwire & Hv & _).
  exists content. split; [ exact Hwire | exact Hv ].
Defined.

(* ================================================================== *)
(** * What [connect] puts on the wire *)

Lemma truthy_str s : String.eqb s EmptyString = false -> truthy (JStr s) = true.
Proof. intros H. cbn [truthy]. rewrite H. reflexivity. Qed.

Lemma hexlify_digest_nonempty k m :
  String.eqb (hexlify (HMAC.digest k m)) EmptyString = false.
Proof.
  pose proof (hexlify_length (HMAC.digest k m)) as H. rewrite hmac_digest_length in H.
  destruct (hexlify (HMAC.digest k m)); [ discriminate | reflexivity ].
Qed.

Lemma create_channel_wire w name password :
  exists cid,
    MessagingChannelApi._create_channel w name password
    = (cid, W.set_wire (wire w ++ [mkRequest "/create-channel"
                                     (JObj [("channelName"%string, name);
                                            ("channelPassword"%string, password)]) 30]) w).
Proof.
  unfold MessagingChannelApi._create_channel, HttpClient.request.
  split_matches; eexists; reflexivity.
Qed.

Ltac wire_done :=
  cbn [snd fst wire W.set_wire HttpClient.request MessagingChannelApi._url
       MessagingChannelApi.channel_secret MessagingChannelApi.set_channel_secret
       MessagingChannelApi.set_ready_state MessagingChannelApi.set_session_id
       MessagingChannelApi.set_channel_state MessagingChannelApi.set_default_poll_source];
  first [ eexists [_];
          (split; [ rewrite <- ?app_assoc; reflexivity | ]);
          (split; [ left; reflexivity | ]);
          (split; [ repeat constructor | reflexivity ])
        | eexists [_; _];
          (split; [ rewrite <- ?app_assoc; reflexivity | ]);
          (split; [ right; reflexivity | ]);
          (split; [ repeat constructor | reflexivity ]) ].

(** [MessagingChannelApi.connect] with a channel name and password that
    can be encoded as UTF-8 sends one or two requests, [create-channel]
    unless a channel id is given and [connect]; each carries the channel
    name and, as [channelPassword], the HMAC of the password under the
    derived secret, not the password; and the secret is stored on the API
    whatever the server answers. *)
Theorem connect_sends_hashed_password api w n p agent_name session_id channel_id
    enable_webrtc_relay api_key_scope poll_source :
  String.eqb n EmptyString = false ->
  String.eqb p EmptyString = false ->
  wf_str n -> wf_str p ->
  exists reqs,
    wire (snd (MessagingChannelApi.connect api w (JStr n) (JStr p) agent_name session_id
                 channel_id enable_webrtc_relay api_key_scope poll_source))
    = wire w ++ reqs
    /\ (length reqs = 1 \/ length reqs = 2)%nat
    /\ Forall (fun r =>
                 body_field r "channelName" = JStr n
                 /\ body_field r "channelPassword"
                    = JStr (hexlify (HMAC.digest
                                       (utf8_encode (MySecurity.derive_channel_secret n p))
                                       (utf8_encode p)))) reqs
    /\ MessagingChannelApi.channel_secret
         (snd (fst (MessagingChannelApi.connect api w (JStr n) (JStr p) agent_name session_id
                      channel_id enable_webrtc_relay api_key_scope poll_source)))
       = Some (MySecurity.derive_channel_secret n p).
Proof.
  intros Hn Hp Wn Wp. unfold MessagingChannelApi.connect.
  rewrite (truthy_str n Hn), (truthy_str p Hp), (derive_channel_secret_dyn_wf n p Wn Wp).
  cbn [andb option_map MessagingChannelApi.channel_secret MessagingChannelApi.set_channel_secret].
  rewrite (hash_wf p _ Wp (derive_channel_secret_wf n p)).
  cbn [of_optstr].
  set (secret := MySecurity.derive_channel_secret n p).
  pose proof (hexlify_digest_nonempty (utf8_encode secret) (utf8_encode p)) as HH.
  set (H := hexlify (HMAC.digest (utf8_encode secret) (utf8_encode p))) in *.
  clearbody H. clearbody secret.
  rewrite (truthy_str H HH).
  destruct (truthy channel_id) eqn:Hc.
  - rewrite Hc. unfold HttpClient.request. split_matches; wire_done.
  - destruct (create_channel_wire w (JStr n) (JStr H)) as [cid ->].
    unfold HttpClient.request. split_matches; wire_done.
Qed.

Lemma connect_sends_hashed_password_witness :
  exists reqs,
    wire (snd (MessagingChannelApi.connect (MessagingChannelApi.init "http://host")
                 (mock_world connect_server) (JStr "default") (JStr "default") (JStr "a1")
                 JNull JNull (JBool false) (JStr "private") (JStr "AUTO")))
    = wire (mock_world connect_server) ++ reqs
    /\ (length reqs = 1 \/ length reqs = 2)%nat
    /\ Forall (fun r =>
                 body_field r "channelName" = JStr "default"
                 /\ body_field r "channelPassword"
                    = JStr (hexlify (HMAC.digest
                                       (utf8_encode (MySecurity.derive_channel_secret "default" "default"))
                                       (utf8_encode "default")))) reqs
    /\ MessagingChannelApi.channel_secret
         (snd (fst (MessagingChannelApi.connect (MessagingChannelApi.init "http://host")
                 (mock_world connect_server) (JStr "default") (JStr "default") (JStr "a1")
                 JNull JNull (JBool false) (JStr "private") (JStr "AUTO"))))
       = Some (MySecurity.derive_channel_secret "default" "default").
Proof.
  exact (connect_sends_hashed_password (MessagingChannelApi.init "http://host")
           (mock_world connect_server) "default" "default" (JStr "a1")
           JNull JNull (JBool false) (JStr "private") (JStr "AUTO")
           eq_refl eq_refl eq_refl eq_refl).
Defined.

(* ================================================================== *)
(** * The outcome of [connect] *)

(** What [request_password] does to the connection: nothing, or it clears
    the pending key and request id. *)
Lemma request_password_state self w maybe_channel_name timeout_seconds :
  snd (fst (AgentConnection.request_password self w maybe_channel_name timeout_seconds)) = self
  \/ snd (fst (AgentConnection.request_password self w maybe_channel_name timeout_seconds))
     = AgentConnection.set__pending_request_id None
         (AgentConnection.set__pending_private_key None self).
Proof.
  unfold AgentConnection.request_password.
  destruct (negb (AgentConnection.is_ready self) || _); [ left; reflexivity | ].
  destruct (negb (is_none _)); [ left; reflexivity | ].
  unfold RSA.rsa_generate. cbn [W.draw].
  destruct (rsa_keygen _ _) as [ [priv_key pub_pem] | ]; [ | right; reflexivity ].
  match goal with
  | |- context [MessagingChannelApi.send ?a ?w0 ?m ?t ?s ?e ?ty ?ep] =>
      destruct (MessagingChannelApi.send a w0 m t s e ty ep) as [sent w1]
  end.
  match goal with
  | |- context [PasswordUtils.wait_for_password_reply _ _ _ ?an ?pk ?ct ?rid ?ts ?pi ?st w1] =>
      destruct (wait_never_succeeds an pk ct rid ts pi st w1) as (w2 & -> & Hc)
  end.
  right. reflexivity.
Qed.

Ltac conn_fields :=
  cbn [AgentConnection.set_connection_time AgentConnection.set_agent_name
       AgentConnection.set_channel_id AgentConnection.set_channel_secret
       AgentConnection.set_initial_receive_config AgentConnection.set_current_receive_config
       AgentConnection.set__channel_api AgentConnection.set__check_last_session
       AgentConnection.set_enable_webrtc_relay AgentConnection.set__session_id
       AgentConnection.set__ready_state AgentConnection.set__channel_name
       AgentConnection.set__channel_password AgentConnection.set__receive_thread
       AgentConnection.set__key_pair AgentConnection.set__pending_private_key
       AgentConnection.set__pending_request_id AgentConnection.set_password_request_handler
       AgentConnection.api_set_secret AgentConnection.api_set_password
       AgentConnection.connection_time AgentConnection.agent_name AgentConnection.channel_id
       AgentConnection.channel_secret AgentConnection.initial_receive_config
       AgentConnection.current_receive_config AgentConnection._channel_api
       AgentConnection._check_last_session AgentConnection.enable_webrtc_relay
       AgentConnection._session_id AgentConnection._ready_state AgentConnection._channel_name
       AgentConnection._channel_password AgentConnection._receive_thread
       AgentConnection._key_pair AgentConnection._pending_private_key
       AgentConnection._pending_request_id AgentConnection.password_request_handler].

Ltac rp_step :=
  match goal with
  | |- context [AgentConnection.request_password ?s ?w0 ?c ?t] =>
      lazymatch s with
      | context [match _ with _ => _ end] => fail
      | _ =>
          let H := fresh "Hrp" in
          pose proof (request_password_state s w0 c t) as H;
          destruct (AgentConnection.request_password s w0 c t) as [ [ ? ? ] ? ];
          cbn [fst snd] in H; destruct H as [H | H]; subst
      end
  end.

Ltac split_step :=
  match goal with
  | |- context [match ?x with _ => _ end] =>
      lazymatch x with
      | context [match _ with _ => _ end] => fail
      | _ => destruct x
      end
  end.

(** When [_connect_internal] returns [True] the connection is READY, with
    a session id, the agent name it was given and both receive
    configurations set; when it returns [False] the ready flag is the one it
    had, so that a connection that was not ready is not ready after a failed
    connect. *)
Theorem connect_outcome_and_readiness self w channel_id channel_name channel_password
    agent_name api_key_scope result self' w' :
  AgentConnection._connect_internal self w channel_id channel_name channel_password
                                    agent_name api_key_scope = (result, self', w') ->
  (result = Ret true ->
   AgentConnection.is_ready self' = true
   /\ truthy (AgentConnection._session_id self') = true
   /\ AgentConnection.agent_name self' = agent_name
   /\ AgentConnection.initial_receive_config self' <> None
   /\ AgentConnection.current_receive_config self' <> None)
  /\ (result = Ret false ->
      AgentConnection._ready_state self' = AgentConnection._ready_state self
      /\ AgentConnection.agent_name self' = agent_name).
Proof.
  unfold AgentConnection._connect_internal.
  destruct (AgentConnection._ready_state self && _);
    [ intros [= <- <- <-]; split; discriminate | ].
  destruct (if is_none (AgentConnection._session_id self) && _ then _ else _) as [ self0 | e ] eqn:EL;
    [ | intros [= <- <- <-]; split; discriminate ].
  assert (HL : AgentConnection._ready_state self0 = AgentConnection._ready_state self).
  { destruct (is_none (AgentConnection._session_id self) && _).
    - destruct (Sess.load_session_id _ _); [ | discriminate ].
      injection EL as <-. destruct self; reflexivity.
    - injection EL as <-. reflexivity. }
  clear EL. revert HL. generalize (AgentConnection._ready_state self). intros ready0 HL.
  destruct (RSA.rsa_generate w) as [kp w0].
  destruct self0.
  conn_fields.
  match goal with
  | |- context [if ?c then MessagingChannelApi.connect ?a1 ?a2 ?a3 ?a4 ?a5 ?a6 ?a7 ?a8 ?a9 ?a10
                else MessagingChannelApi.connect ?b1 ?b2 ?b3 ?b4 ?b5 ?b6 ?b7 ?b8 ?b9 ?b10] =>
      generalize (if c then MessagingChannelApi.connect a1 a2 a3 a4 a5 a6 a7 a8 a9 a10
                  else MessagingChannelApi.connect b1 b2 b3 b4 b5 b6 b7 b8 b9 b10)
  end.
  intros [ [ [sid cidr date state] api ] w1 ].
  cbn [ConnectResponse.sessionId ConnectResponse.channelId ConnectResponse.date
       ConnectResponse.state].
  cbn [AgentConnection._ready_state] in HL.
  destruct (truthy sid) eqn:Ht;
    [ | intros [= <- <- <-]; split; [ discriminate | intros _; split; [ exact HL | reflexivity ] ] ].
  assert (Hn : is_none sid = false) by (destruct sid; [ discriminate Ht | reflexivity .. ]).
  destruct (AgentConnection.configs_of state) as [initial current].
  repeat first [ rp_step | split_step ]; conn_fields;
    intros [= <- <- <-]; (split; [ | discriminate ]); intros _;
    unfold AgentConnection.is_ready; conn_fields; cbn [negb orb];
    rewrite ?Hn, ?Ht; repeat split; first [ reflexivity | discriminate ].
Qed.

Lemma connect_outcome_witness :
  AgentConnection.is_ready
    (snd (fst (AgentConnection._connect_internal (AgentConnection.init "http://host")
                 (mock_world connect_server) (JStr "C1") JNull JNull (JStr "a1") (JStr "private"))))
  = true.
Proof.
  destruct (AgentConnection._connect_internal (AgentConnection.init "http://host")
              (mock_world connect_server) (JStr "C1") JNull JNull (JStr "a1") (JStr "private"))
    as [ [result self'] w' ] eqn:E.
  assert (Hr : result = Ret true).
  { apply (f_equal (fun x => fst (fst x))) in E. cbn [fst] in E. rewrite <- E.
    vm_compute. reflexivity. }
  exact (proj1 (proj1 (connect_outcome_and_readiness _ _ _ _ _ _ _ _ _ _ E) Hr)).
Defined.

(* ================================================================== *)
(** * Sending without a secret *)

Lemma api_send_clear api w msg to sid :
  wire (snd (MessagingChannelApi.send api w msg to sid false None false))
  = wire w ++ [mkRequest "/push" (JObj [ ("type"%string, JStr "chat-text");
                                         ("to"%string, to);
                                         ("encrypted"%string, JBool false);
                                         ("content"%string, JStr msg);
                                         ("sessionId"%string, sid) ]) 30].
Proof.
  unfold MessagingChannelApi.send, HttpClient.request, MessagingChannelApi._url.
  cbn [wire server W.set_wire].
  match goal with
  | |- context [server w (wire w) ?r] => destruct (server w (wire w) r) as [ txt | | ]
  end; [ destruct (Json.loads txt) as [ [ ] | ] | | ]; reflexivity.
Qed.

(** A READY connection that holds no channel secret sends the message
    itself: [send_message] puts one push on the wire whose content is the
    text of the message, flagged as not encrypted. *)
Theorem send_message_without_secret self w msg d as_filter_regex :
  AgentConnection.is_ready self = true ->
  AgentConnection.channel_secret self = None ->
  wire (snd (AgentConnection.send_message self w msg (JStr d) as_filter_regex))
  = wire w ++ [mkRequest "/push" (JObj
                 [ ("type"%string, JStr "chat-text");
                   ("to"%string, JStr (if as_filter_regex then d else AgentConnection.re_escape d));
                   ("encrypted"%string, JBool false);
                   ("content"%string, JStr msg);
                   ("sessionId"%string, AgentConnection._session_id self) ]) 30].
Proof.
  intros Hr Hs. unfold AgentConnection.send_message. rewrite Hr, Hs. cbn [negb].
  destruct as_filter_regex;
    (match goal with
     | |- context [MessagingChannelApi.send ?a ?w0 ?m ?t ?s false None false] =>
         pose proof (api_send_clear a w0 m t s) as H;
         destruct (MessagingChannelApi.send a w0 m t s false None false) as [sent w1]
     end; exact H).
Qed.

Lemma send_message_without_secret_witness :
  wire (snd (AgentConnection.send_message (ready_conn "a1") (mock_world ok_server) "hello"
                                          (JStr "a.b") false))
  = [mkRequest "/push" (JObj [ ("type"%string, JStr "chat-text");
                               ("to"%string, JStr "a\.b");
                               ("encrypted"%string, JBool false);
                               ("content"%string, JStr "hello");
                               ("sessionId"%string, JStr "S1") ]) 30].
Proof.
  exact (send_message_without_secret (ready_conn "a1") (mock_world ok_server) "hello" "a.b" false
           eq_refl eq_refl).
Defined.

(* ================================================================== *)
(** * Connecting by channel id *)

Lemma request_password_secret self w maybe_channel_name timeout_seconds :
  AgentConnection.channel_secret
    (snd (fst (AgentConnection.request_password self w maybe_channel_name timeout_seconds)))
  = AgentConnection.channel_secret self.
Proof.
  destruct (request_password_state self w maybe_channel_name timeout_seconds) as [-> | ->];
    reflexivity.
Qed.

Ltac rp_secret_step :=
  match goal with
  | |- context [AgentConnection.request_password ?s ?w0 ?c ?t] =>
      lazymatch s with
      | context [match _ with _ => _ end] => fail
      | _ =>
          let H := fresh "Hrp" in
          pose proof (request_password_secret s w0 c t) as H;
          destruct (AgentConnection.request_password s w0 c t) as [ [ ? ? ] ? ];
          cbn [fst snd] in H
      end
  end.

(** [connect_with_channel_id] never obtains a channel secret: whatever the
    server answers and whether it succeeds or not, the connection holds
    after it the secret it held before, none on a new connection. *)
Theorem connect_with_channel_id_keeps_secret self w channel_id agent_name maybe_channel_name :
  AgentConnection.channel_secret
    (snd (fst (AgentConnection.connect_with_channel_id self w channel_id agent_name
                                                       maybe_channel_name)))
  = AgentConnection.channel_secret self.
Proof.
  unfold AgentConnection.connect_with_channel_id, AgentConnection._connect_internal.
  destruct (AgentConnection._ready_state self && _); [ reflexivity | ].
  destruct (if is_none (AgentConnection._session_id self) && _ then _ else _) as [ self0 | e ] eqn:EL;
    [ | reflexivity ].
  assert (HL : AgentConnection.channel_secret self0 = AgentConnection.channel_secret self).
  { destruct (is_none (AgentConnection._session_id self) && _).
    - destruct (Sess.load_session_id _ _); [ | discriminate ].
      injection EL as <-. destruct self; reflexivity.
    - injection EL as <-. reflexivity. }
  clear EL. revert HL. generalize (AgentConnection.channel_secret self). intros secret0 HL.
  destruct (RSA.rsa_generate w) as [kp w0].
  destruct self0.
  conn_fields. cbn [AgentConnection.channel_secret] in HL. cbn [is_none negb andb].
  match goal with
  | |- context [if ?c then MessagingChannelApi.connect ?a1 ?a2 ?a3 ?a4 ?a5 ?a6 ?a7 ?a8 ?a9 ?a10
                else MessagingChannelApi.connect ?b1 ?b2 ?b3 ?b4 ?b5 ?b6 ?b7 ?b8 ?b9 ?b10] =>
      generalize (if c then MessagingChannelApi.connect a1 a2 a3 a4 a5 a6 a7 a8 a9 a10
                  else MessagingChannelApi.connect b1 b2 b3 b4 b5 b6 b7 b8 b9 b10)
  end.
  intros [ [ [sid cidr date state] api ] w1 ].
  cbn [ConnectResponse.sessionId ConnectResponse.channelId ConnectResponse.date
       ConnectResponse.state].
  destruct (truthy sid); [ | exact HL ].
  destruct (AgentConnection.configs_of state) as [initial current].
  rewrite !Bool.andb_false_r. conn_fields.
  repeat first [ rp_secret_step | split_step ]; cbn [fst snd]; conn_fields;
    first [ exact HL | rewrite Hrp; conn_fields; exact HL ].
Qed.

(* ================================================================== *)
(** * Answering a password request *)

(** [_handle_password_request] sends nothing, or one [password-reply] push
    addressed to the sender of the request; it sends nothing when the
    password request handler refuses, and nothing when the connection has no
    channel password or no channel name. *)
Theorem handle_password_request_effect self w ev :
  wire (AgentConnection._handle_password_request self w ev) = wire w
  \/ (exists c,
        wire (AgentConnection._handle_password_request self w ev)
        = wire w ++ [password_reply_push self (AgentConnection.field ev "from") c])
     /\ handler_allows self ev = true
     /\ truthy (AgentConnection._channel_password self) = true
     /\ truthy (AgentConnection._channel_name self) = true.
Proof.
  unfold AgentConnection._handle_password_request, handler_allows.
  match goal with
  | |- context [if ?a && ?p && ?n && ?k then _ else _] =>
      destruct a eqn:Ha; [ | left; reflexivity ];
      destruct p eqn:Hp; [ | left; reflexivity ];
      destruct n eqn:Hn; [ | left; reflexivity ];
      destruct k eqn:Hk; [ | left; reflexivity ]
  end.
  cbn [andb].
  match goal with
  | |- context [RSA.rsa_encrypt ?w0 ?k ?p] =>
      assert (Hw : wire (snd (RSA.rsa_encrypt w0 k p)) = wire w0)
        by (unfold RSA.rsa_encrypt; destruct k; try reflexivity;
            destruct (str_encode p); [ | reflexivity ]; cbn [W.draw];
            match goal with |- context [oaep_encrypt ?a ?b ?c ?d] => destruct (oaep_encrypt a b c d) end;
            reflexivity);
      destruct (RSA.rsa_encrypt w0 k p) as [ [ cipher | ] w1 ]; cbn [snd] in Hw
  end.
  - right. split; [ | repeat split; reflexivity ].
    exists cipher. rewrite <- Hw.
    unfold MessagingChannelApi.send, HttpClient.request, MessagingChannelApi._url, password_reply_push.
    cbn [wire server W.set_wire String.eqb Ascii.eqb Bool.eqb].
    match goal with
    | |- context [server w1 (wire w1) ?r] => destruct (server w1 (wire w1) r) as [ txt | | ]
    end; [ destruct (Json.loads txt) as [ [ ] | ] | | ]; reflexivity.
  - left. exact Hw.
Qed.

(* ================================================================== *)
(** * The host agent *)

Lemma is_host_agent_witness :
  AgentConnection.is_host_agent (ready_conn "a2") (mock_world agents_server)
  = (Ret true, snd (AgentConnection.get_active_agents (ready_conn "a2") (mock_world agents_server))).
Proof.
  destruct (AgentConnection.get_active_agents (ready_conn "a2") (mock_world agents_server))
    as [ [ [ | a agents ] | ] w' ] eqn:E; try (vm_compute in E; discriminate E).
  apply (is_host_agent_always (ready_conn "a2") (mock_world agents_server) "a2" a agents w'
           eq_refl eq_refl E).
  vm_compute in E. injection E as <- <- <-. reflexivity.
Defined.

(* ================================================================== *)
(** * Texts that cannot be encoded *)

Example loads_lone_surrogate :
  Json.loads (q "'\ud800'") = Some (JStr lone_surrogate)
  /\ str_encode lone_surrogate = None.
Proof. split; vm_compute; reflexivity. Qed.

Lemma encrypt_unencodable_key now rnd m k n_bits :
  str_encode k = None -> AesCtr.encrypt now rnd m k n_bits = None.
Proof.
  intros H. unfold AesCtr.encrypt. rewrite H.
  destruct (negb (AesCtr.n_bits_ok n_bits)); reflexivity.
Qed.

Lemma decrypt_unencodable_key c k n_bits :
  str_encode k = None -> AesCtr.decrypt c k n_bits = None.
Proof.
  intros H. unfold AesCtr.decrypt. rewrite H.
  destruct (negb (AesCtr.n_bits_ok n_bits)); [ reflexivity | ].
  destruct (Base64.b64decode c); reflexivity.
Qed.

(** A key that cannot be encoded as UTF-8 (one with a lone surrogate, which
    a JSON reply can carry) is of no use: [hash] returns [None], [encrypt]
    the empty text, [encrypt_and_sign] an envelope with an empty cipher and
    no hash, and [decrypt_and_verify] returns [None] whatever the text. *)
Theorem unencodable_key_yields_nothing now rnd m k :
  str_encode k = None ->
  MySecurity.hash m (Some k) = None
  /\ MySecurity.encrypt now rnd m (Some k) = EmptyString
  /\ MySecurity.encrypt_and_sign now rnd m (Some k) = q "{'cipher': '', 'hash': null}"
  /\ forall text, MySecurity.decrypt_and_verify text (Some k) = None.
Proof.
  intros H.
  assert (Hh : MySecurity.hash m (Some k) = None) by (unfold MySecurity.hash; rewrite H; reflexivity).
  assert (He : MySecurity.encrypt now rnd m (Some k) = EmptyString)
    by (unfold MySecurity.encrypt; rewrite (encrypt_unencodable_key now rnd m k 128 H); reflexivity).
  split; [ exact Hh | ]. split; [ exact He | ]. split.
  - unfold MySecurity.encrypt_and_sign. rewrite Hh, He. vm_compute. reflexivity.
  - intros text. unfold MySecurity.decrypt_and_verify.
    destruct text; try reflexivity.
    destruct (Json.loads _) as [ [ ] | ]; try reflexivity.
    unfold MySecurity.decrypt.
    destruct (get_or _ _ _); try reflexivity.
    rewrite (decrypt_unencodable_key _ k 128 H). reflexivity.
Qed.

Lemma unencodable_key_witness :
  MySecurity.encrypt_and_sign 1700000000123 sample_rnd "hello" (Some lone_surrogate)
  = q "{'cipher': '', 'hash': null}"
  /\ MySecurity.decrypt_and_verify
       (JStr (MySecurity.encrypt_and_sign 1700000000123 sample_rnd "hello" (Some lone_surrogate)))
       (Some lone_surrogate) = None.
Proof.
  assert (H : str_encode lone_surrogate = None) by (vm_compute; reflexivity).
  destruct (unencodable_key_yields_nothing 1700000000123 sample_rnd "hello" lone_surrogate H)
    as (_ & _ & E & D).
  split; [ exact E | apply D ].
Defined.

(** [MessagingChannelApi.connect] with a channel name and a password whose
    concatenation cannot be encoded as UTF-8 sends nothing and stores
    nothing: the key derivation raises, and what is returned is the empty
    [ConnectResponse], the API and the world being as they were. *)
Theorem connect_unencodable_credentials api w n p agent_name session_id channel_id
    enable_webrtc_relay api_key_scope poll_source :
  String.eqb n EmptyString = false ->
  String.eqb p EmptyString = false ->
  str_encode (n ++ p) = None ->
  MessagingChannelApi.connect api w (JStr n) (JStr p) agent_name session_id
    channel_id enable_webrtc_relay api_key_scope poll_source
  = (ConnectResponse.empty, api, w).
Proof.
  intros Hn Hp H. unfold MessagingChannelApi.connect.
  rewrite (truthy_str n Hn), (truthy_str p Hp).
  cbn [andb MySecurity.derive_channel_secret_dyn]. rewrite H. reflexivity.
Qed.

Lemma connect_unencodable_credentials_witness :
  MessagingChannelApi.connect (MessagingChannelApi.init "http://host") (mock_world connect_server)
    (JStr "default") (JStr lone_surrogate) (JStr "a1") JNull JNull (JBool false)
    (JStr "private") (JStr "AUTO")
  = (ConnectResponse.empty, MessagingChannelApi.init "http://host", mock_world connect_server).
Proof.
  assert (H : str_encode ("default" ++ lone_surrogate) = None) by (vm_compute; reflexivity).
  exact (connect_unencodable_credentials (MessagingChannelApi.init "http://host")
           (mock_world connect_server) "default" lone_surrogate (JStr "a1") JNull JNull
           (JBool false) (JStr "private") (JStr "AUTO") eq_refl eq_refl H).
Defined.
